(** * multiflow: the two tunnelling proxies

    [proxysocks.cpp] is the HeaderBootstrap proxy: a worker takes an accepted
    client socket, reads one header block, authorises it, connects upstream
    and relays with epoll.  [socks5_server.cpp] is the SOCKS5 proxy: a
    Boost.Asio session written as a chain of completion handlers.

    Both programs are embedded shallowly.  The C++ standard-library string
    operations the handlers rely on come first; the blocking handler is a
    program in a small state/trace/exception monad whose system-call results
    are supplied by a script of the environment; the asynchronous session is
    the defunctionalised chain of its completion handlers. *)

From Stdlib Require Import String Ascii List ZArith Lia Bool Arith DecimalString.
Import ListNotations.
Open Scope string_scope.

(* ===================================================================== *)
(** ** std::string, std::stoi, std::to_string *)
(* ===================================================================== *)

Module Cxx.

(** What a C++ call can throw here: [std::out_of_range] and
    [std::invalid_argument], both derived from [std::exception]; the
    argument is [what()]. *)
Inductive exception :=
| out_of_range (what : string)
| invalid_argument (what : string).

Definition what (e : exception) : string :=
  match e with out_of_range w => w | invalid_argument w => w end.

(** A computation that returns or throws. *)
Definition result (A : Type) : Type := (exception + A)%type.

Definition empty (s : string) : bool :=
  match s with EmptyString => true | String _ _ => false end.

Fixpoint drop (n : nat) (s : string) : string :=
  match n, s with
  | O, _ => s
  | S _, EmptyString => EmptyString
  | S n', String _ s' => drop n' s'
  end.

Fixpoint take (n : nat) (s : string) : string :=
  match n, s with
  | O, _ => EmptyString
  | S _, EmptyString => EmptyString
  | S n', String c s' => String c (take n' s')
  end.

(** First position at which [needle] occurs in [s]; [None] is [npos]. *)
Fixpoint find0 (s needle : string) : option nat :=
  if prefix needle s then Some O
  else match s with
       | EmptyString => None
       | String _ s' => option_map S (find0 s' needle)
       end.

(** [s.find(needle, pos)] *)
Definition find (s needle : string) (pos : nat) : option nat :=
  if (pos <=? String.length s)%nat
  then option_map (Nat.add pos) (find0 (drop pos s) needle)
  else None.

(** [s.substr(pos)]: throws when [pos > size()]. *)
Definition substr (s : string) (pos : nat) : result string :=
  if (pos <=? String.length s)%nat then inr (drop pos s)
  else inl (out_of_range "basic_string::substr").

(** [s.substr(pos, n)] *)
Definition substr_n (s : string) (pos n : nat) : result string :=
  if (pos <=? String.length s)%nat then inr (take n (drop pos s))
  else inl (out_of_range "basic_string::substr").

Definition INT_MAX : Z := 2147483647.
Definition INT_MIN : Z := -2147483648.

(** [isspace] in the C locale: space, \t, \n, \v, \f, \r. *)
Definition isspace (c : ascii) : bool :=
  let n := nat_of_ascii c in
  ((n =? 32) || ((9 <=? n) && (n <=? 13)))%nat.

Definition isdigit (c : ascii) : bool :=
  let n := nat_of_ascii c in ((48 <=? n) && (n <=? 57))%nat.

Fixpoint skip_space (s : string) : string :=
  match s with
  | String c s' => if isspace c then skip_space s' else s
  | EmptyString => s
  end.

(** The longest run of decimal digits at the head of [s], read into [acc];
    the second component counts the digits consumed. *)
Fixpoint read_digits (s : string) (acc : Z) : Z * nat :=
  match s with
  | String c s' =>
      if isdigit c
      then let '(v, n) := read_digits s' (10 * acc + Z.of_nat (nat_of_ascii c - 48)) in
           (v, S n)
      else (acc, O)
  | EmptyString => (acc, O)
  end.

(** [std::stoi(s)]: [strtol] in base 10 (blanks, an optional sign, digits,
    anything after them ignored); no digit at all is [invalid_argument], a
    value outside [int] is [out_of_range]. *)
Definition stoi (s : string) : result Z :=
  let s1 := skip_space s in
  let '(neg, s2) :=
    match s1 with
    | String "-" r => (true, r)
    | String "+" r => (false, r)
    | _ => (false, s1)
    end in
  let '(v, n) := read_digits s2 0 in
  match n with
  | O => inl (invalid_argument "stoi")
  | S _ =>
      let v' := if neg then (- v)%Z else v in
      if ((INT_MIN <=? v') && (v' <=? INT_MAX))%Z then inr v'
      else inl (out_of_range "stoi")
  end.

(** [std::to_string(int)] *)
Definition to_string (z : Z) : string := NilZero.string_of_int (Z.to_int z).

End Cxx.

(* ===================================================================== *)
(** ** proxysocks.cpp: the HeaderBootstrap proxy *)
(* ===================================================================== *)

Module HeaderBootstrap.
Import Cxx.

(** *** Globals *)

(** The bind address and the passphrase are the two globals the handler's
    authorisation reads; they are kept as a record so that statements can
    range over configurations.  [shipped] holds the values of the source. *)
Record Globals := { IP : string; PASS : string }.

Definition shipped : Globals := {| IP := "0.0.0.0"; PASS := "" |}.

Definition PORT : Z := 80.
Definition BUFLEN : Z := 131072.
Definition TIMEOUT : Z := 60.
Definition CRLF : string := String "013"%char (String "010"%char "").
Definition dquote : string := String (ascii_of_nat 34) "".
Definition MSG : string := "@TMYCOMNECTVPN".
Definition COR : string := "<font color=" ++ dquote ++ "null" ++ dquote ++ ">".
Definition FTAG : string := "</font>".
Definition DEFAULT_HOST : string := "0.0.0.0:22".
Definition RESPONSE : string := "HTTP/1.1 200 " ++ COR ++ MSG ++ FTAG ++ CRLF ++ CRLF.

Definition WRONG_PASS : string := "HTTP/1.1 400 WrongPass!" ++ CRLF ++ CRLF.
Definition FORBIDDEN : string := "HTTP/1.1 403 Forbidden!" ++ CRLF ++ CRLF.
Definition BAD_GATEWAY : string := "HTTP/1.1 502 Bad Gateway!" ++ CRLF ++ CRLF.

(** errno values and flag bits of Linux used by the handler. *)
Definition EINTR : Z := 4.
Definition EAGAIN : Z := 11.
Definition EINVAL : Z := 22.
Definition EWOULDBLOCK : Z := 11.
Definition EINPROGRESS : Z := 115.
Definition EPOLLIN : Z := 1.
Definition EPOLLERR : Z := 8.
Definition EPOLLHUP : Z := 16.
Definition EPOLLET : Z := 2147483648.
Definition MSG_DONTWAIT : Z := 64.

(** *** findHeader *)

Definition findHeader (head header : string) : result string :=
  match find head (header ++ ": ") 0 with
  | None => inr ""
  | Some aux =>
      match find head ":" aux with
      | None => inr ""
      | Some aux =>
          match substr head (aux + 2) with
          | inl e => inl e
          | inr sub =>
              match find sub CRLF 0 with
              | None => inr ""
              | Some aux => substr_n sub 0 aux
              end
          end
      end
  end.

(** *** System calls and their results *)

(** A call that returns a number, or -1 with [errno] set. *)
Inductive sysret := Ok (v : Z) | Err (errno : Z).

Definition retval (r : sysret) : Z :=
  match r with Ok v => v | Err _ => (-1)%Z end.

(** A call that moves bytes ([recv], [splice]): the bytes moved, or 0 at
    end of stream, or -1.  [Eof] carries the value [errno] has when the
    code reads it afterwards (a call returning 0 leaves [errno] alone). *)
Inductive io_ret := Bytes (data : string) | Eof (errno : Z) | Failed (errno : Z).

Definition io_len (r : io_ret) : Z :=
  match r with
  | Bytes d => Z.of_nat (String.length d)
  | Eof _ => 0%Z
  | Failed _ => (-1)%Z
  end.

Definition io_data (r : io_ret) : string :=
  match r with Bytes d => d | _ => "" end.

Definition io_errno (r : io_ret) : Z :=
  match r with Bytes _ => 0%Z | Eof e => e | Failed e => e end.

Inductive sockopt :=
| SO_KEEPALIVE | TCP_NODELAY | TCP_KEEPIDLE | TCP_KEEPCNT | TCP_KEEPINTVL.

(** One readiness event as [epoll_wait] reports it, with what the calls
    made for it return. *)
Record ready := {
  r_fd : Z;
  r_events : Z;
  r_splice : io_ret;
  r_recv : io_ret;
  r_send : sysret
}.

(** [epoll_wait]: -1, or the events reported (none: the wait timed out). *)
Inductive wait_ret := WaitFailed (errno : Z) | Ready (evs : list ready).

(** What a connection does to the outside, in order. *)
Inductive event :=
| FcntlGetfl (fd : Z) (r : sysret)
| FcntlSetflNonblock (fd : Z) (r : sysret)
| Recv (fd : Z) (cap flags : Z) (r : io_ret)
| Send (fd : Z) (data : string) (flags : Z) (r : sysret)
| Splice (src dst : Z) (cap : Z) (r : io_ret)
| Getaddrinfo (host service : string) (r : option Z)
| Freeaddrinfo
| Socket (r : sysret)
| Setsockopt (fd : Z) (opt : sockopt) (val : Z)
| Connect (fd : Z) (r : sysret)
| Shutdown (fd : Z)
| Close (fd : Z)
| EpollCreate (r : sysret)
| EpollCtlAdd (epfd fd : Z) (evs : Z) (r : sysret)
| EpollWait (epfd : Z) (maxevents timeout : Z) (r : wait_ret)
| AsyncLog (msg : string) (errno : option Z).

(** The results the environment gives to one connection. *)
Record env := {
  e_nb_client : sysret * sysret;
  e_recv : io_ret;
  e_recv_split : io_ret;
  e_send : sysret;
  e_getaddrinfo : option Z;
  e_socket : sysret;
  e_nb_target : sysret * sysret;
  e_connect : sysret;
  e_epoll_create : sysret;
  e_ctl_client : sysret;
  e_ctl_target : sysret;
  e_waits : list wait_ret
}.

(** *** ConnectionHandler *)

Record ConnectionHandler := {
  clientSock : Z;
  targetSock : Z;
  logStr : string;
  clientClosed : bool;
  targetClosed : bool;
  epollFd : Z
}.

(** [ConnectionHandler(sock, addr)] *)
Definition new_handler (sock : Z) (addr : string) : ConnectionHandler :=
  {| clientSock := sock; targetSock := (-1)%Z; logStr := "Conexao: " ++ addr;
     clientClosed := false; targetClosed := true; epollFd := (-1)%Z |}.

Definition set_targetSock (v : Z) (h : ConnectionHandler) :=
  {| clientSock := clientSock h; targetSock := v; logStr := logStr h;
     clientClosed := clientClosed h; targetClosed := targetClosed h;
     epollFd := epollFd h |}.

Definition set_clientClosed (b : bool) (h : ConnectionHandler) :=
  {| clientSock := clientSock h; targetSock := targetSock h; logStr := logStr h;
     clientClosed := b; targetClosed := targetClosed h; epollFd := epollFd h |}.

Definition set_targetClosed (b : bool) (h : ConnectionHandler) :=
  {| clientSock := clientSock h; targetSock := targetSock h; logStr := logStr h;
     clientClosed := clientClosed h; targetClosed := b; epollFd := epollFd h |}.

Definition set_epollFd (v : Z) (h : ConnectionHandler) :=
  {| clientSock := clientSock h; targetSock := targetSock h; logStr := logStr h;
     clientClosed := clientClosed h; targetClosed := targetClosed h;
     epollFd := v |}.

(** *** The monad of a member function: the handler's fields, the events
    emitted so far, and a value or a thrown exception. *)

Definition M (A : Type) : Type :=
  ConnectionHandler -> result A * ConnectionHandler * list event.

Definition ret {A} (a : A) : M A := fun h => (inr a, h, []).

Definition throw {A} (e : exception) : M A := fun h => (inl e, h, []).

Definition bind {A B} (m : M A) (k : A -> M B) : M B :=
  fun h =>
    let '(r, h1, t1) := m h in
    match r with
    | inl e => (inl e, h1, t1)
    | inr a => let '(r2, h2, t2) := k a h1 in (r2, h2, (t1 ++ t2)%list)
    end.

Definition try_catch {A} (body : M A) (handler : exception -> M A) : M A :=
  fun h =>
    let '(r, h1, t1) := body h in
    match r with
    | inl e => let '(r2, h2, t2) := handler e h1 in (r2, h2, (t1 ++ t2)%list)
    | inr a => (inr a, h1, t1)
    end.

Definition lift {A} (r : result A) : M A := fun h => (r, h, []).
Definition get : M ConnectionHandler := fun h => (inr h, h, []).
Definition modify (f : ConnectionHandler -> ConnectionHandler) : M unit :=
  fun h => (inr tt, f h, []).
Definition emit (e : event) : M unit := fun h => (inr tt, h, [e]).

Declare Scope m_scope.
Delimit Scope m_scope with M.
Notation "x <- m ;; k" := (bind m (fun x => k))
  (at level 61, m at next level, right associativity) : m_scope.
Notation "m ;; k" := (bind m (fun _ => k))
  (at level 61, right associativity) : m_scope.
Open Scope m_scope.
Open Scope Z_scope.

(** [asyncLog(logStr + msg)], or with [strerror(errno)] appended. *)
Definition asyncLog (msg : string) (errno : option Z) : M unit :=
  h <- get ;; emit (AsyncLog (logStr h ++ msg) errno).

(** *** close *)

Definition close : M unit :=
  h <- get ;;
  (if negb (clientClosed h) && negb (clientSock h =? -1)
   then emit (Shutdown (clientSock h)) ;;
        emit (Close (clientSock h)) ;;
        modify (set_clientClosed true)
   else ret tt) ;;
  h <- get ;;
  if negb (targetClosed h) && negb (targetSock h =? -1)
  then emit (Shutdown (targetSock h)) ;;
       emit (Close (targetSock h)) ;;
       modify (set_targetClosed true)
  else ret tt.

(** [~ConnectionHandler()] *)
Definition destructor : M unit :=
  close ;;
  h <- get ;;
  if negb (epollFd h =? -1) then emit (Close (epollFd h)) else ret tt.

(** *** setNonBlocking *)

Definition setNonBlocking (sock : Z) (r : sysret * sysret) : M bool :=
  emit (FcntlGetfl sock (fst r)) ;;
  if retval (fst r) =? -1 then ret false
  else emit (FcntlSetflNonblock sock (snd r)) ;;
       ret (negb (retval (snd r) =? -1)).

Definition sys_errno (r : sysret) : Z :=
  match r with Ok _ => 0 | Err e => e end.

(** *** connectTarget *)

(** Lines 123-125: the host before the first colon and the port after it. *)
Definition split_hostPort (hostPort : string) : result (string * Z) :=
  let colonPos := find hostPort ":" 0 in
  match (match colonPos with
         | Some p => substr_n hostPort 0 p
         | None => inr hostPort
         end) with
  | inl x => inl x
  | inr host =>
      match (match colonPos with
             | Some p =>
                 match substr hostPort (p + 1) with
                 | inl x => inl x
                 | inr s => stoi s
                 end
             | None => inr 22
             end) with
      | inl x => inl x
      | inr port => inr (host, port)
      end
  end.

Definition connectTarget (e : env) (hostPort : string) : M bool :=
  hp <- lift (split_hostPort hostPort) ;;
  let '(host, port) := hp in
  emit (Getaddrinfo host (to_string port) (e_getaddrinfo e)) ;;
  match e_getaddrinfo e with
  | Some errno =>
      asyncLog " - Erro getaddrinfo: " (Some errno) ;;
      ret false
  | None =>
      emit (Socket (e_socket e)) ;;
      modify (set_targetSock (retval (e_socket e))) ;;
      h <- get ;;
      if targetSock h =? -1
      then asyncLog " - Erro socket: " (Some (sys_errno (e_socket e))) ;;
           emit Freeaddrinfo ;;
           ret false
      else
        nb <- setNonBlocking (targetSock h) (e_nb_target e) ;;
        if negb nb
        then asyncLog " - Erro non-blocking target: "
               (Some (sys_errno (if retval (fst (e_nb_target e)) =? -1
                                 then fst (e_nb_target e)
                                 else snd (e_nb_target e)))) ;;
             emit (Close (targetSock h)) ;;
             emit Freeaddrinfo ;;
             ret false
        else
          emit (Setsockopt (targetSock h) SO_KEEPALIVE 1) ;;
          emit (Setsockopt (targetSock h) TCP_NODELAY 1) ;;
          emit (Setsockopt (targetSock h) TCP_KEEPIDLE 10) ;;
          emit (Setsockopt (targetSock h) TCP_KEEPCNT 3) ;;
          emit (Setsockopt (targetSock h) TCP_KEEPINTVL 5) ;;
          emit (Connect (targetSock h) (e_connect e)) ;;
          if (retval (e_connect e) =? -1)
             && negb (sys_errno (e_connect e) =? EINPROGRESS)
          then asyncLog " - Erro connect: " (Some (sys_errno (e_connect e))) ;;
               emit (Close (targetSock h)) ;;
               emit Freeaddrinfo ;;
               ret false
          else
            modify (set_targetClosed false) ;;
            emit Freeaddrinfo ;;
            ret true
  end.

(** *** The relay loop of handle *)

(** How [handle] stands when the script of the environment is used up:
    it has returned, or it is blocked in [epoll_wait] with the idle
    counter at [count]. *)
Inductive status := Returned | Waiting (count : Z).

(** One direction of the tunnel for one event: the splice, and the
    recv/send fallback.  The value is [true] when the code leaves the
    [for] loop with [break]. *)
Definition pump (src dst : Z) (label : string) (r : ready) : M bool :=
  emit (Splice src dst BUFLEN (r_splice r)) ;;
  if io_len (r_splice r) <=? 0
  then
    if negb (io_errno (r_splice r) =? EAGAIN)
       && negb (io_errno (r_splice r) =? EWOULDBLOCK)
    then asyncLog label (Some (io_errno (r_splice r))) ;;
         ret true
    else
      emit (Recv src BUFLEN MSG_DONTWAIT (r_recv r)) ;;
      if io_len (r_recv r) <=? 0 then ret true
      else
        emit (Send dst (io_data (r_recv r)) MSG_DONTWAIT (r_send r)) ;;
        if retval (r_send r) <=? 0 then ret true else ret false
  else ret false.

(** [for (int i = 0; i < nfds; ++i)] over the reported events. *)
Fixpoint for_events (evs : list ready) : M unit :=
  match evs with
  | [] => ret tt
  | r :: rest =>
      h <- get ;;
      if negb (Z.land (r_events r) (Z.lor EPOLLERR EPOLLHUP) =? 0)
      then asyncLog (" - Erro epoll event em fd " ++ to_string (r_fd r)) None
      else if r_fd r =? clientSock h
      then b <- pump (clientSock h) (targetSock h)
                  " - Erro splice client->target: " r ;;
           if b then ret tt else for_events rest
      else if r_fd r =? targetSock h
      then b <- pump (targetSock h) (clientSock h)
                  " - Erro splice target->client: " r ;;
           if b then ret tt else for_events rest
      else for_events rest
  end.

(** [while (true)] around [epoll_wait]: one iteration for each scripted
    result. *)
Fixpoint relay (script : list wait_ret) (count : Z) : M status :=
  match script with
  | [] => ret (Waiting count)
  | w :: rest =>
      h <- get ;;
      emit (EpollWait (epollFd h) 2 1000 w) ;;
      match w with
      | WaitFailed errno =>
          if errno =? EINTR then relay rest count
          else asyncLog " - Erro epoll_wait: " (Some errno) ;;
               ret Returned
      | Ready [] =>
          let count := count + 1 in
          if count >=? TIMEOUT
          then asyncLog " - Timeout atingido" None ;;
               ret Returned
          else relay rest count
      | Ready evs =>
          for_events evs ;;
          relay rest 0
      end
  end.

(** *** handle *)

(** Lines 204-206: the decision. *)
Definition authorize (g : Globals) (passwd hostPort : string) : bool :=
  if negb (empty (PASS g)) && (passwd =? PASS g)%string then true
  else match find hostPort (IP g) 0 with
       | Some O => true
       | _ => false
       end.

(** Line 209: the reply of a rejection. *)
Definition errResp (g : Globals) (passwd : string) : string :=
  if negb (empty (PASS g)) && negb (passwd =? PASS g)%string
  then WRONG_PASS else FORBIDDEN.

(** Lines 215-303: connect upstream, answer, then relay. *)
Definition tunnel (e : env) (hostPort : string) : M status :=
  h <- get ;;
  connected <- connectTarget e hostPort ;;
  if negb connected
  then emit (Send (clientSock h) BAD_GATEWAY 0 (e_send e)) ;;
       ret Returned
  else
    emit (Setsockopt (clientSock h) TCP_NODELAY 1) ;;
    emit (Send (clientSock h) RESPONSE 0 (e_send e)) ;;
    asyncLog (" - CONNECT " ++ hostPort) None ;;
    emit (EpollCreate (e_epoll_create e)) ;;
    modify (set_epollFd (retval (e_epoll_create e))) ;;
    h <- get ;;
    if epollFd h =? -1
    then asyncLog " - Erro epoll_create: "
           (Some (sys_errno (e_epoll_create e))) ;;
         ret Returned
    else
      emit (EpollCtlAdd (epollFd h) (clientSock h)
              (Z.lor EPOLLIN EPOLLET) (e_ctl_client e)) ;;
      if retval (e_ctl_client e) =? -1
      then asyncLog " - Erro epoll_ctl client: "
             (Some (sys_errno (e_ctl_client e))) ;;
           ret Returned
      else
        emit (EpollCtlAdd (epollFd h) (targetSock h)
                (Z.lor EPOLLIN EPOLLET) (e_ctl_target e)) ;;
        if retval (e_ctl_target e) =? -1
        then asyncLog " - Erro epoll_ctl target: "
               (Some (sys_errno (e_ctl_target e))) ;;
             ret Returned
        else relay (e_waits e) 0.

(** Lines 194-213: the headers, the decision, the rejection. *)
Definition negotiate (g : Globals) (e : env) (clientBuffer : string) : M status :=
  h <- get ;;
  found <- lift (findHeader clientBuffer "X-Real-Host") ;;
  let hostPort := if empty found then DEFAULT_HOST else found in
  split <- lift (findHeader clientBuffer "X-Split") ;;
  (if negb (empty split)
   then emit (Recv (clientSock h) BUFLEN MSG_DONTWAIT (e_recv_split e))
   else ret tt) ;;
  passwd <- lift (findHeader clientBuffer "X-Pass") ;;
  if negb (authorize g passwd hostPort)
  then emit (Send (clientSock h) (errResp g passwd) 0 (e_send e)) ;;
       asyncLog " - Acesso negado" None ;;
       ret Returned
  else tunnel e hostPort.

Definition handle (g : Globals) (e : env) : M status :=
  try_catch
    (h <- get ;;
     nb <- setNonBlocking (clientSock h) (e_nb_client e) ;;
     if negb nb
     then asyncLog " - Erro non-blocking client: "
            (Some (sys_errno (if retval (fst (e_nb_client e)) =? -1
                              then fst (e_nb_client e)
                              else snd (e_nb_client e)))) ;;
          ret Returned
     else
       emit (Recv (clientSock h) (BUFLEN - 1) 0 (e_recv e)) ;;
       if io_len (e_recv e) <=? 0
       then asyncLog " - Erro recv inicial: " (Some (io_errno (e_recv e))) ;;
            ret Returned
       else negotiate g e (io_data (e_recv e)))
    (fun ex =>
       asyncLog (" - Excecao: " ++ what ex) None ;;
       ret Returned).

(** [poolWorker]: [handler->handle(); delete handler;].  The destructor
    runs once [handle] has returned. *)
Definition serve (g : Globals) (e : env) : M status :=
  st <- handle g e ;;
  match st with
  | Returned => destructor ;; ret Returned
  | Waiting c => ret (Waiting c)
  end.

(** The events of a whole connection on socket [sock] from [addr]. *)
Definition run (g : Globals) (e : env) (sock : Z) (addr : string)
  : result status * ConnectionHandler * list event :=
  serve g e (new_handler sock addr).

Definition trace_of {A} (x : result A * ConnectionHandler * list event)
  : list event := snd x.
Definition final_of {A} (x : result A * ConnectionHandler * list event)
  : ConnectionHandler := snd (fst x).
Definition value_of {A} (x : result A * ConnectionHandler * list event)
  : result A := fst (fst x).

(** The bytes the connection handed to [send] on [fd], one entry a call. *)
Fixpoint sends_to (fd : Z) (t : list event) : list string :=
  match t with
  | [] => []
  | Send fd' data _ _ :: t' =>
      if fd' =? fd then data :: sends_to fd t' else sends_to fd t'
  | _ :: t' => sends_to fd t'
  end.

End HeaderBootstrap.

(* ===================================================================== *)
(** ** socks5_server.cpp: the SOCKS5 session *)
(* ===================================================================== *)

Module Socks5.

Open Scope Z_scope.

Inductive error_code :=
| success | eof | operation_aborted | timed_out | invalid_argument
| failure (n : Z).

(** [if (ec)] *)
Definition failed (ec : error_code) : bool :=
  match ec with success => false | _ => true end.

Inductive socket := client_socket_ | remote_socket_.

Inductive address :=
| unspecified
| v4 (bytes : list Z)
| v6 (bytes : list Z).

Record endpoint := { ep_address : address; ep_port : Z }.

(** A reference to the automatic objects [dest_addr] and [dest_port] of
    one run of the completion handler of [read_request] (lines 150-151):
    the index of that run's objects in [frames]. *)
Definition ref : Type := nat.

(** The completion handlers of [Session], one constructor for each lambda,
    with what the lambda captures: values, and for the lambdas of lines
    154-190 the reference through which they reach [dest_addr] and
    [dest_port] ([&dest_addr], [&dest_port]). *)
Inductive handler :=
| on_handshake_head
| on_handshake_methods (nmethods : Z)
| on_reject_written
| on_accept_written
| on_request_head
| on_ipv4 (dest : ref)
| on_domain_length (dest : ref)
| on_domain (dest : ref) (len : Z)
| on_ipv6 (dest : ref)
| on_port (dest_addr : string) (dest : ref)
| on_resolved
| on_connected
| on_reply_written (rep : Z)
| on_client_data
| on_remote_written
| on_remote_data
| on_client_written.

(** What an [async_write] was given: bytes of its own, or the first
    [length] bytes of the member [buffer_], read when the write is done. *)
Inductive source := Literal (data : list Z) | FromBuffer (length : nat).

(** What a session does, in order.  [ResolverDestroyed] is the destructor
    of the [tcp::resolver] that is a local of [connect_remote].
    [Undefined] marks the use of an object whose lifetime has ended: from
    there on C++ defines no behaviour, and the handler's remaining
    statements are given none. *)
Inductive action :=
| Log (msg : string)
| ExpiresAfter (seconds : Z)
| Cancel
| AsyncRead (s : socket) (n : Z)
| AsyncReadSome (s : socket) (cap : Z)
| AsyncWrite (s : socket) (src : source)
| Transmit (s : socket) (data : list Z)
| AsyncResolve (host service : string)
| ResolverDestroyed
| AsyncConnect (endpoints : list endpoint)
| Shutdown (s : socket)
| Close (s : socket)
| Undefined (object : string).

(** What the [io_context] dispatches to a session: the completion of the
    operation pending on a socket, on the resolver or on the timer.  A
    completion stands for the operation being performed and its handler
    being run.  [Resolved] carries what the lookup gives; a resolve whose
    resolver was destroyed is cancelled, and its handler is run with
    [operation_aborted] instead. *)
Inductive event :=
| ClientRead (ec : error_code) (data : list Z)
| ClientWritten (ec : error_code)
| RemoteRead (ec : error_code) (data : list Z)
| RemoteWritten (ec : error_code)
| Resolved (ec : error_code) (endpoints : list endpoint)
| Connected (ec : error_code) (local : endpoint)
| TimerExpired.

(** The members of [Session], and the handlers its pending operations
    hold.  [timer_] is the pending wait in seconds; a wait that was
    cancelled completes with [operation_aborted], on which its handler
    does nothing, so it is dropped.  [frames] holds, for each run of the
    completion handler of [read_request] that declared them, the objects
    [dest_addr] and [dest_port], or [None] once that run has returned and
    they are destroyed.  [resolver_destroyed] says that the resolver on
    which the pending resolve was started has been destroyed. *)
Record Session := {
  buffer_ : list Z;
  timer_ : option Z;
  client_open : bool;
  remote_open : bool;
  client_rd : option handler;
  client_wr : list (handler * source);
  remote_rd : option handler;
  remote_wr : list (handler * source);
  connector : option handler;
  frames : list (option (string * Z));
  resolver_destroyed : bool
}.

Definition BUFFER_SIZE : Z := 8192.

(** A session whose client socket was just accepted; [buf] is what the
    uninitialised [buffer_] holds. *)
Definition accepted (buf : list Z) : Session :=
  {| buffer_ := buf; timer_ := None; client_open := true; remote_open := false;
     client_rd := None; client_wr := []; remote_rd := None; remote_wr := [];
     connector := None; frames := []; resolver_destroyed := false |}.

Definition set_buffer_ v (s : Session) :=
  {| buffer_ := v; timer_ := timer_ s; client_open := client_open s;
     remote_open := remote_open s; client_rd := client_rd s;
     client_wr := client_wr s; remote_rd := remote_rd s;
     remote_wr := remote_wr s; connector := connector s;
     frames := frames s; resolver_destroyed := resolver_destroyed s |}.
Definition set_timer_ v (s : Session) :=
  {| buffer_ := buffer_ s; timer_ := v; client_open := client_open s;
     remote_open := remote_open s; client_rd := client_rd s;
     client_wr := client_wr s; remote_rd := remote_rd s;
     remote_wr := remote_wr s; connector := connector s;
     frames := frames s; resolver_destroyed := resolver_destroyed s |}.
Definition set_open (c r : bool) (s : Session) :=
  {| buffer_ := buffer_ s; timer_ := timer_ s; client_open := c;
     remote_open := r; client_rd := client_rd s; client_wr := client_wr s;
     remote_rd := remote_rd s; remote_wr := remote_wr s;
     connector := connector s; frames := frames s;
     resolver_destroyed := resolver_destroyed s |}.
Definition set_client_rd v (s : Session) :=
  {| buffer_ := buffer_ s; timer_ := timer_ s;
     client_open := client_open s; remote_open := remote_open s;
     client_rd := v; client_wr := client_wr s; remote_rd := remote_rd s;
     remote_wr := remote_wr s; connector := connector s;
     frames := frames s; resolver_destroyed := resolver_destroyed s |}.
Definition set_client_wr v (s : Session) :=
  {| buffer_ := buffer_ s; timer_ := timer_ s;
     client_open := client_open s; remote_open := remote_open s;
     client_rd := client_rd s; client_wr := v; remote_rd := remote_rd s;
     remote_wr := remote_wr s; connector := connector s;
     frames := frames s; resolver_destroyed := resolver_destroyed s |}.
Definition set_remote_rd v (s : Session) :=
  {| buffer_ := buffer_ s; timer_ := timer_ s;
     client_open := client_open s; remote_open := remote_open s;
     client_rd := client_rd s; client_wr := client_wr s; remote_rd := v;
     remote_wr := remote_wr s; connector := connector s;
     frames := frames s; resolver_destroyed := resolver_destroyed s |}.
Definition set_remote_wr v (s : Session) :=
  {| buffer_ := buffer_ s; timer_ := timer_ s;
     client_open := client_open s; remote_open := remote_open s;
     client_rd := client_rd s; client_wr := client_wr s;
     remote_rd := remote_rd s; remote_wr := v; connector := connector s;
     frames := frames s; resolver_destroyed := resolver_destroyed s |}.
Definition set_connector v (s : Session) :=
  {| buffer_ := buffer_ s; timer_ := timer_ s;
     client_open := client_open s; remote_open := remote_open s;
     client_rd := client_rd s; client_wr := client_wr s;
     remote_rd := remote_rd s; remote_wr := remote_wr s; connector := v;
     frames := frames s; resolver_destroyed := resolver_destroyed s |}.
Definition set_frames v (s : Session) :=
  {| buffer_ := buffer_ s; timer_ := timer_ s;
     client_open := client_open s; remote_open := remote_open s;
     client_rd := client_rd s; client_wr := client_wr s;
     remote_rd := remote_rd s; remote_wr := remote_wr s;
     connector := connector s; frames := v;
     resolver_destroyed := resolver_destroyed s |}.
Definition set_resolver_destroyed v (s : Session) :=
  {| buffer_ := buffer_ s; timer_ := timer_ s;
     client_open := client_open s; remote_open := remote_open s;
     client_rd := client_rd s; client_wr := client_wr s;
     remote_rd := remote_rd s; remote_wr := remote_wr s;
     connector := connector s; frames := frames s;
     resolver_destroyed := v |}.

(** A member function: it changes the session and issues actions. *)
Definition Act : Type := Session -> Session * list action.

Definition skip : Act := fun s => (s, []).
Definition seq (a b : Act) : Act :=
  fun s => let '(s1, t1) := a s in
           let '(s2, t2) := b s1 in (s2, (t1 ++ t2)%list).
Definition act (x : action) : Act := fun s => (s, [x]).
Definition upd (f : Session -> Session) : Act := fun s => (f s, []).
Definition reading (f : Session -> Act) : Act := fun s => f s s.

Declare Scope act_scope.
Delimit Scope act_scope with act.
Notation "a >> b" := (seq a b) (at level 62, right associativity) : act_scope.
Open Scope act_scope.

(** [buffer_[i]] *)
Definition at_ (s : Session) (i : nat) : Z := nth i (buffer_ s) 0.

Fixpoint store {A} (i : nat) (x : A) (l : list A) : list A :=
  match l, i with
  | [], _ => []
  | _ :: l', O => x :: l'
  | y :: l', S i' => y :: store i' x l'
  end.

(** The declaration of [dest_addr] and [dest_port] (lines 150-151) and
    their destruction when the handler that declared them returns. *)
Definition declare : Act :=
  upd (fun s => set_frames (frames s ++ [Some ("", 0)])%list s).

Definition destroy (dest : ref) : Act :=
  upd (fun s => set_frames (store dest None (frames s)) s).

(** An access to [dest_addr] or [dest_port] through the reference
    [dest]: to the objects while they are alive, undefined once they are
    destroyed. *)
Definition through (dest : ref) (object : string)
    (k : string * Z -> Act) : Act :=
  reading (fun s =>
    match nth dest (frames s) None with
    | Some d => k d
    | None => act (Undefined object)
    end).

(** An assignment through the reference. *)
Definition assign (dest : ref) (d : string * Z) : Act :=
  upd (fun s => set_frames (store dest (Some d) (frames s)) s).

(** A completed read left [data] at the start of [buffer_]. *)
Definition deposit (data : list Z) : Act :=
  upd (fun s => set_buffer_
                  (map (fun b => b mod 256) data
                     ++ skipn (List.length data) (buffer_ s))%list s).

Definition async_read (sock : socket) (n : Z) (h : handler) : Act :=
  act (AsyncRead sock n) >>
  upd (match sock with
       | client_socket_ => set_client_rd (Some h)
       | remote_socket_ => set_remote_rd (Some h)
       end).

Definition async_read_some (sock : socket) (h : handler) : Act :=
  act (AsyncReadSome sock BUFFER_SIZE) >>
  upd (match sock with
       | client_socket_ => set_client_rd (Some h)
       | remote_socket_ => set_remote_rd (Some h)
       end).

Definition async_write (sock : socket) (src : source) (h : handler) : Act :=
  act (AsyncWrite sock src) >>
  upd (fun s => match sock with
                | client_socket_ => set_client_wr (client_wr s ++ [(h, src)])%list s
                | remote_socket_ => set_remote_wr (remote_wr s ++ [(h, src)])%list s
                end).

Section Library.

(** Two functions of Boost.Asio the session prints with:
    [address_v6::to_string] and [error_code::message]. *)
Variable v6_to_string : list Z -> string.
Variable message : error_code -> string.

Definition set_timeout (seconds : Z) : Act :=
  act (ExpiresAfter seconds) >> upd (set_timer_ (Some seconds)).

Definition cancel_timeout : Act :=
  act Cancel >> upd (set_timer_ None).

Definition handle_error (ec : error_code) : Act :=
  cancel_timeout >>
  (match ec with
   | success | eof | operation_aborted => skip
   | _ => act (Log ("Erro: " ++ message ec))
   end) >>
  act (Shutdown client_socket_) >>
  act (Shutdown remote_socket_) >>
  act (Close client_socket_) >>
  act (Close remote_socket_) >>
  upd (set_open false false).

Definition read_handshake : Act :=
  async_read client_socket_ 2 on_handshake_head.

Definition a_tilde : string := String (ascii_of_nat 195) (String (ascii_of_nat 163) "").

Definition start : Act :=
  act (Log ("Nova sess" ++ a_tilde ++ "o iniciada")) >>
  set_timeout 30 >>
  read_handshake.

Definition read_request : Act :=
  async_read client_socket_ 4 on_request_head.

(** [read_port(dest_addr, dest_port)]: both parameters are references;
    the lambda copies the string [dest_addr] refers to and keeps the
    reference to [dest_port]. *)
Definition read_port (dest : ref) : Act :=
  through dest "dest_addr" (fun d =>
    async_read client_socket_ 2 (on_port (fst d) dest)).

Definition fixed_target_port : Z := 22.
Definition fixed_target_addr : string := "127.0.0.1".

(** The destination read from the client is not used.  The resolver is
    a local (line 200): it is destroyed when [connect_remote] returns,
    with the resolve it has just started still pending, which cancels that
    resolve as if by [cancel()]. *)
Definition connect_remote (dest_addr : string) (dest_port : Z) : Act :=
  upd (set_resolver_destroyed false) >>
  act (AsyncResolve fixed_target_addr (Cxx.to_string fixed_target_port)) >>
  upd (set_connector (Some on_resolved)) >>
  act ResolverDestroyed >>
  upd (set_resolver_destroyed true).

Definition send_reply (rep : Z) (addr : address) (port : Z) : Act :=
  let reply :=
    ([5; rep; 0]
       ++ match addr with
          | v4 bytes => 1 :: bytes
          | v6 bytes => 4 :: bytes
          | unspecified => [1; 0; 0; 0; 0]
          end
       ++ [Z.shiftr port 8 mod 256; port mod 256])%list in
  async_write client_socket_ (Literal reply) (on_reply_written rep).

Definition read_from_client : Act :=
  async_read_some client_socket_ on_client_data.

Definition read_from_remote : Act :=
  async_read_some remote_socket_ on_remote_data.

Definition forward_data : Act :=
  set_timeout 300 >> read_from_client >> read_from_remote.

(** [ntohl] of the first four bytes of [buffer_], then
    [make_address_v4(ip).to_string()]. *)
Definition ntohl_buffer (s : Session) : Z :=
  Z.lor (Z.shiftl (at_ s 0) 24)
    (Z.lor (Z.shiftl (at_ s 1) 16) (Z.lor (Z.shiftl (at_ s 2) 8) (at_ s 3))).

Definition v4_to_string (ip : Z) : string :=
  Cxx.to_string (Z.land (Z.shiftr ip 24) 255) ++ "." ++
  Cxx.to_string (Z.land (Z.shiftr ip 16) 255) ++ "." ++
  Cxx.to_string (Z.land (Z.shiftr ip 8) 255) ++ "." ++
  Cxx.to_string (Z.land ip 255).

(** [ntohs] of the first two bytes of [buffer_]. *)
Definition ntohs_buffer (s : Session) : Z :=
  Z.lor (Z.shiftl (at_ s 0) 8) (at_ s 1).

Definition chars (bytes : list Z) : string :=
  string_of_list_ascii (map (fun b => ascii_of_nat (Z.to_nat b)) bytes).

(** The body of each completion handler; [n] is the byte count of a read. *)
Definition resume (h : handler) (ec : error_code) (n : nat)
    (endpoints : list endpoint) (local : endpoint) : Act :=
  match h with
  | on_handshake_head =>
      if failed ec then handle_error ec else
      reading (fun s =>
        if negb (at_ s 0 =? 5) then handle_error invalid_argument
        else let nmethods := at_ s 1 in
             async_read client_socket_ nmethods (on_handshake_methods nmethods))
  | on_handshake_methods nmethods =>
      if failed ec then handle_error ec else
      reading (fun s =>
        let no_auth := existsb (Z.eqb 0) (firstn (Z.to_nat nmethods) (buffer_ s)) in
        if negb no_auth
        then async_write client_socket_ (Literal [5; 255]) on_reject_written
        else async_write client_socket_ (Literal [5; 0]) on_accept_written)
  | on_reject_written => handle_error ec
  | on_accept_written =>
      if failed ec then handle_error ec else
      cancel_timeout >> set_timeout 30 >> read_request
  | on_request_head =>
      if failed ec then handle_error ec else
      reading (fun s =>
        if negb (at_ s 0 =? 5) || negb (at_ s 1 =? 1)
        then send_reply 7 unspecified 0
        else let atype := at_ s 3 in
             let dest := List.length (frames s) in
             declare >>
             (if atype =? 1 then async_read client_socket_ 4 (on_ipv4 dest)
              else if atype =? 3
              then async_read client_socket_ 1 (on_domain_length dest)
              else if atype =? 4 then async_read client_socket_ 16 (on_ipv6 dest)
              else send_reply 8 unspecified 0) >>
             destroy dest)
  | on_ipv4 dest =>
      if failed ec then handle_error ec else
      reading (fun s =>
        through dest "dest_addr" (fun d =>
          assign dest (v4_to_string (ntohl_buffer s), snd d) >>
          read_port dest))
  | on_domain_length dest =>
      if failed ec then handle_error ec else
      reading (fun s =>
        let len := at_ s 0 in
        async_read client_socket_ len (on_domain dest len))
  | on_domain dest len =>
      if failed ec then handle_error ec else
      reading (fun s =>
        through dest "dest_addr" (fun d =>
          assign dest (chars (firstn (Z.to_nat len) (buffer_ s)), snd d) >>
          read_port dest))
  | on_ipv6 dest =>
      if failed ec then handle_error ec else
      reading (fun s =>
        through dest "dest_addr" (fun d =>
          assign dest (v6_to_string (firstn 16 (buffer_ s)), snd d) >>
          read_port dest))
  | on_port dest_addr dest =>
      if failed ec then handle_error ec else
      reading (fun s =>
        through dest "dest_port" (fun d =>
          let dest_port := ntohs_buffer s in
          assign dest (fst d, dest_port) >>
          act (Log ("Conectando a " ++ dest_addr ++ ":" ++ Cxx.to_string dest_port)) >>
          connect_remote dest_addr dest_port))
  | on_resolved =>
      if failed ec then send_reply 1 unspecified 0 else
      act (AsyncConnect endpoints) >> upd (set_connector (Some on_connected))
  | on_connected =>
      if failed ec then send_reply 1 unspecified 0 else
      upd (fun s => set_open (client_open s) true s) >>
      cancel_timeout >>
      send_reply 0 (ep_address local) (ep_port local) >>
      forward_data
  | on_reply_written rep =>
      if failed ec || negb (rep =? 0) then handle_error ec else skip
  | on_client_data =>
      if failed ec then handle_error ec else
      async_write remote_socket_ (FromBuffer n) on_remote_written
  | on_remote_written =>
      if failed ec then handle_error ec else read_from_client
  | on_remote_data =>
      if failed ec then handle_error ec else
      async_write client_socket_ (FromBuffer n) on_client_written
  | on_client_written =>
      if failed ec then handle_error ec else read_from_remote
  end.

(** The handler of [set_timeout]'s wait, run on expiry. *)
Definition on_timeout : Act :=
  act (Log "Timeout expirado") >> handle_error timed_out.

Definition no_endpoint : endpoint := {| ep_address := unspecified; ep_port := 0 |}.

(** The bytes a finished write put on the wire. *)
Definition written (src : source) (s : Session) : list Z :=
  match src with
  | Literal data => data
  | FromBuffer n => firstn n (buffer_ s)
  end.

(** One dispatch of the [io_context]. *)
Definition step (e : event) : Act :=
  reading (fun s =>
    match e with
    | ClientRead ec data =>
        match client_rd s with
        | Some h =>
            upd (set_client_rd None) >> deposit data >>
            resume h ec (List.length data) [] no_endpoint
        | None => skip
        end
    | RemoteRead ec data =>
        match remote_rd s with
        | Some h =>
            upd (set_remote_rd None) >> deposit data >>
            resume h ec (List.length data) [] no_endpoint
        | None => skip
        end
    | ClientWritten ec =>
        match client_wr s with
        | (h, src) :: rest =>
            upd (set_client_wr rest) >>
            (if failed ec then skip
             else act (Transmit client_socket_ (written src s))) >>
            resume h ec O [] no_endpoint
        | [] => skip
        end
    | RemoteWritten ec =>
        match remote_wr s with
        | (h, src) :: rest =>
            upd (set_remote_wr rest) >>
            (if failed ec then skip
             else act (Transmit remote_socket_ (written src s))) >>
            resume h ec O [] no_endpoint
        | [] => skip
        end
    | Resolved ec endpoints =>
        match connector s with
        | Some on_resolved =>
            upd (set_connector None) >>
            resume on_resolved
              (if resolver_destroyed s then operation_aborted else ec)
              O endpoints no_endpoint
        | _ => skip
        end
    | Connected ec local =>
        match connector s with
        | Some on_connected =>
            upd (set_connector None) >> resume on_connected ec O [] local
        | _ => skip
        end
    | TimerExpired =>
        match timer_ s with
        | Some _ => upd (set_timer_ None) >> on_timeout
        | None => skip
        end
    end).

(** A session from [start] through a list of dispatches. *)
Fixpoint dispatch (es : list event) : Act :=
  match es with
  | [] => skip
  | e :: es' => step e >> dispatch es'
  end.

Definition session (es : list event) : Act := start >> dispatch es.

End Library.

Fixpoint transmitted (sock : socket) (t : list action) : list Z :=
  match t with
  | [] => []
  | Transmit s data :: t' =>
      match s, sock with
      | client_socket_, client_socket_ | remote_socket_, remote_socket_ =>
          (data ++ transmitted sock t')%list
      | _, _ => transmitted sock t'
      end
  | _ :: t' => transmitted sock t'
  end.

Definition is_read (a : action) : bool :=
  match a with
  | AsyncRead client_socket_ _ | AsyncReadSome client_socket_ _ => true
  | _ => false
  end.

End Socks5.

(* ===================================================================== *)
(** ** Runs, scripts and sample inputs used by the statements below *)
(* ===================================================================== *)

Module Harness.
Import Cxx HeaderBootstrap.
Open Scope Z_scope.

(** What running a member function on a handler gives. *)
Definition Run (A : Type) : Type :=
  (result A * ConnectionHandler * list event)%type.

(** The same run with the events [t] before it. *)
Definition prepend {A} (t : list event) (x : Run A) : Run A :=
  let '(r, h, t') := x in (r, h, (t ++ t')%list).

(** What the [catch] clauses of [handle] make of a run. *)
Definition caught (x : Run status) : Run status :=
  match x with
  | (inl ex, h, t) =>
      (inr Returned, h,
       (t ++ [AsyncLog (logStr h ++ " - Excecao: " ++ what ex) None])%list)
  | _ => x
  end.

(** The environment lets the client socket be made non-blocking and
    delivers [clientBuffer] to the first [recv]. *)
Definition first_segment (e : env) (clientBuffer : string) : Prop :=
  retval (fst (e_nb_client e)) <> -1 /\
  retval (snd (e_nb_client e)) <> -1 /\
  e_recv e = Bytes clientBuffer /\ clientBuffer <> "".

(** The events of [handle] up to the first [recv]. *)
Definition prologue (e : env) (sock : Z) : list event :=
  [FcntlGetfl sock (fst (e_nb_client e));
   FcntlSetflNonblock sock (snd (e_nb_client e));
   Recv sock (BUFLEN - 1) 0 (e_recv e)].

(** The extra [recv] made when [X-Split] has a value. *)
Definition split_recv (e : env) (sock : Z) (split : string) : list event :=
  if negb (empty split)
  then [Recv sock BUFLEN MSG_DONTWAIT (e_recv_split e)] else [].

(** The events of a [connectTarget] that goes through to [connect]. *)
Definition connecting (e : env) (host : string) (port fd : Z) : list event :=
  [Getaddrinfo host (to_string port) (e_getaddrinfo e);
   Socket (e_socket e);
   FcntlGetfl fd (fst (e_nb_target e));
   FcntlSetflNonblock fd (snd (e_nb_target e));
   Setsockopt fd SO_KEEPALIVE 1;
   Setsockopt fd TCP_NODELAY 1;
   Setsockopt fd TCP_KEEPIDLE 10;
   Setsockopt fd TCP_KEEPCNT 3;
   Setsockopt fd TCP_KEEPINTVL 5;
   Connect fd (e_connect e);
   Freeaddrinfo].

Definition idle_wait (h : ConnectionHandler) : event :=
  EpollWait (epollFd h) 2 1000 (Ready []).

Definition timeout_log (h : ConnectionHandler) : event :=
  AsyncLog (logStr h ++ " - Timeout atingido") None.

(** The environment [e] with another script of [epoll_wait] results. *)
Definition with_waits (e : env) (ws : list wait_ret) : env :=
  {| e_nb_client := e_nb_client e; e_recv := e_recv e;
     e_recv_split := e_recv_split e; e_send := e_send e;
     e_getaddrinfo := e_getaddrinfo e; e_socket := e_socket e;
     e_nb_target := e_nb_target e; e_connect := e_connect e;
     e_epoll_create := e_epoll_create e; e_ctl_client := e_ctl_client e;
     e_ctl_target := e_ctl_target e; e_waits := ws |}.

(** [h0] is the handler [h] once it relays: both sockets open, the epoll
    descriptor made. *)
Definition relaying (h0 h : ConnectionHandler) : Prop :=
  clientSock h0 = clientSock h /\ clientClosed h0 = clientClosed h /\
  logStr h0 = logStr h /\
  targetClosed h0 = false /\ targetSock h0 <> -1 /\ epollFd h0 <> -1.

(** [close()] called [n] times in a row. *)
Fixpoint closes (n : nat) : M unit :=
  match n with
  | O => ret tt
  | S n' => close ;; closes n'
  end.

(** The bytes the relay took from [fd] and the bytes it got accepted on
    [fd], read off the events: a splice moves its bytes from one to the
    other, a [recv] takes, a [send] delivers the count it returned. *)
Fixpoint taken_from (fd : Z) (t : list event) : string :=
  match t with
  | [] => ""
  | Recv fd' _ _ (Bytes d) :: t' =>
      if fd' =? fd then d ++ taken_from fd t' else taken_from fd t'
  | Splice src _ _ (Bytes d) :: t' =>
      if src =? fd then d ++ taken_from fd t' else taken_from fd t'
  | _ :: t' => taken_from fd t'
  end.

Fixpoint delivered_to (fd : Z) (t : list event) : string :=
  match t with
  | [] => ""
  | Send fd' d _ (Ok n) :: t' =>
      if fd' =? fd then take (Z.to_nat n) d ++ delivered_to fd t'
      else delivered_to fd t'
  | Splice _ dst _ (Bytes d) :: t' =>
      if dst =? fd then d ++ delivered_to fd t' else delivered_to fd t'
  | _ :: t' => delivered_to fd t'
  end.

(** *** Sample inputs *)

(** A header block with the given header lines. *)
Definition request (headers : list string) : string :=
  "GET / HTTP/1.1" ++ CRLF
    ++ fold_right (fun l acc => l ++ CRLF ++ acc) CRLF headers.

(** An environment in which every call succeeds, the connect is in
    progress, the client's first segment is [r] and the waits are [ws]. *)
Definition calm (r : string) (ws : list wait_ret) : env :=
  {| e_nb_client := (Ok 2, Ok 0); e_recv := Bytes r;
     e_recv_split := Failed EAGAIN; e_send := Ok 0;
     e_getaddrinfo := None; e_socket := Ok 7;
     e_nb_target := (Ok 2, Ok 0); e_connect := Err EINPROGRESS;
     e_epoll_create := Ok 8; e_ctl_client := Ok 0; e_ctl_target := Ok 0;
     e_waits := ws |}.

Definition secret : Globals := {| IP := "0.0.0.0"; PASS := "secret" |}.

(** A handler in the relay: client 5, upstream 7, epoll 8. *)
Definition tunnelling : ConnectionHandler :=
  {| clientSock := 5; targetSock := 7; logStr := "Conexao: 198.51.100.7:4242";
     clientClosed := false; targetClosed := false; epollFd := 8 |}.

(** The splice of the event is refused for another reason than
    [EAGAIN]: the zero-copy path is not available. *)
Definition splice_unavailable (r : ready) : bool :=
  match r_splice r with
  | Failed errno => negb (errno =? EAGAIN)
  | _ => false
  end.

(** Every splice made for the events of the wait is so refused. *)
Definition no_zero_copy (w : wait_ret) : bool :=
  match w with
  | WaitFailed _ => true
  | Ready evs => forallb splice_unavailable evs
  end.

(** The event moves no byte: it is not a [recv], not a [send] and not a
    splice that moved something. *)
Definition moves_nothing (ev : event) : bool :=
  match ev with
  | Recv _ _ _ _ | Send _ _ _ _ => false
  | Splice _ _ _ (Bytes _) => false
  | _ => true
  end.

(** The client is readable and has written [data].  Both descriptors of
    the splice are sockets and neither is a pipe, which the kernel
    refuses with [EINVAL]; a [recv] would get [data] and a [send] would
    take [sent] bytes of it. *)
Definition client_readable (data : string) (sent : Z) : wait_ret :=
  Ready [{| r_fd := 5; r_events := EPOLLIN; r_splice := Failed EINVAL;
            r_recv := Bytes data; r_send := Ok sent |}].

End Harness.

Module Socks5Harness.
Import Socks5.
Open Scope Z_scope.

(** Nothing is pending on the session: no wait, no read, no write, no
    resolution and no connect. *)
Definition quiescent (s : Session) : Prop :=
  timer_ s = None /\ client_rd s = None /\ client_wr s = [] /\
  remote_rd s = None /\ remote_wr s = [] /\ connector s = None.

(** The session after [handle_error]. *)
Definition torn_down (s : Session) : Session :=
  set_open false false (set_timer_ None s).

(** The actions of [handle_error(ec)]. *)
Definition teardown (message : error_code -> string) (ec : error_code)
  : list action :=
  (Cancel
     :: match ec with
        | success | eof | operation_aborted => []
        | _ => [Log ("Erro: " ++ message ec)]
        end
     ++ [Shutdown client_socket_; Shutdown remote_socket_;
         Close client_socket_; Close remote_socket_])%list.

(** The action starts a resolution or a connect. *)
Definition reaches_out (a : action) : bool :=
  match a with
  | AsyncResolve _ _ | AsyncConnect _ => true
  | _ => false
  end.

(** Sample library functions and inputs. *)
Definition sample_v6 (bytes : list Z) : string := "::".
Definition sample_message (ec : error_code) : string :=
  match ec with
  | timed_out => "Connection timed out"
  | invalid_argument => "Invalid argument"
  | _ => "error"
  end.

(** The dispatches of a handshake offering no-authentication, with its
    reply written. *)
Definition negotiated : list event :=
  [ClientRead success [5; 1]; ClientRead success [0]; ClientWritten success].

(** ... then a CONNECT request for the IPv4 address [a] and the port
    bytes [p]. *)
Definition connect_v4 (a p : list Z) : list event :=
  (negotiated
     ++ [ClientRead success [5; 1; 0; 1]; ClientRead success a;
         ClientRead success p])%list.

Definition bound_at : endpoint := {| ep_address := v4 [127; 0; 0; 1]; ep_port := 40000 |}.

(** A session whose connect to the upstream has succeeded and whose
    reply is written: it forwards. *)
Definition forwarding_session : Session :=
  fst (dispatch sample_v6 sample_message
         [Connected success bound_at; ClientWritten success]
         (set_connector (Some on_connected) (accepted []))).

End Socks5Harness.

(* ===================================================================== *)
(** ** Observations on strings and traces *)
(* ===================================================================== *)

Module Observations.
Import Cxx HeaderBootstrap Harness.
Open Scope Z_scope.

(** Every character of [s] satisfies [p]. *)
Fixpoint all_chars (p : ascii -> bool) (s : string) : bool :=
  match s with
  | EmptyString => true
  | String c s' => p c && all_chars p s'
  end.

(** [s] begins with a decimal digit. *)
Definition leading_digit (s : string) : bool :=
  match s with
  | EmptyString => false
  | String c _ => isdigit c
  end.

(** The number of events of [t] that satisfy [p]. *)
Definition count (p : event -> bool) (t : list event) : nat :=
  List.length (filter p t).

Definition is_close (fd : Z) (ev : event) : bool :=
  match ev with Close fd' => fd' =? fd | _ => false end.

Definition is_shutdown (fd : Z) (ev : event) : bool :=
  match ev with Shutdown fd' => fd' =? fd | _ => false end.

Definition is_freeaddrinfo (ev : event) : bool :=
  match ev with Freeaddrinfo => true | _ => false end.

Definition is_send (ev : event) : bool :=
  match ev with Send _ _ _ _ => true | _ => false end.



(** [epoll_wait] was interrupted by a signal. *)
Definition interrupted (w : wait_ret) : bool :=
  match w with
  | WaitFailed errno => errno =? EINTR
  | Ready _ => false
  end.

(** [epoll_wait] reported at least one event. *)
Definition has_events (w : wait_ret) : bool :=
  match w with
  | Ready (_ :: _) => true
  | _ => false
  end.

(** A socket was created: [socket()] did not return -1. *)
Definition created (ev : event) : bool :=
  match ev with Socket r => negb (retval r =? -1) | _ => false end.

(** The kinds of events the relay loop makes. *)
Definition relay_event (ev : event) : bool :=
  match ev with
  | EpollWait _ _ _ _ | Splice _ _ _ _ | Recv _ _ _ _ | Send _ _ _ _
  | AsyncLog _ _ => true
  | _ => false
  end.

(** The event moves bytes to a socket: a [send] or a [splice]. *)
Definition moves_bytes (ev : event) : bool :=
  match ev with
  | Send _ _ _ _ | Splice _ _ _ _ => true
  | _ => false
  end.


End Observations.

Module Connector.
Import Cxx HeaderBootstrap.
Open Scope Z_scope.

(** One of the calls of [connectTarget] fails: the resolution, the
    socket, making it non-blocking, or a connect with another error than
    [EINPROGRESS]. *)
Definition connector_fails (e : env) : bool :=
  match e_getaddrinfo e with
  | Some _ => true
  | None =>
      (retval (e_socket e) =? -1)
      || (retval (fst (e_nb_target e)) =? -1)
      || (retval (snd (e_nb_target e)) =? -1)
      || ((retval (e_connect e) =? -1)
          && negb (sys_errno (e_connect e) =? EINPROGRESS))
  end.

(** The first segment cannot be had: the client socket cannot be made
    non-blocking or the first [recv] returns nothing. *)
Definition no_first_segment (e : env) : bool :=
  (retval (fst (e_nb_client e)) =? -1)
  || (retval (snd (e_nb_client e)) =? -1)
  || (io_len (e_recv e) <=? 0).

(** An environment in which the upstream refuses the connection
    ([ECONNREFUSED]) and every other call succeeds. *)
Definition refusing (r : string) : env :=
  {| e_nb_client := (Ok 2, Ok 0); e_recv := Bytes r;
     e_recv_split := Failed EAGAIN; e_send := Ok 0;
     e_getaddrinfo := None; e_socket := Ok 7;
     e_nb_target := (Ok 2, Ok 0); e_connect := Err 111;
     e_epoll_create := Ok 8; e_ctl_client := Ok 0; e_ctl_target := Ok 0;
     e_waits := [] |}.

End Connector.

Module Socks5Observations.
Import Socks5.
Open Scope Z_scope.

(** The handlers that [async_read] and [async_read_some] are given. *)
Definition read_handler (h : handler) : bool :=
  match h with
  | on_handshake_head | on_handshake_methods _ | on_request_head | on_ipv4 _
  | on_domain_length _ | on_domain _ _ | on_ipv6 _ | on_port _ _
  | on_client_data | on_remote_data => true
  | _ => false
  end.

(** A read or a write that completed without error. *)
Definition traffic (e : event) : bool :=
  match e with
  | ClientRead success _ | RemoteRead success _
  | ClientWritten success | RemoteWritten success => true
  | _ => false
  end.

(** The write handlers a forwarding session can have pending. *)
Definition forwarding_write (p : handler * source) : bool :=
  match fst p with
  | on_reply_written rep => rep =? 0
  | on_client_written | on_remote_written => true
  | _ => false
  end.

(** The session forwards: its pending operations are those of
    [read_from_client], [read_from_remote] and their writes. *)
Definition forwards (s : Session) : Prop :=
  (client_rd s = None \/ client_rd s = Some on_client_data) /\
  (remote_rd s = None \/ remote_rd s = Some on_remote_data) /\
  forallb forwarding_write (client_wr s) = true /\
  forallb forwarding_write (remote_wr s) = true.

(** The action arms or cancels the timer. *)
Definition touches_timer (a : action) : bool :=
  match a with
  | ExpiresAfter _ | Cancel => true
  | _ => false
  end.

Definition is_write (a : action) : bool :=
  match a with
  | AsyncWrite _ _ => true
  | _ => false
  end.

(** The dispatches of the client's chunks going through one by one: each
    is read and then written to the upstream. *)
Definition upload (chunks : list (list Z)) : list event :=
  flat_map (fun d => [ClientRead success d; RemoteWritten success]) chunks.

(** Every byte is in 0..255. *)
Definition bytes (d : list Z) : Prop := Forall (fun b => 0 <= b <= 255) d.

(** A session that forwards with nothing under way but its two reads. *)
Definition forwarding_idle (s : Session) : Prop :=
  client_rd s = Some on_client_data /\ remote_wr s = [].

End Socks5Observations.

(* ===================================================================== *)
(** ** socks5_server.cpp: the reverse tunnel and main *)
(* ===================================================================== *)

Module Socks5Main.
Import Cxx.
Open Scope Z_scope.

(** The two-byte UTF-8 letters of the messages. *)
Definition utf8 (n : nat) : string :=
  String (ascii_of_nat 195) (String (ascii_of_nat n) "").
Definition a_acute : string := utf8 161.
Definition a_til : string := utf8 163.
Definition c_cedilla : string := utf8 167.
Definition e_acute : string := utf8 169.
Definition e_circ : string := utf8 170.
Definition u_acute : string := utf8 186.
Definition endl : string := String (ascii_of_nat 10) "".

(** [static_cast<short>(int)]: the value modulo 2^16, in -32768..32767. *)
Definition to_short (z : Z) : Z := (z + 32768) mod 65536 - 32768.

(** The conversion of a [short] to the endpoint's [port_type], an unsigned
    16-bit integer. *)
Definition to_port (z : Z) : Z := z mod 65536.

Definition SIGTERM : Z := 15.

(** How the constructor of [Server] ends: it returns, or [bind] throws a
    [system_error] ([address_in_use] or another, with its [what()]), or
    something else is thrown. *)
Inductive bind_ret :=
| Bound
| AddressInUse
| SystemError (what : string)
| Unexpected.

(** What the program does to the outside, in order.  [ServerOpen] is the
    constructor of [Server] with its outcome, [ServerClose] its
    destructor, which closes the acceptor. *)
Inductive event :=
| Cout (text : string)
| Cerr (text : string)
| Fork (r : Z)
| System (command : string)
| Exit (code : Z)
| Kill (pid sig : Z)
| Waitpid (pid : Z)
| ServerOpen (port : Z) (r : bind_ret)
| ServerClose
| IoRun.

(** The lines left on standard input and the results the next calls of
    [fork] and of the constructor of [Server] have. *)
Record world := {
  stdin : list string;
  forks : list Z;
  servers : list bind_ret
}.

(** What ends a function early: an exception, or [exit] in the child. *)
Inductive unwind := Thrown (e : exception) | Exited.

Definition P (A : Type) : Type := world -> (unwind + A) * world * list event.

Definition ret {A} (a : A) : P A := fun w => (inr a, w, []).

Definition bind {A B} (m : P A) (k : A -> P B) : P B :=
  fun w =>
    let '(r, w1, t1) := m w in
    match r with
    | inl u => (inl u, w1, t1)
    | inr a => let '(r2, w2, t2) := k a w1 in (r2, w2, (t1 ++ t2)%list)
    end.

Definition emit (e : event) : P unit := fun w => (inr tt, w, [e]).

Definition lift {A} (r : result A) : P A :=
  fun w => (match r with inl e => inl (Thrown e) | inr a => inr a end, w, []).

Declare Scope p_scope.
Delimit Scope p_scope with P.
Notation "x <- m ;; k" := (bind m (fun x => k))
  (at level 61, m at next level, right associativity) : p_scope.
Notation "m ;; k" := (bind m (fun _ => k))
  (at level 61, right associativity) : p_scope.
Open Scope p_scope.

(** [std::getline(std::cin, s)]: the next line, or the empty string when
    the input has ended. *)
Definition getline : P string :=
  fun w =>
    match stdin w with
    | [] => (inr "", w, [])
    | l :: rest =>
        (inr l, {| stdin := rest; forks := forks w; servers := servers w |}, [])
    end.

(** [fork()]; it fails when the script has no result left. *)
Definition fork : P Z :=
  fun w =>
    match forks w with
    | [] => (inr (-1), w, [Fork (-1)])
    | r :: rest =>
        (inr r, {| stdin := stdin w; forks := rest; servers := servers w |},
         [Fork r])
    end.

(** [exit(0)] *)
Definition exit {A} (code : Z) : P A := fun w => (inl Exited, w, [Exit code]).

(** [Server server(io_ctx, port)] *)
Definition construct (port : Z) : P bind_ret :=
  fun w =>
    match servers w with
    | [] => (inr Unexpected, w, [ServerOpen (to_port port) Unexpected])
    | r :: rest =>
        (inr r, {| stdin := stdin w; forks := forks w; servers := rest |},
         [ServerOpen (to_port port) r])
    end.

(** *** ReverseSSHProxy *)

Record ReverseSSHProxy := {
  ssh_server_ : string;
  ssh_port_ : Z;
  username_ : string;
  password_ : string;
  local_port_ : Z;
  remote_port_ : Z;
  ssh_pid_ : Z
}.

Definition set_ssh_pid_ (v : Z) (p : ReverseSSHProxy) : ReverseSSHProxy :=
  {| ssh_server_ := ssh_server_ p; ssh_port_ := ssh_port_ p;
     username_ := username_ p; password_ := password_ p;
     local_port_ := local_port_ p; remote_port_ := remote_port_ p;
     ssh_pid_ := v |}.

Definition ssh_command (p : ReverseSSHProxy) : string :=
  "sshpass -p '" ++ password_ p ++ "' ssh -o StrictHostKeyChecking=no -R " ++
  to_string (remote_port_ p) ++ ":localhost:" ++ to_string (local_port_ p) ++
  " " ++ username_ p ++ "@" ++ ssh_server_ p ++ " -N".

Definition start (p : ReverseSSHProxy) : P (bool * ReverseSSHProxy) :=
  emit (Cout ("Iniciando t" ++ u_acute ++ "nel SSH reverso..." ++ endl)) ;;
  emit (Cout ("Servidor SSH: " ++ ssh_server_ p ++ ":"
                ++ to_string (ssh_port_ p) ++ endl)) ;;
  emit (Cout ("T" ++ u_acute ++ "nel: " ++ to_string (remote_port_ p)
                ++ " (remoto) -> " ++ to_string (local_port_ p)
                ++ " (local)" ++ endl)) ;;
  emit (Cout ("Executando: " ++ ssh_command p ++ endl)) ;;
  pid <- fork ;;
  if pid =? 0 then
    emit (System (ssh_command p)) ;;
    exit 0
  else if pid >? 0 then
    emit (Cout ("T" ++ u_acute ++ "nel SSH reverso iniciado (PID: "
                  ++ to_string pid ++ ")" ++ endl)) ;;
    ret (true, set_ssh_pid_ pid p)
  else
    emit (Cerr ("Erro ao criar processo para SSH" ++ endl)) ;;
    ret (false, p).

Definition stop (p : ReverseSSHProxy) : P ReverseSSHProxy :=
  if ssh_pid_ p >? 0 then
    emit (Cout ("Parando t" ++ u_acute ++ "nel SSH reverso..." ++ endl)) ;;
    emit (Kill (ssh_pid_ p) SIGTERM) ;;
    emit (Waitpid (ssh_pid_ p)) ;;
    ret (set_ssh_pid_ 0 p)
  else ret p.

(** [~ReverseSSHProxy()] through the [unique_ptr] that owns it, if any. *)
Definition release (ssh_proxy : option ReverseSSHProxy) : P unit :=
  match ssh_proxy with
  | Some p => stop p ;; ret tt
  | None => ret tt
  end.

(** *** main *)

(** How an iteration of the [while (true)] ends. *)
Inductive flow := Continue | Break.

(** The texts of lines 341-357. *)
Definition MSG_NOT_A_NUMBER : string :=
  "Entrada inv" ++ a_acute ++ "lida! Digite um n" ++ u_acute ++ "mero." ++ endl.
Definition MSG_BAD_PORT : string :=
  "Porta inv" ++ a_acute ++ "lida! Tente novamente." ++ endl.
Definition PROMPT_PORT : string := "Digite a porta desejada (1-65535): ".
Definition PROMPT_TUNNEL : string :=
  "Deseja criar um t" ++ u_acute ++ "nel SSH reverso? (s/n): ".

(** Lines 364-389: the questions of the tunnel, the proxy object and its
    [start]; the two [stoi] are outside any [try] of the loop. *)
Definition request_tunnel (port : Z) : P (bool * ReverseSSHProxy) :=
  emit (Cout "IP do servidor SSH: ") ;;
  ssh_server <- getline ;;
  emit (Cout "Porta SSH (22): ") ;;
  ssh_port_str <- getline ;;
  ssh_port <- (if empty ssh_port_str then ret 22 else lift (stoi ssh_port_str)) ;;
  emit (Cout ("Usu" ++ a_acute ++ "rio SSH: ")) ;;
  username <- getline ;;
  emit (Cout "Senha SSH: ") ;;
  password <- getline ;;
  emit (Cout ("Porta remota para o t" ++ u_acute ++ "nel: ")) ;;
  remote_port_str <- getline ;;
  remote_port <- lift (stoi remote_port_str) ;;
  start {| ssh_server_ := ssh_server; ssh_port_ := ssh_port;
           username_ := username; password_ := password;
           local_port_ := port; remote_port_ := remote_port;
           ssh_pid_ := 0 |}.

(** Lines 399-416: the [try] block that constructs the [Server].  [break]
    leaves the block, which destroys [server], and the body of the loop,
    which destroys [ssh_proxy]; so does the end of the body after a
    [catch]. *)
Definition serve (port : Z) (ssh_proxy : option ReverseSSHProxy) : P flow :=
  r <- construct port ;;
  match r with
  | Bound =>
      emit (Cout ("Servidor SOCKS5 rodando na porta " ++ to_string port
                    ++ " (IPv4/IPv6)" ++ endl)) ;;
      (match ssh_proxy with
       | Some _ => emit (Cout ("Com t" ++ u_acute ++ "nel SSH reverso ativo!" ++ endl))
       | None => ret tt
       end) ;;
      emit ServerClose ;;
      release ssh_proxy ;;
      ret Break
  | AddressInUse =>
      emit (Cerr ("Porta " ++ to_string port ++ " j" ++ a_acute
                    ++ " em uso! Tente outra." ++ endl)) ;;
      release ssh_proxy ;;
      ret Continue
  | SystemError what =>
      emit (Cerr ("Erro ao bindar porta: " ++ what ++ endl)) ;;
      release ssh_proxy ;;
      ret Continue
  | Unexpected =>
      emit (Cerr ("Erro inesperado ao tentar usar a porta!" ++ endl)) ;;
      release ssh_proxy ;;
      ret Continue
  end.

(** Lines 340-416: one iteration of the loop of [main]. *)
Definition iteration : P flow :=
  emit (Cout PROMPT_PORT) ;;
  input <- getline ;;
  match stoi input with
  | inl _ => emit (Cerr MSG_NOT_A_NUMBER) ;; ret Continue
  | inr temp_port =>
      if (temp_port <? 1) || (temp_port >? 65535)
      then emit (Cerr MSG_BAD_PORT) ;; ret Continue
      else
        let port := to_short temp_port in
        emit (Cout PROMPT_TUNNEL) ;;
        create_tunnel <- getline ;;
        if (create_tunnel =? "s")%string || (create_tunnel =? "S")%string
        then
          r <- request_tunnel port ;;
          let '(started, proxy) := r in
          if negb started
          then emit (Cerr ("Erro ao iniciar t" ++ u_acute ++ "nel SSH reverso!" ++ endl)) ;;
               release (Some proxy) ;;
               ret Continue
          else
            emit (Cout ("T" ++ u_acute ++ "nel SSH reverso criado!" ++ endl)) ;;
            emit (Cout ("Agora voc" ++ e_circ ++ " pode acessar este SOCKS5 atrav"
                          ++ e_acute ++ "s da porta " ++ to_string (remote_port_ proxy)
                          ++ " no servidor " ++ ssh_server_ proxy ++ endl)) ;;
            serve port (Some proxy)
        else serve port None
  end.

(** How a run of [main] ends: it reaches [io_ctx.run()]; it returns; it
    is the forked child and exits; or, the input having ended, it asks for
    the port for ever.  [OutOfFuel] is the bound of the model. *)
Inductive outcome := Serving | Returned (code : Z) | ChildExited | Asking | OutOfFuel.

(** The [while (true)]: with no input left an iteration changes nothing
    and the loop goes round for ever; its events are given once. *)
Fixpoint loop (fuel : nat) (w : world) : (unwind + outcome) * world * list event :=
  match fuel with
  | O => (inr OutOfFuel, w, [])
  | S fuel' =>
      match stdin w with
      | [] => let '(_, w1, t1) := iteration w in (inr Asking, w1, t1)
      | _ :: _ =>
          let '(r, w1, t1) := iteration w in
          match r with
          | inl u => (inl u, w1, t1)
          | inr Break => (inr Serving, w1, (t1 ++ [IoRun])%list)
          | inr Continue =>
              let '(r2, w2, t2) := loop fuel' w1 in (r2, w2, (t1 ++ t2)%list)
          end
      end
  end.

(** Lines 329-336: the argument is parsed into a local that nothing
    reads afterwards. *)
Definition target_argument (argv1 : option string) : list event :=
  match argv1 with
  | Some a =>
      match stoi a with
      | inl _ => [Cerr ("Aviso: Porta de destino inv" ++ a_acute
                          ++ "lida fornecida. Usando 22 como padr" ++ a_til
                          ++ "o." ++ endl)]
      | inr _ => []
      end
  | None => []
  end.

Definition newline : string := String (ascii_of_nat 10) "".

(** [main]: the events of the process and how it ends. *)
Definition main (argv1 : option string) (w : world) : outcome * list event :=
  let '(r, _, t) := loop (S (List.length (stdin w))) w in
  match r with
  | inl (Thrown e) =>
      (Returned 0,
       (target_argument argv1 ++ t
          ++ [Cerr ("Exce" ++ c_cedilla ++ a_til ++ "o: " ++ what e ++ newline)])%list)
  | inl Exited => (ChildExited, (target_argument argv1 ++ t)%list)
  | inr o => (o, (target_argument argv1 ++ t)%list)
  end.

(** *** What is alive after a trace *)

(** The acceptors that are open and the children that were forked and
    not yet waited for. *)
Record alive := { acceptors : nat; children : list Z }.

Definition nothing : alive := {| acceptors := O; children := [] |}.

Definition remove (pid : Z) (l : list Z) : list Z :=
  filter (fun q => negb (q =? pid)) l.

Definition after1 (a : alive) (e : event) : alive :=
  match e with
  | ServerOpen _ Bound => {| acceptors := S (acceptors a); children := children a |}
  | ServerClose => {| acceptors := pred (acceptors a); children := children a |}
  | Fork r => if r >? 0
              then {| acceptors := acceptors a; children := r :: children a |}
              else a
  | Waitpid pid => {| acceptors := acceptors a; children := remove pid (children a) |}
  | _ => a
  end.

Definition after (t : list event) (a : alive) : alive := fold_left after1 t a.

(** The state of the world in which [io_ctx.run()] is called, if it is. *)
Fixpoint at_run (t : list event) (a : alive) : option alive :=
  match t with
  | [] => None
  | IoRun :: _ => Some a
  | e :: t' => at_run t' (after1 a e)
  end.

(** The trace [t] takes what is alive from [a] to [b] and does not call
    [io_ctx.run()]. *)
Definition takes (t : list event) (a b : alive) : Prop :=
  after t a = b /\ at_run t a = None.

(** The ends that [main] has in the source. *)
Definition in_source (o : outcome) : bool :=
  match o with OutOfFuel => false | _ => true end.

(** The questions of a tunnel request, and the four lines [start]
    prints before it forks. *)
Definition questions : list event :=
  [Cout "IP do servidor SSH: "; Cout "Porta SSH (22): ";
   Cout ("Usu" ++ a_acute ++ "rio SSH: "); Cout "Senha SSH: ";
   Cout ("Porta remota para o t" ++ u_acute ++ "nel: ")].

Definition announced (p : ReverseSSHProxy) : list event :=
  [Cout ("Iniciando t" ++ u_acute ++ "nel SSH reverso..." ++ endl);
   Cout ("Servidor SSH: " ++ ssh_server_ p ++ ":" ++ to_string (ssh_port_ p) ++ endl);
   Cout ("T" ++ u_acute ++ "nel: " ++ to_string (remote_port_ p)
           ++ " (remoto) -> " ++ to_string (local_port_ p) ++ " (local)" ++ endl);
   Cout ("Executando: " ++ ssh_command p ++ endl)].

(** The message of the [catch] of [main]. *)
Definition caught_in_main (e : exception) : event :=
  Cerr ("Exce" ++ c_cedilla ++ a_til ++ "o: " ++ what e ++ newline).

(** The proxy object that [main] makes of the answers. *)
Definition requested (server : string) (ssh_port : Z) (user password : string)
    (port remote_port : Z) : ReverseSSHProxy :=
  {| ssh_server_ := server; ssh_port_ := ssh_port; username_ := user;
     password_ := password; local_port_ := to_short port;
     remote_port_ := remote_port; ssh_pid_ := 0 |}.

(** The value [main] gives to [ssh_port] for the line typed. *)
Definition ssh_port_of (line : string) (v : Z) : Prop :=
  (line = "" /\ v = 22) \/ (line <> "" /\ stoi line = inr v).

(** The answers that ask for a tunnel. *)
Definition yes (answer : string) : Prop := answer = "s" \/ answer = "S".

(** Sample worlds. *)
Definition typed (lines : list string) : world :=
  {| stdin := lines; forks := [4242]; servers := [Bound] |}.

End Socks5Main.

(* ===================================================================== *)
(** ** proxysocks.cpp: the pool threads and the log thread *)
(* ===================================================================== *)

Module Threads.
Import HeaderBootstrap.

Definition THREAD_POOL_SIZE : nat := 4.

(** Where a pool thread is in [poolWorker]: at the test of the [while],
    in the [wait] on [taskCond], inside [handle] of the handler it took,
    or out of the loop. *)
Inductive worker :=
| AtLoop
| AtWait
| Handling (handler : ConnectionHandler)
| Left.

(** Where the log thread is in [asyncLogWorker]. *)
Inductive logger :=
| LogLoop
| LogWait
| Printing (log : string)
| LogLeft.

(** The globals the threads share, the threads, and what was done so
    far: the lines [printLog] wrote and the handlers that were handled
    and deleted. *)
Record process := {
  running : bool;
  taskQueue : list ConnectionHandler;
  logQueue : list string;
  poolThreads : list worker;
  logThread : logger;
  printed : list string;
  handled : list ConnectionHandler
}.

Definition set_running v (s : process) :=
  {| running := v; taskQueue := taskQueue s; logQueue := logQueue s;
     poolThreads := poolThreads s; logThread := logThread s;
     printed := printed s; handled := handled s |}.
Definition set_taskQueue v (s : process) :=
  {| running := running s; taskQueue := v; logQueue := logQueue s;
     poolThreads := poolThreads s; logThread := logThread s;
     printed := printed s; handled := handled s |}.
Definition set_logQueue v (s : process) :=
  {| running := running s; taskQueue := taskQueue s; logQueue := v;
     poolThreads := poolThreads s; logThread := logThread s;
     printed := printed s; handled := handled s |}.
Definition set_poolThreads v (s : process) :=
  {| running := running s; taskQueue := taskQueue s; logQueue := logQueue s;
     poolThreads := v; logThread := logThread s;
     printed := printed s; handled := handled s |}.
Definition set_logThread v (s : process) :=
  {| running := running s; taskQueue := taskQueue s; logQueue := logQueue s;
     poolThreads := poolThreads s; logThread := v;
     printed := printed s; handled := handled s |}.
Definition set_printed v (s : process) :=
  {| running := running s; taskQueue := taskQueue s; logQueue := logQueue s;
     poolThreads := poolThreads s; logThread := logThread s;
     printed := v; handled := handled s |}.
Definition set_handled v (s : process) :=
  {| running := running s; taskQueue := taskQueue s; logQueue := logQueue s;
     poolThreads := poolThreads s; logThread := logThread s;
     printed := printed s; handled := v |}.

(** The process after [main] has started its threads. *)
Definition started : process :=
  {| running := true; taskQueue := []; logQueue := [];
     poolThreads := repeat AtLoop THREAD_POOL_SIZE; logThread := LogLoop;
     printed := []; handled := [] |}.

Fixpoint update {A} (i : nat) (x : A) (l : list A) : list A :=
  match l, i with
  | [], _ => []
  | _ :: l', O => x :: l'
  | y :: l', S i' => y :: update i' x l'
  end.

(** One step of the pool thread [i]: the test of the [while]; the
    [wait], which returns when its predicate holds, and the pop under
    the lock; the end of [handle] and the [delete].  A thread whose
    [wait] cannot return does not move. *)
Definition poolWorker (i : nat) (s : process) : process :=
  match nth_error (poolThreads s) i with
  | Some AtLoop =>
      set_poolThreads (update i (if running s then AtWait else Left) (poolThreads s)) s
  | Some AtWait =>
      match taskQueue s with
      | handler :: rest =>
          set_poolThreads (update i (Handling handler) (poolThreads s))
            (set_taskQueue rest s)
      | [] =>
          if running s then s
          else set_poolThreads (update i AtLoop (poolThreads s)) s
      end
  | Some (Handling handler) =>
      set_poolThreads (update i AtLoop (poolThreads s))
        (set_handled (handled s ++ [handler])%list s)
  | Some Left | None => s
  end.

(** [enqueueTask] *)
Definition enqueueTask (handler : ConnectionHandler) (s : process) : process :=
  set_taskQueue (taskQueue s ++ [handler])%list s.

(** [signalHandler] *)
Definition signalHandler (s : process) : process := set_running false s.

(** [asyncLog] *)
Definition asyncLog (log : string) (s : process) : process :=
  set_logQueue (logQueue s ++ [log])%list s.

(** One step of the log thread in [asyncLogWorker]. *)
Definition asyncLogWorker (s : process) : process :=
  match logThread s with
  | LogLoop =>
      set_logThread
        (if running s || negb (match logQueue s with [] => true | _ => false end)
         then LogWait else LogLeft) s
  | LogWait =>
      match logQueue s with
      | log :: rest => set_logThread (Printing log) (set_logQueue rest s)
      | [] => if running s then s else set_logThread LogLoop s
      end
  | Printing log =>
      set_logThread LogLoop (set_printed (printed s ++ [log])%list s)
  | LogLeft => s
  end.

(** What can happen next: [main] accepts a connection and enqueues its
    handler, the signal arrives, a pool thread or the log thread takes
    its next step, or some thread calls [asyncLog]. *)
Inductive move :=
| Accepted (handler : ConnectionHandler)
| Interrupt
| Pool (i : nat)
| Logs (log : string)
| Logger.

Definition step (s : process) (m : move) : process :=
  match m with
  | Accepted handler => enqueueTask handler s
  | Interrupt => signalHandler s
  | Pool i => poolWorker i s
  | Logs log => asyncLog log s
  | Logger => asyncLogWorker s
  end.

(** The process after the moves [ms], in any interleaving. *)
Definition run (ms : list move) (s : process) : process := fold_left step ms s.

(** The pool threads that are in the [wait] or inside [handle]. *)
Definition engaged (w : worker) : nat :=
  match w with AtWait | Handling _ => 1 | _ => 0 end.

Definition committed (s : process) : nat :=
  list_sum (map engaged (poolThreads s)).

(** The pool threads that are in the [wait]. *)
Definition waits (w : worker) : nat :=
  match w with AtWait => 1 | _ => 0 end.

Definition waiting (s : process) : nat :=
  list_sum (map waits (poolThreads s)).

(** No thread calls [asyncLog] in [ms]. *)
Definition silent (m : move) : bool :=
  match m with Logs _ => false | _ => true end.

(** The lines logged in [ms], in order. *)
Definition logged (ms : list move) : list string :=
  flat_map (fun m => match m with Logs log => [log] | _ => [] end) ms.

(** The lines the log thread has still to print. *)
Definition pending (s : process) : list string :=
  match logThread s with
  | Printing log => log :: logQueue s
  | _ => logQueue s
  end.

End Threads.

(* ===================================================================== *)
(** ** Facts about the string operations *)
(* ===================================================================== *)

Module CxxFacts.
Import Cxx.

Lemma prefix_split (p s : string) :
  prefix p s = true <-> exists rest, s = p ++ rest.
Proof.
  revert s; induction p as [|c p IH]; intros s; simpl.
  - split; [intros _; exists s; reflexivity | destruct s; reflexivity].
  - destruct s as [|d s].
    + split; [discriminate | intros [r Hr]; discriminate].
    + simpl. destruct (ascii_dec c d) as [->|Hcd].
      * rewrite IH. split; intros [r Hr]; exists r.
        -- now rewrite Hr.
        -- now injection Hr.
      * split; [discriminate | intros [r Hr]; injection Hr; congruence].
Qed.

Lemma drop_length (n : nat) (s : string) :
  String.length (drop n s) = String.length s - n.
Proof.
  revert s; induction n as [|n IH]; intros [|c s]; simpl; auto with arith.
Qed.

Lemma drop_drop (n m : nat) (s : string) : drop n (drop m s) = drop (m + n) s.
Proof.
  revert s; induction m as [|m IH]; intros s; simpl; [reflexivity|].
  destruct s; simpl; [destruct n; reflexivity | apply IH].
Qed.

Lemma length_append (a b : string) :
  String.length (a ++ b) = String.length a + String.length b.
Proof. induction a as [|c a IH]; simpl; [reflexivity | now rewrite IH]. Qed.

Lemma append_assoc (a b c : string) : (a ++ b) ++ c = a ++ (b ++ c).
Proof. induction a as [|x a IH]; simpl; [reflexivity | now rewrite IH]. Qed.

Lemma prefix_length (p s : string) :
  prefix p s = true -> String.length p <= String.length s.
Proof.
  rewrite prefix_split. intros [r ->]. rewrite length_append. lia.
Qed.

Lemma find0_head (s needle : string) :
  find0 s needle = Some O <-> prefix needle s = true.
Proof.
  destruct s as [|c s]; cbn [find0].
  - destruct (prefix needle ""); split; congruence.
  - destruct (prefix needle (String c s)); [tauto|].
    destruct (find0 s needle); cbn; split; congruence.
Qed.

(** What [find] returns is an occurrence. *)
Lemma find0_occurs (s needle : string) (i : nat) :
  find0 s needle = Some i -> prefix needle (drop i s) = true.
Proof.
  revert i; induction s as [|c s IH]; intros i; cbn [find0].
  - destruct (prefix needle "") eqn:E; [|discriminate].
    intros [= <-]. exact E.
  - destruct (prefix needle (String c s)) eqn:E.
    + intros [= <-]. exact E.
    + destruct (find0 s needle) as [j|]; simpl; [|discriminate].
      intros [= <-]. cbn [drop]. apply IH. reflexivity.
Qed.

(** ... and the first one. *)
Lemma find0_first (s needle : string) (i k : nat) :
  find0 s needle = Some i -> prefix needle (drop k s) = true -> i <= k.
Proof.
  revert i k; induction s as [|c s IH]; intros i k; cbn [find0].
  - destruct (prefix needle "") eqn:E; [intros [= <-]; lia | discriminate].
  - destruct (prefix needle (String c s)) eqn:E.
    + intros [= <-]; lia.
    + destruct (find0 s needle) as [j|] eqn:F; simpl; [|discriminate].
      intros [= <-] Hk. destruct k as [|k]; cbn [drop] in Hk; [congruence|].
      specialize (IH j k eq_refl Hk). lia.
Qed.

Lemma find0_bound (s needle : string) (i : nat) :
  find0 s needle = Some i -> i + String.length needle <= String.length s.
Proof.
  revert i; induction s as [|c s IH]; intros i; cbn [find0].
  - destruct (prefix needle "") eqn:E; [|discriminate].
    intros [= <-]. apply prefix_length in E. simpl in *. lia.
  - destruct (prefix needle (String c s)) eqn:E.
    + intros [= <-]. apply prefix_length in E. simpl in *. lia.
    + destruct (find0 s needle) as [j|] eqn:F; simpl; [|discriminate].
      intros [= <-]. specialize (IH j eq_refl). lia.
Qed.

Lemma find_from_start (s needle : string) : find s needle 0 = find0 s needle.
Proof.
  unfold find. simpl. destruct (find0 s needle); reflexivity.
Qed.

Lemma find_inv (s needle : string) (pos i : nat) :
  find s needle pos = Some i ->
  exists j, find0 (drop pos s) needle = Some j /\ i = pos + j /\
            pos <= String.length s.
Proof.
  unfold find. destruct (Nat.leb_spec pos (String.length s)); [|discriminate].
  destruct (find0 (drop pos s) needle) as [j|]; simpl; [|discriminate].
  intros [= <-]. exists j. auto.
Qed.

(** [hostPort.find(IP) == 0] says that [IP] is a prefix of [hostPort]. *)
Lemma find_zero_prefix (s needle : string) :
  find s needle 0 = Some O <-> exists rest, s = needle ++ rest.
Proof.
  rewrite find_from_start, find0_head. apply prefix_split.
Qed.

Lemma prefix_app_drop (a b s : string) :
  prefix (a ++ b) s = true -> prefix b (drop (String.length a) s) = true.
Proof.
  rewrite !prefix_split. intros [r ->]. exists r.
  rewrite append_assoc. induction a as [|c a IH]; simpl; auto.
Qed.

Lemma stoi_what (s : string) (ex : exception) :
  stoi s = inl ex -> what ex = "stoi".
Proof.
  unfold stoi.
  destruct (match skip_space s with
            | String "-" r => (true, r)
            | String "+" r => (false, r)
            | _ => (false, skip_space s)
            end) as [neg s2].
  destruct (read_digits s2 0) as [v [|n]].
  - intros [= <-]. reflexivity.
  - destruct ((INT_MIN <=? (if neg then - v else v))
              && ((if neg then - v else v) <=? INT_MAX))%Z; [discriminate|].
    intros [= <-]. reflexivity.
Qed.

End CxxFacts.

(* ===================================================================== *)
(** ** The HeaderBootstrap handler *)
(* ===================================================================== *)

Module HeaderBootstrapFacts.
Import Cxx CxxFacts HeaderBootstrap Harness.
Open Scope Z_scope.

(** [findHeader] never throws: the position it hands to [substr] is inside
    the buffer, because the colon it finds is at most the one of the
    match. *)
Lemma findHeader_total (head header : string) :
  exists value, findHeader head header = inr value.
Proof.
  unfold findHeader.
  destruct (find head (header ++ ": ") 0) as [a|] eqn:F1; [|eauto].
  destruct (find head ":" a) as [b|] eqn:F2; [|eauto].
  rewrite find_from_start in F1.
  pose proof (find0_bound _ _ _ F1) as Hb.
  pose proof (find0_occurs _ _ _ F1) as Ho.
  apply prefix_app_drop in Ho.
  assert (Hc : prefix ":" (drop (String.length header) (drop a head)) = true).
  { apply prefix_split in Ho. destruct Ho as [r Hr].
    apply prefix_split. exists (" " ++ r). rewrite Hr. reflexivity. }
  apply find_inv in F2. destruct F2 as (j & Fj & -> & _).
  pose proof (find0_first _ _ _ _ Fj Hc) as Hj.
  rewrite length_append in Hb. simpl in Hb.
  unfold substr.
  destruct (Nat.leb_spec (a + j + 2) (String.length head)); [|lia].
  destruct (find (drop (a + j + 2) head) CRLF 0); [|eauto].
  unfold substr_n. simpl. eauto.
Qed.

(** The value of a header, [findHeader] being total. *)
Lemma findHeader_absent (head header : string) :
  find head (header ++ ": ") 0 = None -> findHeader head header = inr "".
Proof. unfold findHeader. now intros ->. Qed.

Lemma authorize_spec (g : Globals) (passwd hostPort : string) :
  authorize g passwd hostPort = true <->
  (PASS g <> "" /\ passwd = PASS g) \/ (exists rest, hostPort = IP g ++ rest).
Proof.
  unfold authorize. rewrite <- find_zero_prefix.
  destruct (PASS g) as [|c p] eqn:EP; simpl.
  - destruct (find hostPort (IP g) 0) as [[|n]|];
      (split; [intros H; try discriminate; auto
              | intros [[H1 H2]|H]; try congruence; auto]).
  - destruct (String.eqb_spec passwd (String c p)) as [->|Hne].
    + split; auto. intros _. left. split; congruence.
    + destruct (find hostPort (IP g) 0) as [[|n]|];
        (split; [intros H; try discriminate; auto
                | intros [[H1 H2]|H]; try congruence; auto]).
Qed.

Lemma prepend_nil {A} (x : Run A) : prepend [] x = x.
Proof. destruct x as [[r h] t]. reflexivity. Qed.

Lemma handle_first_segment g e cb h :
  first_segment e cb ->
  handle g e h = caught (prepend (prologue e (clientSock h)) (negotiate g e cb h)).
Proof.
  intros (H1 & H2 & H3 & H4).
  apply Z.eqb_neq in H1, H2.
  unfold handle, try_catch, bind, get, setNonBlocking, bind, emit, ret, prologue.
  simpl. rewrite H1. simpl. rewrite H2, H3. simpl.
  destruct cb as [|c cb]; [congruence|]. 
  cbn [String.length]. 
  replace (Z.of_nat (S (String.length cb)) <=? 0) with false by (symmetry; apply Z.leb_gt; lia).
  destruct (negotiate g e (String c cb) h) as [[[ex|st] h1] t]; reflexivity.
Qed.

Lemma negotiate_decided g e cb h found split passwd :
  findHeader cb "X-Real-Host" = inr found ->
  findHeader cb "X-Split" = inr split ->
  findHeader cb "X-Pass" = inr passwd ->
  let hostPort := if empty found then DEFAULT_HOST else found in
  negotiate g e cb h =
  prepend (split_recv e (clientSock h) split)
    (if authorize g passwd hostPort then tunnel e hostPort h
     else (inr Returned, h,
           [Send (clientSock h) (errResp g passwd) 0 (e_send e);
            AsyncLog (logStr h ++ " - Acesso negado") None])).
Proof.
  intros Hf Hs Hp hostPort.
  unfold negotiate, bind, get, lift, split_recv. rewrite Hf, Hs, Hp. fold hostPort.
  destruct (empty split); simpl;
    (destruct (authorize g passwd hostPort); simpl;
     [destruct (tunnel e hostPort h) as [[r h1] t]; reflexivity | reflexivity]).
Qed.

Lemma pump_state src dst label r h :
  exists b t, pump src dst label r h = (inr b, h, t).
Proof.
  unfold pump, bind, emit, asyncLog, bind, get, emit, ret.
  destruct (io_len (r_splice r) <=? 0); simpl; [|eauto].
  destruct (negb (io_errno (r_splice r) =? EAGAIN)
            && negb (io_errno (r_splice r) =? EWOULDBLOCK)); simpl; [eauto|].
  destruct (io_len (r_recv r) <=? 0); simpl; [eauto|].
  destruct (retval (r_send r) <=? 0); simpl; eauto.
Qed.

Lemma for_events_state evs h :
  exists t, for_events evs h = (inr tt, h, t).
Proof.
  induction evs as [|r evs [t IH]]; cbn [for_events]; [unfold ret; eauto|].
  unfold bind at 1. unfold get at 1.
  destruct (negb (Z.land (r_events r) (Z.lor EPOLLERR EPOLLHUP) =? 0)).
  - unfold asyncLog, bind, get, emit. simpl. eauto.
  - destruct (r_fd r =? clientSock h).
    + unfold bind.
      destruct (pump_state (clientSock h) (targetSock h)
                  " - Erro splice client->target: " r h) as (b & t1 & ->).
      destruct b; [unfold ret; eauto | rewrite IH; eauto].
    + destruct (r_fd r =? targetSock h).
      * unfold bind.
        destruct (pump_state (targetSock h) (clientSock h)
                    " - Erro splice target->client: " r h) as (b & t1 & ->).
        destruct b; [unfold ret; eauto | rewrite IH; eauto].
      * rewrite IH. simpl. eauto.
Qed.

(** One turn of the [while] loop, written out. *)
Lemma relay_cons w ws c h :
  relay (w :: ws) c h =
  prepend [EpollWait (epollFd h) 2 1000 w]
    (match w with
     | WaitFailed errno =>
         if errno =? EINTR then relay ws c h
         else (inr Returned, h, [AsyncLog (logStr h ++ " - Erro epoll_wait: ") (Some errno)])
     | Ready [] =>
         if c + 1 >=? TIMEOUT then (inr Returned, h, [timeout_log h])
         else relay ws (c + 1) h
     | Ready evs => prepend (trace_of (for_events evs h)) (relay ws 0 h)
     end).
Proof.
  cbn [relay]. unfold bind at 1. unfold get at 1.
  unfold bind at 1. unfold emit at 1.
  destruct w as [errno|[|r evs]].
  - destruct (errno =? EINTR).
    + destruct (relay ws c h) as [[x h1] t]. reflexivity.
    + reflexivity.
  - cbn zeta. destruct (c + 1 >=? TIMEOUT).
    + reflexivity.
    + destruct (relay ws (c + 1) h) as [[x h1] t]. reflexivity.
  - destruct (for_events_state (r :: evs) h) as [t Ht].
    unfold bind at 1. rewrite Ht. unfold trace_of. cbn [snd].
    destruct (relay ws 0 h) as [[x h1] t1]. reflexivity.
Qed.

Lemma relay_state ws : forall c h,
  exists st t, relay ws c h = (inr st, h, t).
Proof.
  induction ws as [|w ws IH]; intros c h.
  - cbn. unfold ret. eauto.
  - rewrite relay_cons. destruct w as [errno|[|r evs]].
    + destruct (errno =? EINTR); [|cbn; eauto].
      destruct (IH c h) as (st & t & ->). cbn. eauto.
    + destruct (c + 1 >=? TIMEOUT); [cbn; eauto|].
      destruct (IH (c + 1) h) as (st & t & ->). cbn. eauto.
    + destruct (IH 0 h) as (st & t & ->). cbn. eauto.
Qed.

(** The idle counter of a relay that is still waiting is below the limit. *)
Lemma relay_count ws : forall c h c' t,
  0 <= c < TIMEOUT ->
  relay ws c h = (inr (Waiting c'), h, t) -> 0 <= c' < TIMEOUT.
Proof.
  induction ws as [|w ws IH]; intros c h c' t Hc.
  - cbn. unfold ret. intros [= <- <-]. exact Hc.
  - rewrite relay_cons. destruct w as [errno|[|r evs]].
    + destruct (errno =? EINTR); [|cbn; discriminate].
      destruct (relay_state ws c h) as (st & t1 & E). rewrite E. cbn.
      intros [= -> <-]. eapply IH; eauto.
    + destruct (Z.geb_spec (c + 1) TIMEOUT); [cbn; discriminate|].
      destruct (relay_state ws (c + 1) h) as (st & t1 & E). rewrite E. cbn.
      intros [= -> <-]. eapply (IH (c + 1)); eauto. lia.
    + destruct (relay_state ws 0 h) as (st & t1 & E). rewrite E. cbn.
      intros [= -> <-]. eapply (IH 0); eauto. unfold TIMEOUT. lia.
Qed.

Lemma prepend_prepend {A} t1 t2 (x : Run A) :
  prepend t1 (prepend t2 x) = prepend (t1 ++ t2) x.
Proof. destruct x as [[r h] t]. cbn. now rewrite List.app_assoc. Qed.

(** A relay still waiting goes on with what the script says next. *)
Lemma relay_app ws ws' : forall c h c' t,
  relay ws c h = (inr (Waiting c'), h, t) ->
  relay (ws ++ ws') c h = prepend t (relay ws' c' h).
Proof.
  induction ws as [|w ws IH]; intros c h c' t.
  - cbn. unfold ret. intros [= <- <-]. now rewrite prepend_nil.
  - cbn [app]. rewrite !relay_cons. destruct w as [errno|[|r evs]].
    + destruct (errno =? EINTR); [|cbn; discriminate].
      destruct (relay_state ws c h) as (st & t1 & E). rewrite E. cbn.
      intros [= -> <-]. rewrite (IH _ _ _ _ E). now rewrite prepend_prepend.
    + destruct (c + 1 >=? TIMEOUT); [cbn; discriminate|].
      destruct (relay_state ws (c + 1) h) as (st & t1 & E). rewrite E. cbn.
      intros [= -> <-]. rewrite (IH _ _ _ _ E). now rewrite prepend_prepend.
    + destruct (relay_state ws 0 h) as (st & t1 & E). rewrite E. cbn.
      intros [= -> <-]. rewrite (IH _ _ _ _ E).
      rewrite !prepend_prepend. rewrite <- ?List.app_assoc. reflexivity.
Qed.

(** Fewer empty waits than the limit leaves the loop waiting. *)
Lemma relay_idle_short (k : nat) : forall c h,
  0 <= c -> c + Z.of_nat k < TIMEOUT ->
  relay (repeat (Ready []) k) c h =
  (inr (Waiting (c + Z.of_nat k)), h, repeat (idle_wait h) k).
Proof.
  induction k as [|k IH]; intros c h H0 Hk.
  - cbn. unfold ret. now rewrite Z.add_0_r.
  - cbn [repeat]. rewrite relay_cons.
    destruct (Z.geb_spec (c + 1) TIMEOUT); [lia|].
    rewrite IH by lia. unfold prepend, idle_wait. cbn [app repeat].
    replace (c + 1 + Z.of_nat k) with (c + Z.of_nat (S k)) by lia.
    reflexivity.
Qed.

(** Enough empty waits to fill the limit end the loop with the timeout. *)
Lemma relay_idle (k : nat) : forall c h,
  0 <= c < TIMEOUT -> TIMEOUT <= c + Z.of_nat k ->
  relay (repeat (Ready []) k) c h =
  (inr Returned, h,
   (repeat (idle_wait h) (Z.to_nat (TIMEOUT - c)) ++ [timeout_log h])%list).
Proof.
  induction k as [|k IH]; intros c h H0 Hk.
  - cbn in Hk. lia.
  - cbn [repeat]. rewrite relay_cons.
    destruct (Z.geb_spec (c + 1) TIMEOUT).
    + replace (TIMEOUT - c) with 1 by lia. reflexivity.
    + rewrite IH by lia. unfold prepend, idle_wait.
      replace (Z.to_nat (TIMEOUT - c)) with (S (Z.to_nat (TIMEOUT - (c + 1)))) by lia.
      reflexivity.
Qed.

Ltac branch H c :=
  destruct c eqn:?; cbn in H; try discriminate H.

Lemma tunnel_waiting e hp h c :
  value_of (tunnel e hp h) = inr (Waiting c) ->
  exists h0, relaying h0 h /\
    forall ws, tunnel (with_waits e ws) hp h =
               prepend (trace_of (tunnel (with_waits e []) hp h)) (relay ws 0 h0).
Proof.
  destruct e as [nbc rcv rsp snd gai sock nbt con epc ctc ctt ws0].
  unfold value_of, trace_of, tunnel, connectTarget, setNonBlocking, asyncLog.
  unfold bind, get, lift, emit, modify, ret. cbn.
  intros H.
  branch H (split_hostPort hp). destruct p as [host port]. cbn in H.
  branch H gai.
  branch H (retval sock =? -1).
  branch H (retval (fst nbt) =? -1).
  branch H (retval (Datatypes.snd nbt) =? -1).
  branch H ((retval con =? -1) && negb (sys_errno con =? EINPROGRESS)).
  branch H (retval epc =? -1).
  branch H (retval ctc =? -1).
  branch H (retval ctt =? -1).
  match type of H with context [relay ws0 0 ?h0] => exists h0 end.
  split.
  - unfold relaying. cbn. repeat split; try reflexivity.
    all: apply Z.eqb_neq; assumption.
  - intros ws. cbn.
    destruct (relay ws 0 _) as [[r h1] t1]. cbn. reflexivity.
Qed.

Lemma value_prepend {A} t (x : Run A) : value_of (prepend t x) = value_of x.
Proof. destruct x as [[r h] t']. reflexivity. Qed.

Lemma trace_prepend {A} t (x : Run A) :
  trace_of (prepend t x) = (t ++ trace_of x)%list.
Proof. destruct x as [[r h] t']. reflexivity. Qed.

Lemma final_prepend {A} t (x : Run A) : final_of (prepend t x) = final_of x.
Proof. destruct x as [[r h] t']. reflexivity. Qed.

Lemma negotiate_waiting g e cb h c :
  value_of (negotiate g e cb h) = inr (Waiting c) ->
  exists h0, relaying h0 h /\
    forall ws, negotiate g (with_waits e ws) cb h =
               prepend (trace_of (negotiate g (with_waits e []) cb h))
                 (relay ws 0 h0).
Proof.
  destruct (findHeader_total cb "X-Real-Host") as [found Hf].
  destruct (findHeader_total cb "X-Split") as [split Hs].
  destruct (findHeader_total cb "X-Pass") as [passwd Hp].
  rewrite (negotiate_decided g e cb h _ _ _ Hf Hs Hp), value_prepend.
  destruct (authorize g passwd (if empty found then DEFAULT_HOST else found)) eqn:A;
    [|discriminate].
  intros H. destruct (tunnel_waiting _ _ _ _ H) as (h0 & Hr & Hw).
  exists h0. split; [exact Hr|]. intros ws.
  rewrite !(negotiate_decided g _ cb h _ _ _ Hf Hs Hp), A.
  rewrite trace_prepend, Hw, prepend_prepend. reflexivity.
Qed.

Lemma handle_unfold g e h :
  handle g e h =
  if retval (fst (e_nb_client e)) =? -1
  then (inr Returned, h,
        [FcntlGetfl (clientSock h) (fst (e_nb_client e));
         AsyncLog (logStr h ++ " - Erro non-blocking client: ")
           (Some (sys_errno (fst (e_nb_client e))))])
  else if retval (snd (e_nb_client e)) =? -1
  then (inr Returned, h,
        [FcntlGetfl (clientSock h) (fst (e_nb_client e));
         FcntlSetflNonblock (clientSock h) (snd (e_nb_client e));
         AsyncLog (logStr h ++ " - Erro non-blocking client: ")
           (Some (sys_errno (snd (e_nb_client e))))])
  else if io_len (e_recv e) <=? 0
  then (inr Returned, h,
        (prologue e (clientSock h)
           ++ [AsyncLog (logStr h ++ " - Erro recv inicial: ")
                 (Some (io_errno (e_recv e)))])%list)
  else caught (prepend (prologue e (clientSock h))
                 (negotiate g e (io_data (e_recv e)) h)).
Proof.
  unfold handle, try_catch, setNonBlocking, asyncLog, prologue.
  unfold bind, get, emit, ret.
  destruct (retval (fst (e_nb_client e)) =? -1) eqn:E1; [reflexivity|].
  destruct (retval (snd (e_nb_client e)) =? -1) eqn:E2; [reflexivity|].
  destruct (io_len (e_recv e) <=? 0) eqn:E3; [reflexivity|].
  cbn [negb]. cbv beta iota.
  destruct (negotiate g e (io_data (e_recv e)) h) as [[[ex|st] h1] t];
    reflexivity.
Qed.


Lemma caught_prepend_waiting t x c h1 t1 :
  x = (inr (Waiting c), h1, t1) ->
  caught (prepend t x) = (inr (Waiting c), h1, (t ++ t1)%list).
Proof. intros ->. reflexivity. Qed.

Lemma handle_waiting g e h c :
  value_of (handle g e h) = inr (Waiting c) ->
  exists h0, relaying h0 h /\
    forall ws, handle g (with_waits e ws) h =
               prepend (trace_of (handle g (with_waits e []) h)) (relay ws 0 h0).
Proof.
  intros H.
  assert (U : forall ws, handle g (with_waits e ws) h =
     caught (prepend (prologue e (clientSock h))
                 (negotiate g (with_waits e ws) (io_data (e_recv e)) h)) /\
     exists h1 t, negotiate g e (io_data (e_recv e)) h = (inr (Waiting c), h1, t)).
  { intros ws. rewrite handle_unfold in H. rewrite handle_unfold.
    change (e_nb_client (with_waits e ws)) with (e_nb_client e).
    change (e_recv (with_waits e ws)) with (e_recv e).
    change (prologue (with_waits e ws) (clientSock h)) with (prologue e (clientSock h)).
    destruct (retval (fst (e_nb_client e)) =? -1); [discriminate H|].
    destruct (retval (snd (e_nb_client e)) =? -1); [discriminate H|].
    destruct (io_len (e_recv e) <=? 0); [discriminate H|].
    split; [reflexivity|].
    destruct (negotiate g e (io_data (e_recv e)) h) as [[[ex|st] h1] t];
      [discriminate H|].
    injection H as ->. eauto. }
  destruct (U []) as [_ (h1 & t & N)].
  assert (N' : value_of (negotiate g e (io_data (e_recv e)) h) = inr (Waiting c))
    by now rewrite N.
  destruct (negotiate_waiting _ _ _ _ _ N') as (h0 & Hr & Hw).
  exists h0. split; [exact Hr|]. intros ws.
  rewrite (proj1 (U ws)), (proj1 (U [])), (Hw ws), (Hw []).
  set (t0 := trace_of (negotiate g (with_waits e []) (io_data (e_recv e)) h)).
  destruct (relay_state ws 0 h0) as (st & t1 & ->).
  reflexivity || (unfold prepend, caught, trace_of, relay, ret; cbn [snd];
                  rewrite ?app_nil_r, <- ?List.app_assoc; reflexivity).
Qed.

End HeaderBootstrapFacts.

Module HeaderBootstrapSpec.
Import Cxx CxxFacts HeaderBootstrap Harness HeaderBootstrapFacts.
Open Scope Z_scope.

(** *** Teardown *)

Lemma close_unfold h :
  close h =
  (inr tt,
   (if negb (targetClosed h) && negb (targetSock h =? -1)
    then set_targetClosed true else fun x => x)
     ((if negb (clientClosed h) && negb (clientSock h =? -1)
       then set_clientClosed true else fun x => x) h),
   ((if negb (clientClosed h) && negb (clientSock h =? -1)
     then [Shutdown (clientSock h); Close (clientSock h)] else [])
    ++ (if negb (targetClosed h) && negb (targetSock h =? -1)
        then [Shutdown (targetSock h); Close (targetSock h)] else []))%list).
Proof.
  unfold close, bind, get, emit, modify, ret.
  destruct (negb (clientClosed h) && negb (clientSock h =? -1));
    destruct (negb (targetClosed h) && negb (targetSock h =? -1)) eqn:E;
    cbn; rewrite ?E; reflexivity.
Qed.

Lemma destructor_unfold h :
  destructor h =
  (inr tt, final_of (close h),
   (trace_of (close h)
      ++ (if negb (epollFd h =? -1) then [Close (epollFd h)] else []))%list).
Proof.
  unfold destructor. unfold bind at 1. rewrite close_unfold.
  unfold final_of, trace_of. cbn [fst snd].
  unfold bind, get, emit, ret.
  assert (E : forall f1 f2 : bool,
    epollFd ((if f2 then set_targetClosed true else fun x => x)
               ((if f1 then set_clientClosed true else fun x => x) h))
    = epollFd h) by (intros [] []; reflexivity).
  rewrite E. destruct (negb (epollFd h =? -1)); cbn; rewrite ?app_nil_r; reflexivity.
Qed.

Lemma serve_returned g e h h1 t :
  handle g e h = (inr Returned, h1, t) ->
  serve g e h =
  (inr Returned, final_of (destructor h1), (t ++ trace_of (destructor h1))%list).
Proof.
  intros E. unfold serve, bind. rewrite E, destructor_unfold.
  cbn. rewrite ?app_nil_r. reflexivity.
Qed.

(** The teardown of a connection that never reached the upstream. *)
Lemma serve_unconnected g e sock addr t :
  sock <> -1 ->
  handle g e (new_handler sock addr) = (inr Returned, new_handler sock addr, t) ->
  run g e sock addr =
  (inr Returned, set_clientClosed true (new_handler sock addr),
   (t ++ [Shutdown sock; Close sock])%list).
Proof.
  intros Hs E. unfold run. rewrite (serve_returned _ _ _ _ _ E).
  rewrite destructor_unfold, close_unfold. cbn.
  apply Z.eqb_neq in Hs. rewrite Hs. reflexivity.
Qed.

Lemma errResp_rejected g passwd hostPort :
  authorize g passwd hostPort = false ->
  errResp g passwd = if empty (PASS g) then FORBIDDEN else WRONG_PASS.
Proof.
  unfold authorize, errResp.
  destruct (empty (PASS g)); cbn; [reflexivity|].
  destruct (passwd =? PASS g)%string; cbn; [discriminate | reflexivity].
Qed.

Lemma find_colon_bound s p :
  find s ":" 0 = Some p -> (p + 1 <= String.length s)%nat.
Proof.
  rewrite find_from_start. intros F. apply find0_bound in F. exact F.
Qed.

(** A port that [stoi] rejects makes [connectTarget] throw before any
    call is made. *)
Lemma split_hostPort_throws hostPort p ex :
  find hostPort ":" 0 = Some p ->
  stoi (drop (p + 1) hostPort) = inl ex ->
  split_hostPort hostPort = inl ex.
Proof.
  intros F S. unfold split_hostPort. rewrite F.
  pose proof (find_colon_bound _ _ F) as B.
  unfold substr_n, substr. cbn [Nat.leb].
  destruct (Nat.leb_spec (p + 1) (String.length hostPort)); [|lia].
  now rewrite S.
Qed.

Lemma tunnel_throws e hostPort h ex :
  split_hostPort hostPort = inl ex ->
  tunnel e hostPort h = (inl ex, h, []).
Proof.
  intros E. unfold tunnel, connectTarget, bind, get, lift. now rewrite E.
Qed.

Lemma bind_run {A B} (m : M A) (k : A -> M B) h :
  bind m k h =
  match m h with
  | (inl ex, h1, t1) => (inl ex, h1, t1)
  | (inr a, h1, t1) => prepend t1 (k a h1)
  end.
Proof.
  unfold bind. destruct (m h) as [[[ex|a] h1] t1]; [reflexivity|].
  destruct (k a h1) as [[r h2] t2]. reflexivity.
Qed.

Lemma caught_trace (x : Run status) :
  exists rest, trace_of (caught x) = (trace_of x ++ rest)%list.
Proof.
  destruct x as [[[ex|st] h] t]; cbn; eauto.
  exists []. now rewrite app_nil_r.
Qed.

Lemma serve_trace g e h :
  exists rest, trace_of (serve g e h) = (trace_of (handle g e h) ++ rest)%list.
Proof.
  unfold serve. rewrite bind_run.
  destruct (handle g e h) as [[[ex|[|c]] h1] t]; cbn [trace_of snd].
  - exists []. now rewrite app_nil_r.
  - rewrite trace_prepend. eauto.
  - rewrite trace_prepend. eauto.
Qed.

(** [connectTarget] begins by resolving the host and port it split. *)
Lemma tunnel_resolves e hostPort h host port :
  split_hostPort hostPort = inr (host, port) ->
  exists x, tunnel e hostPort h =
            prepend [Getaddrinfo host (to_string port) (e_getaddrinfo e)] x.
Proof.
  intros E. unfold tunnel. rewrite bind_run. cbn [get].
  rewrite prepend_nil, bind_run.
  assert (C : exists y, connectTarget e hostPort h =
            prepend [Getaddrinfo host (to_string port) (e_getaddrinfo e)] y).
  { unfold connectTarget. rewrite bind_run. unfold lift. rewrite E.
    rewrite prepend_nil, bind_run. cbn [emit]. eauto. }
  destruct C as [[[r h1] t] ->]. cbn [prepend].
  destruct r as [ex|b].
  - exists (inl ex, h1, t). reflexivity.
  - match goal with |- exists x, prepend _ ?k = _ => destruct k as [[r2 h2] t2] end.
    exists (r2, h2, (t ++ t2)%list). reflexivity.
Qed.

(** *** Authorisation *)

(** C1.  A request is allowed exactly when the configured passphrase is
    non-empty and the [X-Pass] value equals it, or the target (the
    [X-Real-Host] value, or the default when there is none) begins with the
    configured bind address; [negotiate] goes on to the tunnel in the first
    case and answers with the rejection in the other.  In particular an
    [X-Pass] equal to a non-empty passphrase is allowed whatever the
    target. *)
Theorem allowed_iff_passphrase_or_bind_prefix
    (g : Globals) (e : env) (h : ConnectionHandler)
    (clientBuffer found split passwd : string) :
  findHeader clientBuffer "X-Real-Host" = inr found ->
  findHeader clientBuffer "X-Split" = inr split ->
  findHeader clientBuffer "X-Pass" = inr passwd ->
  let hostPort := if empty found then DEFAULT_HOST else found in
  let allowed := (PASS g <> "" /\ passwd = PASS g)
                 \/ (exists rest, hostPort = (IP g ++ rest)%string) in
  (authorize g passwd hostPort = true <-> allowed) /\
  (allowed ->
   negotiate g e clientBuffer h =
   prepend (split_recv e (clientSock h) split) (tunnel e hostPort h)) /\
  (~ allowed ->
   negotiate g e clientBuffer h =
   prepend (split_recv e (clientSock h) split)
     (inr Returned, h,
      [Send (clientSock h) (errResp g passwd) 0 (e_send e);
       AsyncLog (logStr h ++ " - Acesso negado") None])) /\
  (PASS g <> "" -> passwd = PASS g -> authorize g passwd hostPort = true).
Proof.
  intros Hf Hs Hp hostPort allowed.
  pose proof (authorize_spec g passwd hostPort) as A. fold allowed in A.
  pose proof (negotiate_decided g e clientBuffer h _ _ _ Hf Hs Hp) as N.
  cbv zeta in N. fold hostPort in N.
  repeat split.
  - apply A.
  - apply A.
  - intros Ha. apply A in Ha. now rewrite N, Ha.
  - intros Hn. rewrite N.
    destruct (authorize g passwd hostPort); [|reflexivity].
    exfalso. apply Hn, A. reflexivity.
  - intros H1 H2. apply A. left. split; assumption.
Qed.

Lemma allowed_iff_passphrase_or_bind_prefix_witness :
  authorize secret "secret" "203.0.113.9:443" = true.
Proof.
  refine (proj2 (proj2 (proj2
    (allowed_iff_passphrase_or_bind_prefix secret (calm "" []) tunnelling
       (request ["X-Real-Host: 203.0.113.9:443"; "X-Pass: secret"])
       "203.0.113.9:443" "" "secret" _ _ _))) _ _);
    [reflexivity | reflexivity | reflexivity | discriminate | reflexivity].
Defined.

(** *** Rejection *)

(** C5, as the code has it.  A rejected request is answered with the 400
    line when a passphrase is configured (the [X-Pass] value, absent or
    not, then differs from it) and with the 403 line when none is; the
    connection is closed after the reply.  With no passphrase configured,
    a request whose target does not begin with the bind address is
    rejected with the 403 line. *)
Theorem rejection_reply_follows_configuration
    (g : Globals) (e : env) (sock : Z) (addr : string)
    (clientBuffer found split passwd : string) :
  sock <> -1 ->
  first_segment e clientBuffer ->
  findHeader clientBuffer "X-Real-Host" = inr found ->
  findHeader clientBuffer "X-Split" = inr split ->
  findHeader clientBuffer "X-Pass" = inr passwd ->
  authorize g passwd (if empty found then DEFAULT_HOST else found) = false ->
  run g e sock addr =
  (inr Returned, set_clientClosed true (new_handler sock addr),
   (prologue e sock ++ split_recv e sock split
      ++ [Send sock (if empty (PASS g) then FORBIDDEN else WRONG_PASS) 0 (e_send e);
          AsyncLog ("Conexao: " ++ addr ++ " - Acesso negado") None;
          Shutdown sock; Close sock])%list).
Proof.
  intros Hsock Hseg Hf Hs Hp Ha.
  rewrite (serve_unconnected g e sock addr
             (prologue e sock ++ split_recv e sock split
                ++ [Send sock (if empty (PASS g) then FORBIDDEN else WRONG_PASS)
                      0 (e_send e);
                    AsyncLog ("Conexao: " ++ addr ++ " - Acesso negado") None])
             Hsock).
  - rewrite <- !List.app_assoc. reflexivity.
  - rewrite (handle_first_segment g e clientBuffer _ Hseg).
    rewrite (negotiate_decided g e clientBuffer _ _ _ _ Hf Hs Hp). cbv zeta.
    rewrite Ha, (errResp_rejected _ _ _ Ha). reflexivity.
Qed.

Lemma rejection_reply_follows_configuration_witness :
  sends_to 5 (trace_of (run secret
     (calm (request ["X-Real-Host: 203.0.113.9:443"]) []) 5 "198.51.100.7:4242"))
  = [WRONG_PASS].
Proof.
  rewrite (rejection_reply_follows_configuration secret
             (calm (request ["X-Real-Host: 203.0.113.9:443"]) []) 5
             "198.51.100.7:4242"
             (request ["X-Real-Host: 203.0.113.9:443"])
             "203.0.113.9:443" "" "").
  - reflexivity.
  - discriminate.
  - repeat split; discriminate.
  - reflexivity.
  - reflexivity.
  - reflexivity.
  - reflexivity.
Defined.

(** C5 as it is worded fails on the shipped configuration: the request
    supplies a credential, [abc], that does not match the (empty)
    passphrase, its target is not under the bind address, it is rejected,
    and the reply is the 403 line, not the 400 line. *)
Lemma supplied_wrong_credential_answered_403 :
  let buffer := request ["X-Real-Host: 203.0.113.9:443"; "X-Pass: abc"] in
  let r := run shipped (calm buffer []) 5 "198.51.100.7:4242" in
  findHeader buffer "X-Pass" = inr "abc" /\
  "abc" <> PASS shipped /\
  authorize shipped "abc" "203.0.113.9:443" = false /\
  sends_to 5 (trace_of r) = [FORBIDDEN] /\
  FORBIDDEN <> WRONG_PASS.
Proof. repeat split; try reflexivity; discriminate. Qed.

(** C9.  When no [X-Real-Host] value is found the target is the default
    [0.0.0.0:22]; under the bind address [0.0.0.0] it is authorised
    whatever the passphrase and the credential are, and the handler goes
    on to resolve host [0.0.0.0], service [22]. *)
Theorem missing_real_host_is_always_authorized
    (g : Globals) (e : env) (sock : Z) (addr : string)
    (clientBuffer split passwd : string) :
  IP g = "0.0.0.0" ->
  first_segment e clientBuffer ->
  findHeader clientBuffer "X-Real-Host" = inr "" ->
  findHeader clientBuffer "X-Split" = inr split ->
  findHeader clientBuffer "X-Pass" = inr passwd ->
  authorize g passwd DEFAULT_HOST = true /\
  exists rest,
    trace_of (run g e sock addr) =
    (prologue e sock ++ split_recv e sock split
       ++ Getaddrinfo "0.0.0.0" "22" (e_getaddrinfo e) :: rest)%list.
Proof.
  intros Hip Hseg Hf Hs Hp.
  assert (Ha : authorize g passwd DEFAULT_HOST = true).
  { apply authorize_spec. right. exists ":22". now rewrite Hip. }
  split; [exact Ha|].
  destruct (tunnel_resolves e DEFAULT_HOST (new_handler sock addr)
              "0.0.0.0" 22 eq_refl) as [x T].
  unfold run.
  destruct (serve_trace g e (new_handler sock addr)) as [more ->].
  rewrite (handle_first_segment g e clientBuffer _ Hseg).
  rewrite (negotiate_decided g e clientBuffer _ _ _ _ Hf Hs Hp). cbv zeta.
  cbn [empty]. rewrite Ha, T.
  change (clientSock (new_handler sock addr)) with sock.
  change (to_string 22) with "22".
  rewrite !prepend_prepend.
  destruct (caught_trace
              (prepend ((prologue e sock ++ split_recv e sock split)
                          ++ [Getaddrinfo "0.0.0.0" "22" (e_getaddrinfo e)]) x))
    as [more' ->].
  rewrite trace_prepend, <- !List.app_assoc. cbn [app]. eauto.
Qed.

Lemma missing_real_host_is_always_authorized_witness :
  authorize secret "wrong" DEFAULT_HOST = true.
Proof.
  refine (proj1 (missing_real_host_is_always_authorized secret
            (calm (request ["X-Pass: wrong"]) []) 5 "198.51.100.7:4242"
            (request ["X-Pass: wrong"]) "" "wrong" eq_refl _ eq_refl eq_refl eq_refl)).
  repeat split; discriminate.
Defined.

(** C10.  When an allowed request's target has a colon and [std::stoi]
    throws on what follows it, the exception ends in the handler's
    [catch]: nothing is sent to the client, neither the 502 line nor any
    other, and the client socket is shut down and closed. *)
Theorem unparsable_port_closes_without_reply
    (g : Globals) (e : env) (sock : Z) (addr : string)
    (clientBuffer found split passwd : string) (p : nat) (ex : exception) :
  sock <> -1 ->
  first_segment e clientBuffer ->
  findHeader clientBuffer "X-Real-Host" = inr found ->
  findHeader clientBuffer "X-Split" = inr split ->
  findHeader clientBuffer "X-Pass" = inr passwd ->
  let hostPort := if empty found then DEFAULT_HOST else found in
  authorize g passwd hostPort = true ->
  find hostPort ":" 0 = Some p ->
  stoi (drop (p + 1) hostPort) = inl ex ->
  let r := run g e sock addr in
  r = (inr Returned, set_clientClosed true (new_handler sock addr),
       (prologue e sock ++ split_recv e sock split
          ++ [AsyncLog ("Conexao: " ++ addr ++ " - Excecao: stoi") None;
              Shutdown sock; Close sock])%list) /\
  sends_to sock (trace_of r) = [] /\
  clientClosed (final_of r) = true.
Proof.
  intros Hsock Hseg Hf Hs Hp hostPort Ha Hc Hx r.
  assert (R : r = (inr Returned, set_clientClosed true (new_handler sock addr),
       (prologue e sock ++ split_recv e sock split
          ++ [AsyncLog ("Conexao: " ++ addr ++ " - Excecao: stoi") None;
              Shutdown sock; Close sock])%list)).
  { unfold r.
    rewrite (serve_unconnected g e sock addr
               (prologue e sock ++ split_recv e sock split
                  ++ [AsyncLog ("Conexao: " ++ addr ++ " - Excecao: stoi") None])
               Hsock).
    - rewrite <- !List.app_assoc. reflexivity.
    - rewrite (handle_first_segment g e clientBuffer _ Hseg).
      rewrite (negotiate_decided g e clientBuffer _ _ _ _ Hf Hs Hp). cbv zeta.
      fold hostPort. rewrite Ha.
      rewrite (tunnel_throws e hostPort _ ex
                 (split_hostPort_throws _ _ _ Hc Hx)).
      cbn [prepend caught]. rewrite (stoi_what _ _ Hx).
      rewrite app_nil_r, <- !List.app_assoc. reflexivity. }
  split; [exact R|]. rewrite R. split; [|reflexivity].
  unfold trace_of, prologue, split_recv. cbn [snd].
  destruct (negb (empty split)); reflexivity.
Qed.

Lemma unparsable_port_closes_without_reply_witness :
  sends_to 5 (trace_of (run shipped
     (calm (request ["X-Real-Host: 0.0.0.0:ssh"]) []) 5 "198.51.100.7:4242")) = [].
Proof.
  refine (proj1 (proj2 (unparsable_port_closes_without_reply shipped
     (calm (request ["X-Real-Host: 0.0.0.0:ssh"]) []) 5 "198.51.100.7:4242"
     (request ["X-Real-Host: 0.0.0.0:ssh"]) "0.0.0.0:ssh" "" "" 7%nat
     (invalid_argument "stoi") _ _ eq_refl eq_refl eq_refl eq_refl eq_refl eq_refl))).
  - discriminate.
  - repeat split; discriminate.
Defined.

(** *** The upstream connector *)

Lemma connectTarget_in_progress e hostPort h host port fd :
  split_hostPort hostPort = inr (host, port) ->
  e_getaddrinfo e = None ->
  e_socket e = Ok fd -> fd <> -1 ->
  retval (fst (e_nb_target e)) <> -1 ->
  retval (snd (e_nb_target e)) <> -1 ->
  e_connect e = Err EINPROGRESS ->
  connectTarget e hostPort h =
  (inr true, set_targetClosed false (set_targetSock fd h),
   connecting e host port fd).
Proof.
  intros Hsp Hg Hs Hfd H1 H2 Hc.
  apply Z.eqb_neq in Hfd, H1, H2.
  unfold connectTarget, setNonBlocking, asyncLog, connecting.
  unfold bind, get, lift, emit, modify, ret.
  rewrite Hsp, Hg, Hs, Hc. cbn. rewrite Hfd. cbn. rewrite H1. cbn. rewrite H2.
  reflexivity.
Qed.

(** C3.  A [connect] that returns -1 with [EINPROGRESS] makes
    [connectTarget] return [true] at once: after the [connect] it only
    frees the address list, no call waits for the socket to become
    writable or reads its error, and the very next calls of [handle] set
    [TCP_NODELAY] on the client and send it the 200 reply. *)
Theorem in_progress_connect_is_answered_200
    (e : env) (hostPort host : string) (port fd : Z) (h : ConnectionHandler) :
  split_hostPort hostPort = inr (host, port) ->
  e_getaddrinfo e = None ->
  e_socket e = Ok fd -> fd <> -1 ->
  retval (fst (e_nb_target e)) <> -1 ->
  retval (snd (e_nb_target e)) <> -1 ->
  e_connect e = Err EINPROGRESS ->
  connectTarget e hostPort h =
    (inr true, set_targetClosed false (set_targetSock fd h),
     connecting e host port fd) /\
  (exists pre, connecting e host port fd =
               (pre ++ [Connect fd (Err EINPROGRESS); Freeaddrinfo])%list) /\
  exists rest,
    trace_of (tunnel e hostPort h) =
    (connecting e host port fd
       ++ [Setsockopt (clientSock h) TCP_NODELAY 1;
           Send (clientSock h) RESPONSE 0 (e_send e)] ++ rest)%list.
Proof.
  intros Hsp Hg Hs Hfd H1 H2 Hc.
  pose proof (connectTarget_in_progress e hostPort h host port fd
                Hsp Hg Hs Hfd H1 H2 Hc) as C.
  split; [exact C|]. split.
  - unfold connecting. rewrite Hc.
    eexists [_; _; _; _; _; _; _; _; _]. reflexivity.
  - unfold tunnel. rewrite bind_run. cbn [get]. rewrite prepend_nil, bind_run, C.
    cbn [negb]. rewrite trace_prepend.
    rewrite bind_run. cbn [emit]. rewrite bind_run. cbn [emit].
    rewrite !prepend_prepend. cbn [app].
    match goal with |- context [prepend _ ?k] => destruct k as [[r2 h2] t2] end.
    exists t2. reflexivity.
Qed.

Lemma in_progress_connect_is_answered_200_witness :
  value_of (connectTarget (calm "" []) "0.0.0.0:22" tunnelling) = inr true.
Proof.
  rewrite (proj1 (in_progress_connect_is_answered_200 (calm "" []) "0.0.0.0:22"
                    "0.0.0.0" 22 7 tunnelling eq_refl eq_refl eq_refl
                    ltac:(discriminate) ltac:(discriminate) ltac:(discriminate)
                    eq_refl)).
  reflexivity.
Defined.

(** *** Teardown is idempotent *)

Lemma close_again h :
  close (final_of (close h)) = (inr tt, final_of (close h), []).
Proof.
  rewrite !close_unfold. unfold final_of. cbn [fst snd].
  destruct h as [cs ts ls cc tc ef].
  cbn [clientSock targetSock clientClosed targetClosed].
  destruct cc, tc, (cs =? -1) eqn:E1, (ts =? -1) eqn:E2;
    cbn; rewrite ?E1, ?E2; reflexivity.
Qed.

Lemma closes_succ n h :
  closes (S n) h = (inr tt, final_of (close h), trace_of (close h)).
Proof.
  induction n as [|n IH].
  - cbn [closes]. rewrite bind_run, close_unfold. cbn. rewrite ?app_nil_r.
    reflexivity.
  - change (closes (S (S n))) with (close ;; closes (S n)).
    rewrite bind_run.
    rewrite (surjective_pairing (close h)), (surjective_pairing (fst (close h))).
    assert (V : fst (fst (close h)) = inr tt) by (rewrite close_unfold; reflexivity).
    rewrite V.
    pose proof (close_again h) as A. unfold final_of in A.
    assert (IH' : closes (S n) (snd (fst (close h))) =
                  (inr tt, snd (fst (close h)), [])).
    { clear IH. induction n as [|n IHn].
      - cbn [closes]. rewrite bind_run, A. reflexivity.
      - change (closes (S (S n))) with (close ;; closes (S n)).
        rewrite bind_run, A. rewrite IHn. reflexivity. }
    rewrite IH'. unfold final_of, trace_of. cbn. now rewrite app_nil_r.
Qed.

(** C8.  A second [close()] on the same handler makes no call and changes
    nothing; however many times [close()] is invoked, the calls made are
    those of the first: shutdown and close of the client socket if it was
    open, then of the upstream socket if it was open, each once. *)
Theorem close_is_idempotent (h : ConnectionHandler) (n : nat) :
  close (final_of (close h)) = (inr tt, final_of (close h), []) /\
  trace_of (closes (S n) h) =
    ((if negb (clientClosed h) && negb (clientSock h =? -1)
      then [Shutdown (clientSock h); Close (clientSock h)] else [])
     ++ (if negb (targetClosed h) && negb (targetSock h =? -1)
         then [Shutdown (targetSock h); Close (targetSock h)] else []))%list /\
  final_of (closes (S n) h) = final_of (close h).
Proof.
  split; [apply close_again|].
  rewrite closes_succ. split; [|reflexivity].
  rewrite close_unfold. reflexivity.
Qed.

(** *** The idle window of the relay *)

Lemma with_waits_same e : with_waits e (e_waits e) = e.
Proof. destruct e. reflexivity. Qed.

Lemma serve_waiting g e h c :
  value_of (serve g e h) = inr (Waiting c) ->
  value_of (handle g e h) = inr (Waiting c).
Proof.
  unfold serve. rewrite bind_run.
  destruct (handle g e h) as [[[ex|[|c']] h1] t].
  - cbn. discriminate.
  - rewrite value_prepend, bind_run, destructor_unfold. cbn. discriminate.
  - rewrite value_prepend. cbn. trivial.
Qed.

Lemma destructor_relaying h0 h :
  relaying h0 h -> clientClosed h = false -> clientSock h <> -1 ->
  destructor h0 =
  (inr tt, set_targetClosed true (set_clientClosed true h0),
   [Shutdown (clientSock h); Close (clientSock h);
    Shutdown (targetSock h0); Close (targetSock h0); Close (epollFd h0)]).
Proof.
  intros (H1 & H2 & _ & H4 & H5 & H6) Hc Hs.
  rewrite destructor_unfold, close_unfold. unfold final_of, trace_of.
  cbn [fst snd]. rewrite H2, Hc, H4, H1.
  apply Z.eqb_neq in Hs, H5, H6. rewrite Hs, H5, H6. reflexivity.
Qed.

(** A connection that is relaying and then sees sixty empty waits in a
    row: [handle] leaves the loop with the timeout and the destructor
    closes both sockets. *)
Lemma idle_window_ends_connection g e sock addr c :
  sock <> -1 ->
  value_of (run g e sock addr) = inr (Waiting c) ->
  let r := run g (with_waits e (e_waits e ++ repeat (Ready []) 60)) sock addr in
  value_of r = inr Returned /\
  clientClosed (final_of r) = true /\
  targetClosed (final_of r) = true /\
  0 <= c < TIMEOUT /\
  exists pre h0,
    relaying h0 (new_handler sock addr) /\
    trace_of r =
    (pre ++ repeat (idle_wait h0) (Z.to_nat (TIMEOUT - c))
       ++ [timeout_log h0; Shutdown sock; Close sock;
           Shutdown (targetSock h0); Close (targetSock h0);
           Close (epollFd h0)])%list.
Proof.
  intros Hsock Hw r. unfold run in Hw.
  apply serve_waiting in Hw.
  destruct (handle_waiting _ _ _ _ Hw) as (h0 & Hr & Hh).
  set (h := new_handler sock addr) in *.
  set (T := trace_of (handle g (with_waits e []) h)) in *.
  pose proof (Hh (e_waits e)) as H0. rewrite with_waits_same in H0.
  destruct (relay_state (e_waits e) 0 h0) as (st & t1 & R).
  rewrite H0, R in Hw. cbn in Hw. injection Hw as ->.
  assert (Hc : 0 <= c < TIMEOUT).
  { apply (relay_count (e_waits e) 0 h0 c t1); [unfold TIMEOUT; lia | exact R]. }
  pose proof (relay_app _ (repeat (Ready []) 60) _ _ _ _ R) as A.
  assert (H60 : TIMEOUT <= c + Z.of_nat 60)
    by (change (Z.of_nat 60) with 60; unfold TIMEOUT in *; lia).
  rewrite (relay_idle 60 c h0 Hc H60) in A.
  pose proof (Hh (e_waits e ++ repeat (Ready []) 60)%list) as H1.
  rewrite A in H1. cbn [prepend] in H1.
  assert (S : r = (inr Returned, set_targetClosed true (set_clientClosed true h0),
    ((T ++ t1 ++ repeat (idle_wait h0) (Z.to_nat (TIMEOUT - c)) ++ [timeout_log h0])
     ++ [Shutdown sock; Close sock;
         Shutdown (targetSock h0); Close (targetSock h0); Close (epollFd h0)])%list)).
  { unfold r, run. fold h. rewrite (serve_returned _ _ _ _ _ H1).
    rewrite (destructor_relaying h0 h Hr eq_refl Hsock). reflexivity. }
  rewrite S. repeat split; try reflexivity; try apply Hc.
  exists (T ++ t1)%list, h0. split; [exact Hr|].
  unfold trace_of. cbn [snd]. rewrite <- !List.app_assoc. reflexivity.
Qed.

(** An event resets the counter: after it fewer than sixty empty waits
    leave the loop waiting, however long it had been idle before. *)
Lemma event_resets_idle_counter h c r evs (k : nat) :
  Z.of_nat k < TIMEOUT ->
  value_of (relay (Ready (r :: evs) :: repeat (Ready []) k) c h)
  = inr (Waiting (Z.of_nat k)).
Proof.
  intros Hk. rewrite relay_cons, value_prepend, value_prepend.
  rewrite relay_idle_short by lia. reflexivity.
Qed.

End HeaderBootstrapSpec.

Module Socks5Spec.
Import Socks5 Socks5Harness.
Open Scope Z_scope.

Lemma seq_run (a b : Act) s :
  (a >> b)%act s = (fst (b (fst (a s))), (snd (a s) ++ snd (b (fst (a s))))%list).
Proof.
  unfold seq. destruct (a s) as [s1 t1]. cbn. destruct (b s1) as [s2 t2].
  reflexivity.
Qed.

Lemma dispatch_app v6 msg es es' s :
  dispatch v6 msg (es ++ es') s =
  (fst (dispatch v6 msg es' (fst (dispatch v6 msg es s))),
   (snd (dispatch v6 msg es s)
      ++ snd (dispatch v6 msg es' (fst (dispatch v6 msg es s))))%list).
Proof.
  revert s; induction es as [|e es IH]; intros s.
  - cbn. destruct (dispatch v6 msg es' s). reflexivity.
  - cbn [app dispatch]. rewrite !seq_run, IH. cbn [fst snd].
    now rewrite List.app_assoc.
Qed.

Lemma step_quiescent v6 msg e s : quiescent s -> step v6 msg e s = (s, []).
Proof.
  intros (H1 & H2 & H3 & H4 & H5 & H6).
  unfold step, reading. destruct e; rewrite ?H1, ?H2, ?H3, ?H4, ?H5, ?H6;
    reflexivity.
Qed.

Lemma dispatch_quiescent v6 msg es s :
  quiescent s -> dispatch v6 msg es s = (s, []).
Proof.
  intros Q. induction es as [|e es IH]; [reflexivity|].
  cbn [dispatch]. rewrite seq_run, (step_quiescent v6 msg e s Q). cbn [fst snd].
  rewrite IH. reflexivity.
Qed.

Lemma handle_error_run msg ec s :
  handle_error msg ec s = (torn_down s, teardown msg ec).
Proof.
  unfold handle_error, cancel_timeout, teardown, torn_down.
  destruct ec; reflexivity.
Qed.

Lemma firstn_deposit (data rest : list Z) :
  firstn (List.length data) (map (fun b => b mod 256) data ++ rest)
  = map (fun b => b mod 256) data.
Proof.
  rewrite <- (length_map (fun b => b mod 256) data) at 1.
  rewrite firstn_app, Nat.sub_diag, firstn_all. cbn. apply app_nil_r.
Qed.

Lemma no_zero_method (methods : list Z) :
  Forall (fun b => 1 <= b <= 255) methods ->
  existsb (Z.eqb 0) (map (fun b => b mod 256) methods) = false.
Proof.
  induction 1 as [|b l Hb _ IH]; [reflexivity|].
  cbn [map existsb]. rewrite IH, Z.mod_small by lia.
  destruct (Z.eqb_spec 0 b); [lia | reflexivity].
Qed.

Lemma step_handshake_head v6 msg s n :
  client_rd s = Some on_handshake_head -> 0 <= n <= 255 ->
  step v6 msg (ClientRead success [5; n]) s =
  (set_client_rd (Some (on_handshake_methods n))
     (set_buffer_ (5 :: n :: skipn 2 (buffer_ s)) (set_client_rd None s)),
   [AsyncRead client_socket_ n]).
Proof.
  intros H Hn. unfold step, reading. rewrite H.
  unfold seq, upd, deposit, resume, reading, async_read, seq, act, upd, at_.
  cbn -[Z.modulo skipn]. rewrite (Z.mod_small n 256) by lia. reflexivity.
Qed.

Lemma step_handshake_methods v6 msg s methods :
  client_rd s = Some (on_handshake_methods (Z.of_nat (List.length methods))) ->
  Forall (fun b => 1 <= b <= 255) methods ->
  step v6 msg (ClientRead success methods) s =
  (set_client_wr (client_wr s ++ [(on_reject_written, Literal [5; 255])])
     (set_buffer_ (map (fun b => b mod 256) methods
                     ++ skipn (List.length methods) (buffer_ s))
        (set_client_rd None s)),
   [AsyncWrite client_socket_ (Literal [5; 255])]).
Proof.
  intros H F. unfold step, reading. rewrite H.
  unfold seq, upd, deposit, resume, reading, async_write, seq, act, upd.
  cbn -[Z.modulo skipn firstn existsb]. rewrite Nat2Z.id, firstn_deposit.
  rewrite (no_zero_method _ F). reflexivity.
Qed.

Lemma step_reject_written v6 msg s ec rest :
  client_wr s = (on_reject_written, Literal [5; 255]) :: rest ->
  step v6 msg (ClientWritten ec) s =
  (torn_down (set_client_wr rest s),
   ((if failed ec then [] else [Transmit client_socket_ [5; 255]])
      ++ teardown msg ec)%list).
Proof.
  intros H. unfold step, reading. rewrite H.
  rewrite !seq_run. cbn [resume]. rewrite handle_error_run.
  destruct (failed ec); reflexivity.
Qed.

(** *** Method negotiation *)

(** C6.  When none of the offered methods is 0x00 the session answers
    with the two bytes 05 FF; when that write completes, whatever its
    outcome, it tears the connection down, and nothing is pending
    afterwards, so no dispatch makes it read from the client again. *)
Theorem no_acceptable_method_is_rejected
    (v6 : list Z -> string) (msg : error_code -> string)
    (buf methods : list Z) (ec : error_code) :
  (List.length methods <= 255)%nat ->
  Forall (fun b => 1 <= b <= 255) methods ->
  let n := Z.of_nat (List.length methods) in
  let r := session v6 msg
             [ClientRead success [5; n]; ClientRead success methods;
              ClientWritten ec] (accepted buf) in
  snd r =
    ([Log ("Nova sess" ++ a_tilde ++ "o iniciada"); ExpiresAfter 30;
      AsyncRead client_socket_ 2; AsyncRead client_socket_ n;
      AsyncWrite client_socket_ (Literal [5; 255])]
       ++ (if failed ec then [] else [Transmit client_socket_ [5; 255]])
       ++ teardown msg ec)%list /\
  client_open (fst r) = false /\ remote_open (fst r) = false /\
  quiescent (fst r) /\
  forall es, dispatch v6 msg es (fst r) = (fst r, []).
Proof.
  intros L F n r.
  assert (R : r =
    (torn_down
       (set_client_wr []
          (set_client_wr [(on_reject_written, Literal [5; 255])]
             (set_buffer_ (map (fun b => b mod 256) methods
                             ++ skipn (List.length methods)
                                  (5 :: n :: skipn 2 buf))
                (set_client_rd None
                   (set_client_rd (Some (on_handshake_methods n))
                      (set_buffer_ (5 :: n :: skipn 2 buf)
                         (set_client_rd None
                            (set_client_rd (Some on_handshake_head)
                               (set_timer_ (Some 30) (accepted buf)))))))))),
     ([Log ("Nova sess" ++ a_tilde ++ "o iniciada"); ExpiresAfter 30;
       AsyncRead client_socket_ 2; AsyncRead client_socket_ n;
       AsyncWrite client_socket_ (Literal [5; 255])]
        ++ (if failed ec then [] else [Transmit client_socket_ [5; 255]])
        ++ teardown msg ec)%list)).
  { unfold r, session. rewrite seq_run. cbn [dispatch]. rewrite !seq_run.
    change (start (accepted buf))
      with (set_client_rd (Some on_handshake_head)
              (set_timer_ (Some 30) (accepted buf)),
            [Log ("Nova sess" ++ a_tilde ++ "o iniciada"); ExpiresAfter 30;
             AsyncRead client_socket_ 2]).
    cbn [fst snd].
    rewrite step_handshake_head by (first [reflexivity | unfold n; lia]).
    cbn [fst snd].
    rewrite step_handshake_methods by (first [reflexivity | exact F]).
    cbn [fst snd].
    rewrite (step_reject_written v6 msg _ ec []) by reflexivity.
    cbn [fst snd skip]. rewrite app_nil_r. reflexivity. }
  rewrite R. cbn [fst snd].
  assert (Q : quiescent (fst r)) by (rewrite R; repeat split).
  rewrite R in Q. cbn [fst] in Q.
  repeat split; try apply Q.
  intros es. apply dispatch_quiescent, Q.
Qed.

Lemma no_acceptable_method_is_rejected_witness :
  transmitted client_socket_
    (snd (session sample_v6 sample_message
            [ClientRead success [5; 2]; ClientRead success [1; 2];
             ClientWritten success] (accepted [])))
  = [5; 255].
Proof.
  pose proof (proj1 (no_acceptable_method_is_rejected sample_v6 sample_message
                       [] [1; 2] success ltac:(cbn; lia)
                       ltac:(repeat constructor; lia))) as H.
  change (Z.of_nat (List.length [1; 2])) with 2 in H.
  rewrite H. reflexivity.
Defined.

(** *** The target of the connect *)

Lemma nth_store_end {A} (l : list A) (x y d : A) :
  nth (List.length l) (store (List.length l) y (l ++ [x])) d = y.
Proof. induction l as [|z l IH]; [reflexivity | exact IH]. Qed.

Lemma request_head_connect v6 msg s rsv atype h n :
  client_rd s = Some on_request_head ->
  ((atype = 1 /\ h = on_ipv4 (List.length (frames s)) /\ n = 4) \/
   (atype = 3 /\ h = on_domain_length (List.length (frames s)) /\ n = 1) \/
   (atype = 4 /\ h = on_ipv6 (List.length (frames s)) /\ n = 16)) ->
  let s1 := fst (step v6 msg (ClientRead success [5; 1; rsv; atype]) s) in
  snd (step v6 msg (ClientRead success [5; 1; rsv; atype]) s)
    = [AsyncRead client_socket_ n] /\
  client_rd s1 = Some h /\
  frames s1 = store (List.length (frames s)) None (frames s ++ [Some ("", 0)]).
Proof.
  intros H C. unfold step, reading. rewrite H, !seq_run.
  cbn -[Z.modulo skipn store]. unfold reading, at_.
  cbn -[Z.modulo skipn store].
  destruct C as [(-> & -> & ->) | [(-> & -> & ->) | (-> & -> & ->)]];
    cbn -[skipn store]; repeat split.
Qed.

Lemma dangling v6 msg s h (data : list Z) object :
  client_rd s = Some h ->
  (exists dest len,
     nth dest (frames s) None = None /\ object = "dest_addr" /\
     (h = on_ipv4 dest \/ h = on_domain dest len \/ h = on_ipv6 dest)) ->
  snd (step v6 msg (ClientRead success data) s) = [Undefined object].
Proof.
  intros H (dest & len & D & -> & [-> | [-> | ->]]);
    unfold step, reading; rewrite H, !seq_run;
    cbn -[Z.modulo skipn]; unfold reading, through, reading;
    cbn -[Z.modulo skipn]; rewrite D; reflexivity.
Qed.

(** C2, where the code falls short.  The handlers that receive the
    address of a CONNECT request reach [dest_addr] and [dest_port] through
    references to locals of the handler of the request's first four
    bytes, which has returned by the time they run: for each of the three
    address types the session, once the address bytes are read, assigns
    to the destroyed [dest_addr], and the behaviour is undefined from
    there.  No resolution and no connect has been started by then: a
    session that asks for 127.0.0.1 port 22, or for any other IPv4
    address and port, ends in that assignment after the read of the four
    address bytes. *)
Theorem connect_request_uses_destroyed_locals
    (v6 : list Z -> string) (msg : error_code -> string)
    (s : Session) (rsv len : Z) (a name : list Z) :
  client_rd s = Some on_request_head ->
  0 <= len <= 255 ->
  snd (dispatch v6 msg
         [ClientRead success [5; 1; rsv; 1]; ClientRead success a] s)
    = [AsyncRead client_socket_ 4; Undefined "dest_addr"] /\
  snd (dispatch v6 msg
         [ClientRead success [5; 1; rsv; 3]; ClientRead success [len];
          ClientRead success name] s)
    = [AsyncRead client_socket_ 1; AsyncRead client_socket_ len;
       Undefined "dest_addr"] /\
  snd (dispatch v6 msg
         [ClientRead success [5; 1; rsv; 4]; ClientRead success a] s)
    = [AsyncRead client_socket_ 16; Undefined "dest_addr"] /\
  forall buf p,
    snd (session v6 msg (connect_v4 a p) (accepted buf)) =
      [Log ("Nova sess" ++ a_tilde ++ "o iniciada"); ExpiresAfter 30;
       AsyncRead client_socket_ 2; AsyncRead client_socket_ 1;
       AsyncWrite client_socket_ (Literal [5; 0]);
       Transmit client_socket_ [5; 0];
       Cancel; ExpiresAfter 30; AsyncRead client_socket_ 4;
       AsyncRead client_socket_ 4; Undefined "dest_addr"] /\
    existsb reaches_out (snd (session v6 msg (connect_v4 a p) (accepted buf)))
      = false.
Proof.
  intros H L. split; [|split; [|split]].
  - destruct (request_head_connect v6 msg s rsv 1 _ 4 H
                (or_introl (conj eq_refl (conj eq_refl eq_refl))))
      as (T & R & F).
    cbn [dispatch]. rewrite !seq_run, T. cbn [fst snd skip].
    rewrite (dangling v6 msg _ _ a "dest_addr" R).
    + reflexivity.
    + exists (List.length (frames s)), 0. rewrite F, nth_store_end. auto.
  - destruct (request_head_connect v6 msg s rsv 3 _ 1 H
                (or_intror (or_introl (conj eq_refl (conj eq_refl eq_refl)))))
      as (T & R & F).
    set (s1 := fst (step v6 msg (ClientRead success [5; 1; rsv; 3]) s)) in *.
    assert (S2 : snd (step v6 msg (ClientRead success [len]) s1)
                 = [AsyncRead client_socket_ len] /\
                 client_rd (fst (step v6 msg (ClientRead success [len]) s1))
                 = Some (on_domain (List.length (frames s)) len) /\
                 frames (fst (step v6 msg (ClientRead success [len]) s1))
                 = frames s1).
    { unfold step, reading. rewrite R, !seq_run.
      cbn -[Z.modulo skipn]. unfold reading, at_. cbn -[Z.modulo skipn].
      rewrite (Z.mod_small len 256) by lia. repeat split. }
    destruct S2 as (T2 & R2 & F2).
    cbn [dispatch]. rewrite !seq_run, T. fold s1. cbn [fst snd skip].
    rewrite T2. rewrite (dangling v6 msg _ _ name "dest_addr" R2).
    + reflexivity.
    + exists (List.length (frames s)), len. rewrite F2, F, nth_store_end. auto.
  - destruct (request_head_connect v6 msg s rsv 4 _ 16 H
                (or_intror (or_intror (conj eq_refl (conj eq_refl eq_refl)))))
      as (T & R & F).
    cbn [dispatch]. rewrite !seq_run, T. cbn [fst snd skip].
    rewrite (dangling v6 msg _ _ a "dest_addr" R).
    + reflexivity.
    + exists (List.length (frames s)), 0. rewrite F, nth_store_end. auto.
  - intros buf p.
    assert (E : snd (session v6 msg (connect_v4 a p) (accepted buf)) =
                [Log ("Nova sess" ++ a_tilde ++ "o iniciada"); ExpiresAfter 30;
                 AsyncRead client_socket_ 2; AsyncRead client_socket_ 1;
                 AsyncWrite client_socket_ (Literal [5; 0]);
                 Transmit client_socket_ [5; 0];
                 Cancel; ExpiresAfter 30; AsyncRead client_socket_ 4;
                 AsyncRead client_socket_ 4; Undefined "dest_addr"]).
    { unfold session, connect_v4, negotiated. rewrite seq_run.
      cbn [app dispatch]. rewrite !seq_run.
      unfold step, reading. cbn -[Z.modulo skipn].
      unfold reading, through, reading. cbn -[Z.modulo skipn].
      reflexivity. }
    rewrite E. split; reflexivity.
Qed.

Lemma connect_request_uses_destroyed_locals_witness :
  snd (dispatch sample_v6 sample_message
         [ClientRead success [5; 1; 0; 1]; ClientRead success [127; 0; 0; 1]]
         (fst (session sample_v6 sample_message negotiated (accepted []))))
  = [AsyncRead client_socket_ 4; Undefined "dest_addr"].
Proof.
  refine (proj1 (connect_request_uses_destroyed_locals sample_v6 sample_message
                   (fst (session sample_v6 sample_message negotiated (accepted [])))
                   0 0 [127; 0; 0; 1] [] eq_refl _)).
  split; discriminate.
Defined.

End Socks5Spec.

Module RelaySpec.
Import Cxx HeaderBootstrap Harness HeaderBootstrapFacts HeaderBootstrapSpec.
Open Scope Z_scope.

Lemma timer_expiry_tears_down v6 msg s secs :
  Socks5.timer_ s = Some secs ->
  Socks5.step v6 msg Socks5.TimerExpired s =
  (Socks5Harness.torn_down (Socks5.set_timer_ None s),
   Socks5.Log "Timeout expirado" :: Socks5Harness.teardown msg Socks5.timed_out).
Proof.
  intros H. unfold Socks5.step, Socks5.reading. rewrite H.
  rewrite Socks5Spec.seq_run. unfold Socks5.on_timeout.
  rewrite Socks5Spec.seq_run, Socks5Spec.handle_error_run. reflexivity.
Qed.

Lemma connected_starts_forwarding v6 msg s local :
  Socks5.connector s = Some Socks5.on_connected ->
  Socks5.timer_ (fst (Socks5.step v6 msg (Socks5.Connected Socks5.success local) s))
    = Some 300 /\
  exists reply,
    snd (Socks5.step v6 msg (Socks5.Connected Socks5.success local) s) =
    [Socks5.Cancel; Socks5.AsyncWrite Socks5.client_socket_ (Socks5.Literal reply);
     Socks5.ExpiresAfter 300;
     Socks5.AsyncReadSome Socks5.client_socket_ 8192;
     Socks5.AsyncReadSome Socks5.remote_socket_ 8192].
Proof.
  intros H. unfold Socks5.step, Socks5.reading. rewrite H.
  split; [reflexivity|]. eexists. reflexivity.
Qed.

(** C7.  HeaderBootstrap: a connection that is relaying and gets sixty
    empty one-second waits in a row leaves the loop with the timeout (an
    event before them resets the counter, so fewer do not end it), and the
    destructor then shuts down and closes both sockets.  SOCKS5: when the
    300-second timer armed by [forward_data] expires with no read or
    write completed, [handle_error] shuts down and closes both sockets. *)
Theorem idle_relay_is_torn_down
    (g : Globals) (e : env) (sock : Z) (addr : string) (c : Z)
    (v6 : list Z -> string) (msg : Socks5.error_code -> string)
    (s : Socks5.Session) (local : Socks5.endpoint) :
  sock <> -1 ->
  value_of (run g e sock addr) = inr (Waiting c) ->
  Socks5.connector s = Some Socks5.on_connected ->
  (let r := run g (with_waits e (e_waits e ++ repeat (Ready []) 60)) sock addr in
   value_of r = inr Returned /\
   clientClosed (final_of r) = true /\
   targetClosed (final_of r) = true /\
   exists pre h0,
     relaying h0 (new_handler sock addr) /\
     trace_of r =
     (pre ++ repeat (idle_wait h0) (Z.to_nat (TIMEOUT - c))
        ++ [timeout_log h0; Shutdown sock; Close sock;
            Shutdown (targetSock h0); Close (targetSock h0);
            Close (epollFd h0)])%list) /\
  (forall h c' r evs (k : nat),
     Z.of_nat k < TIMEOUT ->
     value_of (relay (Ready (r :: evs) :: repeat (Ready []) k) c' h)
     = inr (Waiting (Z.of_nat k))) /\
  (let r := Socks5.dispatch v6 msg
              [Socks5.Connected Socks5.success local; Socks5.TimerExpired] s in
   Socks5.timer_ (fst (Socks5.step v6 msg
                         (Socks5.Connected Socks5.success local) s)) = Some 300 /\
   Socks5.client_open (fst r) = false /\
   Socks5.remote_open (fst r) = false /\
   exists pre,
     snd r = (pre ++ Socks5.Log "Timeout expirado"
                  :: Socks5Harness.teardown msg Socks5.timed_out)%list).
Proof.
  intros Hsock Hw Hc. split; [|split].
  - destruct (idle_window_ends_connection g e sock addr c Hsock Hw)
      as (H1 & H2 & H3 & _ & H5).
    cbv zeta. auto.
  - intros. now apply event_resets_idle_counter.
  - destruct (connected_starts_forwarding v6 msg s local Hc) as [T [reply A]].
    cbv zeta. split; [exact T|].
    cbn [Socks5.dispatch]. rewrite !Socks5Spec.seq_run.
    rewrite (timer_expiry_tears_down v6 msg _ 300 T). cbn [fst snd Socks5.skip].
    repeat split.
    exists (snd (Socks5.step v6 msg (Socks5.Connected Socks5.success local) s)).
    now rewrite app_nil_r.
Qed.

Lemma idle_relay_is_torn_down_witness :
  value_of (run shipped
              (with_waits (calm (request []) [])
                 ([] ++ repeat (Ready []) 60)) 5 "198.51.100.7:4242")
  = inr Returned.
Proof.
  exact (proj1 (proj1 (idle_relay_is_torn_down shipped (calm (request []) []) 5
                         "198.51.100.7:4242" 0 Socks5Harness.sample_v6
                         Socks5Harness.sample_message
                         (Socks5.set_connector (Some Socks5.on_connected)
                            (Socks5.accepted []))
                         Socks5Harness.bound_at
                         ltac:(discriminate) eq_refl eq_refl))).
Defined.

Lemma pump_unavailable src dst label r h :
  splice_unavailable r = true ->
  pump src dst label r h =
  (inr true, h,
   [Splice src dst BUFLEN (r_splice r);
    AsyncLog (logStr h ++ label) (Some (io_errno (r_splice r)))]).
Proof.
  unfold splice_unavailable, pump. destruct (r_splice r) as [d|errno|errno];
    try discriminate.
  intros E. unfold bind, emit, asyncLog, bind, get, emit, ret.
  cbn [io_len io_errno]. change EWOULDBLOCK with EAGAIN. rewrite E.
  reflexivity.
Qed.

Lemma for_events_unavailable evs : forall h,
  forallb splice_unavailable evs = true ->
  forallb moves_nothing (trace_of (for_events evs h)) = true.
Proof.
  induction evs as [|r evs IH]; intros h F; [reflexivity|].
  cbn [forallb] in F. apply andb_prop in F. destruct F as [Fr Fe].
  cbn [for_events]. unfold bind at 1. unfold get at 1.
  destruct (negb (Z.land (r_events r) (Z.lor EPOLLERR EPOLLHUP) =? 0)).
  - reflexivity.
  - destruct (r_fd r =? clientSock h).
    + unfold bind. rewrite (pump_unavailable _ _ _ r h Fr).
      unfold splice_unavailable in Fr.
      destruct (r_splice r); try discriminate Fr. reflexivity.
    + destruct (r_fd r =? targetSock h).
      * unfold bind. rewrite (pump_unavailable _ _ _ r h Fr).
        unfold splice_unavailable in Fr.
        destruct (r_splice r); try discriminate Fr. reflexivity.
      * specialize (IH h Fe). destruct (for_events evs h) as [[x h1] t].
        exact IH.
Qed.

Lemma relay_unavailable ws : forall c h,
  forallb no_zero_copy ws = true ->
  forallb moves_nothing (trace_of (relay ws c h)) = true.
Proof.
  induction ws as [|w ws IH]; intros c h F; [reflexivity|].
  cbn [forallb] in F. apply andb_prop in F. destruct F as [Fw Fs].
  rewrite relay_cons. destruct w as [errno|[|r evs]].
  - destruct (errno =? EINTR); [|reflexivity].
    specialize (IH c h Fs). destruct (relay ws c h) as [[x h1] t]. exact IH.
  - destruct (c + 1 >=? TIMEOUT); [reflexivity|].
    specialize (IH (c + 1) h Fs). destruct (relay ws (c + 1) h) as [[x h1] t].
    exact IH.
  - pose proof (for_events_unavailable (r :: evs) h Fw) as E.
    specialize (IH 0 h Fs). destruct (relay ws 0 h) as [[x h1] t].
    unfold trace_of in *. cbn [prepend snd] in *.
    change (forallb moves_nothing
              (snd (for_events (r :: evs) h) ++ t) = true).
    rewrite forallb_app, E. exact IH.
Qed.

Lemma moves_nothing_is_empty fd (t : list event) :
  forallb moves_nothing t = true ->
  taken_from fd t = "" /\ delivered_to fd t = "" /\ sends_to fd t = [].
Proof.
  induction t as [|ev t IH]; intros F; [repeat split|].
  cbn [forallb] in F. apply andb_prop in F. destruct F as [Fe Ft].
  destruct (IH Ft) as (A & B & C).
  destruct ev; try discriminate Fe; cbn [taken_from delivered_to sends_to];
    try (repeat split; assumption).
  destruct r; try discriminate Fe; repeat split; assumption.
Qed.

(** C4, where the code falls short.  The zero-copy path is a [splice]
    from one socket to the other; the fallback to [recv] and [send] is
    taken only when the splice fails with [EAGAIN].  When the splice is
    refused with any other error the loop logs it and leaves the event,
    and that is what the kernel answers ([EINVAL]) whenever neither
    descriptor is a pipe, as here.  So for every script of waits whose
    splices are so refused the relay makes no [recv] and no [send] and no
    splice moves a byte: nothing the client has written is taken from it
    and nothing is delivered to the upstream, nor the other way round. *)
Theorem unavailable_splice_forwards_nothing
    (ws : list wait_ret) (c : Z) (h : ConnectionHandler) :
  forallb no_zero_copy ws = true ->
  let t := trace_of (relay ws c h) in
  forallb moves_nothing t = true /\
  forall fd,
    taken_from fd t = "" /\ delivered_to fd t = "" /\ sends_to fd t = [].
Proof.
  intros F t. pose proof (relay_unavailable ws c h F) as E.
  split; [exact E|]. intros fd. now apply moves_nothing_is_empty.
Qed.

Lemma unavailable_splice_forwards_nothing_witness :
  let t := trace_of (relay [client_readable "ABCD" 4] 0 tunnelling) in
  t = [EpollWait 8 2 1000 (client_readable "ABCD" 4);
       Splice 5 7 BUFLEN (Failed EINVAL);
       AsyncLog "Conexao: 198.51.100.7:4242 - Erro splice client->target: "
         (Some EINVAL)] /\
  taken_from 5 t = "" /\ delivered_to 7 t = "" /\ sends_to 7 t = [].
Proof.
  pose proof (proj2 (unavailable_splice_forwards_nothing
                       [client_readable "ABCD" 4] 0 tunnelling eq_refl)) as H.
  split; [reflexivity|].
  split; [exact (proj1 (H 5))|]. exact (proj2 (H 7)).
Defined.

End RelaySpec.

(* ===================================================================== *)
(** ** More on the HeaderBootstrap handler *)
(* ===================================================================== *)

Module HeaderBootstrapMore.
Import Cxx CxxFacts HeaderBootstrap Harness Observations Connector.
Import HeaderBootstrapFacts HeaderBootstrapSpec.
Open Scope Z_scope.

(** *** findHeader *)

Lemma drop_app_length (a b : string) : drop (String.length a) (a ++ b) = b.
Proof. induction a as [|c a IH]; [reflexivity | exact IH]. Qed.

Lemma take_app_length (a b : string) : take (String.length a) (a ++ b) = a.
Proof. induction a as [|c a IH]; [destruct b; reflexivity | cbn; now rewrite IH]. Qed.

Lemma prefix_cons_false c s x rest :
  prefix (String c "") (String x s) = false ->
  prefix (String c "") (String x (s ++ rest)) = false.
Proof.
  intros H. destruct (prefix (String c "") (String x (s ++ rest))) eqn:P; [|trivial].
  apply prefix_split in P. destruct P as [r P]. injection P as -> _.
  assert (T : prefix (String c "") (String c s) = true)
    by (apply prefix_split; exists s; reflexivity).
  congruence.
Qed.

(** The first occurrence of a character absent from [a] in [a ++ c :: r]. *)
Lemma find0_char_after (a r : string) (c : ascii) :
  find0 a (String c "") = None ->
  find0 (a ++ String c r) (String c "") = Some (String.length a).
Proof.
  induction a as [|x a IH]; intros H.
  - cbn [append find0].
    assert (T : prefix (String c "") (String c r) = true)
      by (apply prefix_split; exists r; reflexivity).
    now rewrite T.
  - cbn [find0] in H.
    destruct (prefix (String c "") (String x a)) eqn:P; [discriminate|].
    destruct (find0 a (String c "")) eqn:F; [discriminate|].
    change ((String x a ++ String c r)%string) with (String x (a ++ String c r)).
    cbn [find0]. rewrite (prefix_cons_false _ _ _ _ P), (IH eq_refl).
    reflexivity.
Qed.

Lemma prefix_CRLF_false x s rest :
  prefix CRLF (String x s) = false ->
  prefix CRLF (String x (s ++ CRLF ++ rest)) = false.
Proof.
  intros H. destruct (prefix CRLF (String x (s ++ CRLF ++ rest))) eqn:P; [|trivial].
  apply prefix_split in P. destruct P as [r P]. unfold CRLF in P at 2.
  cbn [append] in P. injection P as -> P.
  destruct s as [|y s].
  - unfold CRLF in P. cbn [append] in P. discriminate P.
  - cbn [append] in P. injection P as -> _.
    assert (T : prefix CRLF (String "013" (String "010" s)) = true)
      by (apply prefix_split; exists s; reflexivity).
    congruence.
Qed.

(** The first CRLF of [value ++ CRLF ++ rest] when [value] has none. *)
Lemma find0_CRLF_after (value rest : string) :
  find0 value CRLF = None ->
  find0 (value ++ CRLF ++ rest) CRLF = Some (String.length value).
Proof.
  induction value as [|x v IH]; intros H.
  - cbn [append String.length]. apply find0_head, prefix_split.
    exists rest. reflexivity.
  - cbn [find0] in H.
    destruct (prefix CRLF (String x v)) eqn:P; [discriminate|].
    destruct (find0 v CRLF) eqn:F; [discriminate|].
    change ((String x v ++ CRLF ++ rest)%string)
      with (String x (v ++ CRLF ++ rest)).
    cbn [find0]. rewrite (prefix_CRLF_false _ _ _ P), (IH eq_refl).
    reflexivity.
Qed.

Lemma find_at (s needle : string) (pos j : nat) :
  (pos <= String.length s)%nat ->
  find0 (drop pos s) needle = Some j ->
  find s needle pos = Some (pos + j)%nat.
Proof.
  intros L F. unfold find.
  destruct (Nat.leb_spec pos (String.length s)); [|lia].
  now rewrite F.
Qed.

Lemma findHeader_steps (pre name tail : string) :
  find0 (pre ++ name ++ ": " ++ tail) (name ++ ": ") = Some (String.length pre) ->
  find0 name ":" = None ->
  findHeader (pre ++ name ++ ": " ++ tail) name =
  match find0 tail CRLF with
  | None => inr ""
  | Some n => inr (take n tail)
  end.
Proof.
  intros F1 Fn. unfold findHeader.
  rewrite find_from_start, F1.
  assert (L : (String.length pre <= String.length (pre ++ name ++ ": " ++ tail))%nat)
    by (rewrite length_append; lia).
  rewrite (find_at _ ":" _ (String.length name) L).
  2:{ rewrite drop_app_length.
      change (name ++ ": " ++ tail)%string with (name ++ String ":" (" " ++ tail))%string.
      now apply find0_char_after. }
  unfold substr.
  assert (D : drop (String.length pre + String.length name + 2)
                (pre ++ name ++ ": " ++ tail) = tail).
  { rewrite <- drop_drop, <- drop_drop, drop_app_length, drop_app_length.
    reflexivity. }
  destruct (Nat.leb_spec (String.length pre + String.length name + 2)
              (String.length (pre ++ name ++ ": " ++ tail))) as [_|B].
  - rewrite D, find_from_start. destruct (find0 tail CRLF); [|reflexivity].
    unfold substr_n. reflexivity.
  - rewrite !length_append in B. cbn in B. lia.
Qed.

(** X1: a header whose value is followed by CRLF is read back.  The name
    is looked for anywhere in the buffer, not only at the start of a
    line: [pre] is any text in which, with what follows, [name: ] does not
    occur earlier. *)
Theorem findHeader_reads_value (pre name value post : string) :
  find0 (pre ++ name ++ ": " ++ value ++ CRLF ++ post) (name ++ ": ")
    = Some (String.length pre) ->
  find0 name ":" = None ->
  find0 value CRLF = None ->
  findHeader (pre ++ name ++ ": " ++ value ++ CRLF ++ post) name = inr value.
Proof.
  intros F1 Fn Fv.
  rewrite (findHeader_steps pre name (value ++ CRLF ++ post) F1 Fn).
  rewrite (find0_CRLF_after value post Fv), take_app_length. reflexivity.
Qed.

Lemma findHeader_reads_value_witness :
  findHeader (request ["Host: a"; "X-Pass: hunter2"; "X-Split: 1"]) "X-Pass"
  = inr "hunter2".
Proof.
  exact (findHeader_reads_value ("GET / HTTP/1.1" ++ CRLF ++ "Host: a" ++ CRLF)
           "X-Pass" "hunter2" ("X-Split: 1" ++ CRLF ++ CRLF)
           eq_refl eq_refl eq_refl).
Defined.

(** X2: a header value that no CRLF ends is not read at all: the result is
    the empty string, as for an absent header. *)
Theorem findHeader_unterminated_is_empty (pre name value : string) :
  find0 (pre ++ name ++ ": " ++ value) (name ++ ": ") = Some (String.length pre) ->
  find0 name ":" = None ->
  find0 value CRLF = None ->
  findHeader (pre ++ name ++ ": " ++ value) name = inr "".
Proof.
  intros F1 Fn Fv.
  rewrite (findHeader_steps pre name value F1 Fn), Fv. reflexivity.
Qed.

Lemma findHeader_unterminated_is_empty_witness :
  findHeader "X-Real-Host: 203.0.113.9:443" "X-Real-Host" = inr "".
Proof.
  exact (findHeader_unterminated_is_empty "" "X-Real-Host" "203.0.113.9:443"
           eq_refl eq_refl eq_refl).
Defined.

(** X3: [findHeader] never throws: the position it gives to [substr] is
    always inside the buffer, whatever the buffer and the name are. *)
Theorem findHeader_never_throws (head header : string) :
  exists value, findHeader head header = inr value.
Proof. apply findHeader_total. Qed.

(** *** std::stoi on a port, and the split of host:port *)

Lemma digit_not_space c : isdigit c = true -> isspace c = false.
Proof.
  unfold isdigit, isspace. set (n := nat_of_ascii c).
  destruct (Nat.leb_spec 48 n), (Nat.leb_spec n 57); try discriminate.
  intros _.
  destruct (Nat.eqb_spec n 32); [lia|].
  destruct (Nat.leb_spec 9 n), (Nat.leb_spec n 13); try reflexivity. lia.
Qed.

Lemma skip_space_blanks blanks c s :
  all_chars isspace blanks = true -> isspace c = false ->
  skip_space (blanks ++ String c s) = String c s.
Proof.
  intros B C. induction blanks as [|x b IH]; cbn [append skip_space].
  - now rewrite C.
  - cbn [all_chars] in B. apply andb_prop in B. destruct B as [Bx Bb].
    rewrite Bx. now apply IH.
Qed.

Lemma read_digits_app d rest : forall acc,
  all_chars isdigit d = true -> leading_digit rest = false ->
  read_digits (d ++ rest) acc = read_digits d acc.
Proof.
  induction d as [|x d IH]; intros acc D R.
  - cbn [append]. destruct rest as [|y r]; [reflexivity|].
    cbn [leading_digit] in R. cbn [read_digits]. now rewrite R.
  - cbn [all_chars] in D. apply andb_prop in D. destruct D as [Dx Dd].
    cbn [append read_digits]. rewrite Dx, (IH _ Dd R). reflexivity.
Qed.

Lemma sign_of_digit c r :
  isdigit c = true ->
  match String c r with
  | String "-" r' => (true, r')
  | String "+" r' => (false, r')
  | _ => (false, String c r)
  end = (false, String c r).
Proof.
  destruct c as [[] [] [] [] [] [] [] []]; try discriminate; reflexivity.
Qed.

Lemma stoi_lenient (blanks digits rest : string) :
  all_chars isspace blanks = true ->
  all_chars isdigit digits = true ->
  digits <> "" ->
  leading_digit rest = false ->
  stoi (blanks ++ digits ++ rest) = stoi digits.
Proof.
  intros B D N R. destruct digits as [|c d]; [congruence|].
  cbn [all_chars] in D. apply andb_prop in D. destruct D as [Dc Dd].
  pose proof (digit_not_space c Dc) as Sc.
  unfold stoi. cbn [append].
  rewrite (skip_space_blanks blanks c (d ++ rest) B Sc).
  replace (skip_space (String c d)) with (String c d)
    by (cbn [skip_space]; now rewrite Sc).
  rewrite !(sign_of_digit c _ Dc).
  change (String c (d ++ rest)) with (String c d ++ rest)%string.
  rewrite (read_digits_app (String c d) rest 0); [reflexivity | | exact R].
  cbn [all_chars]. now rewrite Dc, Dd.
Qed.

Lemma split_after_colon (host rest : string) :
  find0 host ":" = None ->
  split_hostPort (host ++ ":" ++ rest) =
  match stoi rest with
  | inl ex => inl ex
  | inr port => inr (host, port)
  end.
Proof.
  intros H. unfold split_hostPort.
  rewrite find_from_start.
  change (host ++ ":" ++ rest)%string with (host ++ String ":" rest)%string.
  rewrite (find0_char_after host rest ":" H).
  unfold substr_n, substr. cbn [Nat.leb drop].
  rewrite take_app_length.
  destruct (Nat.leb_spec (String.length host + 1)
              (String.length (host ++ String ":" rest))) as [_|B].
  - rewrite <- drop_drop, drop_app_length. cbn [drop].
    destruct (stoi rest); reflexivity.
  - rewrite length_append in B. cbn in B. lia.
Qed.

(** X4: the port of a target is read leniently: blanks between the colon
    and the digits, and anything after the digits that does not begin
    with a digit, are accepted and ignored, so that the connector is given
    the same host and port as for the bare number. *)
Theorem port_is_read_leniently (host blanks digits rest : string) :
  find0 host ":" = None ->
  all_chars isspace blanks = true ->
  all_chars isdigit digits = true ->
  digits <> "" ->
  leading_digit rest = false ->
  split_hostPort (host ++ ":" ++ blanks ++ digits ++ rest)
  = split_hostPort (host ++ ":" ++ digits).
Proof.
  intros H B D N R.
  rewrite !(split_after_colon host _ H), (stoi_lenient blanks digits rest B D N R).
  reflexivity.
Qed.

Lemma port_is_read_leniently_witness :
  split_hostPort "example.org: 22/tcp" = split_hostPort "example.org:22".
Proof.
  exact (port_is_read_leniently "example.org" " " "22" "/tcp"
           eq_refl eq_refl eq_refl ltac:(discriminate) eq_refl).
Defined.

(** X5: the target is split at its first colon: a target without one keeps
    the whole string as host with port 22; otherwise the host is what is
    before the colon and the port is [stoi] of everything after it, whose
    exception is the result when it throws. *)
Theorem split_hostPort_at_first_colon (host : string) :
  find0 host ":" = None ->
  split_hostPort host = inr (host, 22) /\
  forall rest,
    split_hostPort (host ++ ":" ++ rest) =
    match stoi rest with
    | inl ex => inl ex
    | inr port => inr (host, port)
    end.
Proof.
  intros H. split.
  - unfold split_hostPort. now rewrite find_from_start, H.
  - intros rest. exact (split_after_colon host rest H).
Qed.

Lemma split_hostPort_at_first_colon_witness :
  split_hostPort "example.org:2222" = inr ("example.org", 2222).
Proof.
  exact (proj2 (split_hostPort_at_first_colon "example.org" eq_refl) "2222").
Defined.

(** *** The upstream connector *)

Lemma connectTarget_summary
    (e : env) (hostPort host : string) (port : Z) (h : ConnectionHandler) :
  split_hostPort hostPort = inr (host, port) ->
  let x := connectTarget e hostPort h in
  let fd := retval (e_socket e) in
  (value_of x = inr (negb (connector_fails e)) /\
   count is_freeaddrinfo (trace_of x)
     = (match e_getaddrinfo e with None => 1 | Some _ => 0 end)%nat /\
   count is_send (trace_of x) = 0%nat /\
   (connector_fails e = true ->
    targetClosed (final_of x) = targetClosed h /\
    count (is_close fd) (trace_of x)
      = match e_getaddrinfo e with
        | None => if fd =? -1 then 0%nat else 1%nat
        | Some _ => 0%nat
        end) /\
   (connector_fails e = false ->
    final_of x = set_targetClosed false (set_targetSock fd h) /\
    count (is_close fd) (trace_of x) = 0%nat /\ fd <> -1)) /\
  clientSock (final_of x) = clientSock h /\
  clientClosed (final_of x) = clientClosed h /\
  epollFd (final_of x) = epollFd h /\
  logStr (final_of x) = logStr h /\
  count created (trace_of x)
    = (count (is_close fd) (trace_of x)
       + (if connector_fails e then 0 else 1))%nat /\
  (forall fd', fd' <> fd -> count (is_close fd') (trace_of x) = 0%nat) /\
  (forall fd', count (is_shutdown fd') (trace_of x) = 0%nat).
Proof.
  intros Hsp x fd. subst x fd.
  destruct e as [nbc rcv rsp snd gai sock nbt con epc ctc ctt ws0].
  unfold connector_fails, value_of, trace_of, final_of, count.
  unfold connectTarget, setNonBlocking, asyncLog.
  unfold bind, get, lift, emit, modify, ret. rewrite Hsp.
  cbn [e_getaddrinfo e_socket e_nb_target e_connect].
  assert (N : forall fd', fd' <> retval sock -> (retval sock =? fd') = false)
    by (intros fd' Hn; apply Z.eqb_neq; congruence).
  destruct gai as [errno|].
  { cbn. repeat split; intros; try reflexivity; try discriminate. }
  cbn -[Z.eqb].
  destruct (retval sock =? -1) eqn:E1.
  { cbn -[Z.eqb]. rewrite ?E1. cbn.
    repeat split; intros; try reflexivity; try discriminate. }
  cbn -[Z.eqb].
  destruct (retval (fst nbt) =? -1) eqn:E2.
  { cbn -[Z.eqb]. rewrite Z.eqb_refl, E1.
    repeat split; intros; try reflexivity; try discriminate.
    now rewrite N. }
  cbn -[Z.eqb].
  destruct (retval (Datatypes.snd nbt) =? -1) eqn:E3.
  { cbn -[Z.eqb]. rewrite Z.eqb_refl, E1.
    repeat split; intros; try reflexivity; try discriminate.
    now rewrite N. }
  cbn -[Z.eqb].
  destruct ((retval con =? -1) && negb (sys_errno con =? EINPROGRESS)) eqn:E4.
  { cbn -[Z.eqb]. rewrite Z.eqb_refl, E1.
    repeat split; intros; try reflexivity; try discriminate.
    now rewrite N. }
  cbn -[Z.eqb]. rewrite E1.
  apply Z.eqb_neq in E1.
  repeat split; intros; try reflexivity; try discriminate; auto.
Qed.

(** X6: [connectTarget] returns [true] exactly when no call fails; it
    frees the address list once whenever the resolution succeeded; when
    it fails after creating the socket it closes that socket itself, once,
    and leaves [targetClosed] as it was, so that [close()] will not touch
    the descriptor again; when it succeeds it closes nothing and records
    the socket as open.  It never sends anything. *)
Theorem connectTarget_releases_what_it_took
    (e : env) (hostPort host : string) (port : Z) (h : ConnectionHandler) :
  split_hostPort hostPort = inr (host, port) ->
  let x := connectTarget e hostPort h in
  let fd := retval (e_socket e) in
  value_of x = inr (negb (connector_fails e)) /\
  count is_freeaddrinfo (trace_of x)
    = (match e_getaddrinfo e with None => 1 | Some _ => 0 end)%nat /\
  count is_send (trace_of x) = 0%nat /\
  (connector_fails e = true ->
   targetClosed (final_of x) = targetClosed h /\
   count (is_close fd) (trace_of x)
     = match e_getaddrinfo e with
       | None => if fd =? -1 then 0%nat else 1%nat
       | Some _ => 0%nat
       end) /\
  (connector_fails e = false ->
   final_of x = set_targetClosed false (set_targetSock fd h) /\
   count (is_close fd) (trace_of x) = 0%nat /\ fd <> -1).
Proof.
  intros Hsp. exact (proj1 (connectTarget_summary e hostPort host port h Hsp)).
Qed.

Lemma connectTarget_releases_what_it_took_witness :
  count (is_close 7)
    (trace_of (connectTarget (refusing "") "0.0.0.0:22" tunnelling)) = 1%nat.
Proof.
  exact (proj2 (proj1 (proj2 (proj2 (proj2
           (connectTarget_releases_what_it_took (refusing "") "0.0.0.0:22"
              "0.0.0.0" 22 tunnelling eq_refl)))) eq_refl)).
Defined.

(** *** The outcomes of the tunnel *)

Lemma tunnel_connector_fails e hostPort host port h :
  split_hostPort hostPort = inr (host, port) ->
  connector_fails e = true ->
  tunnel e hostPort h =
  (inr Returned, final_of (connectTarget e hostPort h),
   (trace_of (connectTarget e hostPort h)
      ++ [Send (clientSock h) BAD_GATEWAY 0 (e_send e)])%list).
Proof.
  intros Hsp Hf.
  destruct (connectTarget_summary e hostPort host port h Hsp) as ((V & _) & _).
  rewrite Hf in V. unfold tunnel. rewrite bind_run. cbn [get].
  rewrite prepend_nil, bind_run.
  destruct (connectTarget e hostPort h) as [[r hc] tc].
  cbn in V. subst r. reflexivity.
Qed.

Lemma tunnel_connected e hostPort host port h :
  split_hostPort hostPort = inr (host, port) ->
  connector_fails e = false ->
  let fd := retval (e_socket e) in
  let ep := retval (e_epoll_create e) in
  let h1 := set_epollFd ep (set_targetClosed false (set_targetSock fd h)) in
  tunnel e hostPort h =
  prepend
    (trace_of (connectTarget e hostPort h)
       ++ [Setsockopt (clientSock h) TCP_NODELAY 1;
           Send (clientSock h) RESPONSE 0 (e_send e);
           AsyncLog (logStr h ++ " - CONNECT " ++ hostPort) None;
           EpollCreate (e_epoll_create e)])
    (if ep =? -1
     then (inr Returned, h1,
           [AsyncLog (logStr h ++ " - Erro epoll_create: ")
              (Some (sys_errno (e_epoll_create e)))])
     else
       prepend [EpollCtlAdd ep (clientSock h) (Z.lor EPOLLIN EPOLLET)
                  (e_ctl_client e)]
         (if retval (e_ctl_client e) =? -1
          then (inr Returned, h1,
                [AsyncLog (logStr h ++ " - Erro epoll_ctl client: ")
                   (Some (sys_errno (e_ctl_client e)))])
          else
            prepend [EpollCtlAdd ep fd (Z.lor EPOLLIN EPOLLET) (e_ctl_target e)]
              (if retval (e_ctl_target e) =? -1
               then (inr Returned, h1,
                     [AsyncLog (logStr h ++ " - Erro epoll_ctl target: ")
                        (Some (sys_errno (e_ctl_target e)))])
               else relay (e_waits e) 0 h1))).
Proof.
  intros Hsp Hf fd ep h1.
  destruct (connectTarget_summary e hostPort host port h Hsp)
    as ((V & _ & _ & _ & S) & _).
  rewrite Hf in V. destruct (S Hf) as (F & _ & _). clear S.
  unfold tunnel. rewrite bind_run. cbn [get]. rewrite prepend_nil, bind_run.
  destruct (connectTarget e hostPort h) as [[r hc] tc].
  cbn in V, F. subst r hc. cbn [negb trace_of snd].
  unfold asyncLog, bind, get, emit, modify, ret.
  cbn -[Z.eqb relay Z.lor]. fold fd ep h1.
  destruct (ep =? -1).
  { cbn. rewrite <- !List.app_assoc. reflexivity. }
  cbn -[Z.eqb relay Z.lor].
  destruct (retval (e_ctl_client e) =? -1).
  { cbn. rewrite <- !List.app_assoc. reflexivity. }
  cbn -[Z.eqb relay Z.lor].
  destruct (retval (e_ctl_target e) =? -1).
  { cbn. rewrite <- !List.app_assoc. reflexivity. }
  destruct (relay (e_waits e) 0 h1) as [[r2 h2] t2].
  cbn. rewrite <- !List.app_assoc. reflexivity.
Qed.

(** *** Counting calls *)

Lemma count_app p (t1 t2 : list event) :
  count p (t1 ++ t2) = (count p t1 + count p t2)%nat.
Proof. unfold count. now rewrite filter_app, length_app. Qed.

Lemma count_quiet p (t : list event) :
  forallb relay_event t = true ->
  (forall ev, relay_event ev = true -> p ev = false) ->
  count p t = 0%nat.
Proof.
  intros Q P. unfold count. induction t as [|ev t IH]; [reflexivity|].
  cbn [forallb] in Q. apply andb_prop in Q. destruct Q as [Q1 Q2].
  cbn [filter]. rewrite (P ev Q1). now apply IH.
Qed.

Lemma pump_quiet src dst label r h :
  forallb relay_event (trace_of (pump src dst label r h)) = true.
Proof.
  unfold pump, bind, emit, asyncLog, bind, get, emit, ret, trace_of.
  destruct (io_len (r_splice r) <=? 0); [|reflexivity].
  destruct (negb (io_errno (r_splice r) =? EAGAIN)
            && negb (io_errno (r_splice r) =? EWOULDBLOCK)); [reflexivity|].
  cbn. destruct (io_len (r_recv r) <=? 0); [reflexivity|].
  cbn. destruct (retval (r_send r) <=? 0); reflexivity.
Qed.

Lemma for_events_quiet evs h :
  forallb relay_event (trace_of (for_events evs h)) = true.
Proof.
  induction evs as [|r evs IH]; [reflexivity|].
  cbn [for_events]. rewrite bind_run. cbn [get]. rewrite prepend_nil.
  destruct (negb (Z.land (r_events r) (Z.lor EPOLLERR EPOLLHUP) =? 0));
    [reflexivity|].
  destruct (r_fd r =? clientSock h).
  - rewrite bind_run.
    pose proof (pump_quiet (clientSock h) (targetSock h)
                  " - Erro splice client->target: " r h) as P.
    destruct (pump_state (clientSock h) (targetSock h)
                " - Erro splice client->target: " r h) as (b & t & E).
    rewrite E in *. unfold trace_of in P. cbn [snd] in P.
    rewrite trace_prepend, forallb_app, P.
    destruct b; [reflexivity | exact IH].
  - destruct (r_fd r =? targetSock h); [|exact IH].
    rewrite bind_run.
    pose proof (pump_quiet (targetSock h) (clientSock h)
                  " - Erro splice target->client: " r h) as P.
    destruct (pump_state (targetSock h) (clientSock h)
                " - Erro splice target->client: " r h) as (b & t & E).
    rewrite E in *. unfold trace_of in P. cbn [snd] in P.
    rewrite trace_prepend, forallb_app, P.
    destruct b; [reflexivity | exact IH].
Qed.

(** The relay loop makes no other calls than its waits, splices, receives
    and sends. *)
Lemma relay_quiet ws : forall c h,
  forallb relay_event (trace_of (relay ws c h)) = true.
Proof.
  induction ws as [|w ws IH]; intros c h; [reflexivity|].
  rewrite relay_cons, trace_prepend. cbn [app forallb relay_event andb].
  destruct w as [errno|[|r evs]].
  - destruct (errno =? EINTR); [apply IH | reflexivity].
  - destruct (c + 1 >=? TIMEOUT); [reflexivity | apply IH].
  - rewrite trace_prepend, forallb_app, for_events_quiet. apply IH.
Qed.

Lemma relay_counts ws c h :
  (forall fd, count (is_close fd) (trace_of (relay ws c h)) = 0%nat) /\
  (forall fd, count (is_shutdown fd) (trace_of (relay ws c h)) = 0%nat) /\
  count created (trace_of (relay ws c h)) = 0%nat.
Proof.
  pose proof (relay_quiet ws c h) as Q.
  repeat split; intros; apply (count_quiet _ _ Q); intros [] E;
    try reflexivity; discriminate.
Qed.

(** *** Whole connections *)

Lemma sends_to_app fd (t1 t2 : list event) :
  sends_to fd (t1 ++ t2) = (sends_to fd t1 ++ sends_to fd t2)%list.
Proof.
  induction t1 as [|ev t1 IH]; [reflexivity|].
  destruct ev; cbn [app sends_to]; try exact IH.
  destruct (fd0 =? fd); [cbn [app]; now rewrite IH | exact IH].
Qed.

Lemma no_send_sends_to fd (t : list event) :
  count is_send t = 0%nat -> sends_to fd t = [].
Proof.
  unfold count. induction t as [|ev t IH]; [reflexivity|].
  destruct ev; cbn [filter is_send sends_to List.length]; try exact IH.
  discriminate.
Qed.

Lemma split_recv_counts e sock split :
  sends_to sock (split_recv e sock split) = [] /\
  (forall fd, count (is_close fd) (split_recv e sock split) = 0%nat) /\
  (forall fd, count (is_shutdown fd) (split_recv e sock split) = 0%nat) /\
  count created (split_recv e sock split) = 0%nat /\
  count is_send (split_recv e sock split) = 0%nat.
Proof. unfold split_recv. destruct (negb (empty split)); repeat split. Qed.

(** X7: when the first segment cannot be had (the client socket cannot be
    made non-blocking, or the first [recv] returns 0 or fails) the
    connection ends without any reply: nothing is sent, and the client
    socket is shut down and closed once. *)
Theorem no_first_segment_no_reply
    (g : Globals) (e : env) (sock : Z) (addr : string) :
  sock <> -1 ->
  no_first_segment e = true ->
  let r := run g e sock addr in
  value_of r = inr Returned /\
  count is_send (trace_of r) = 0%nat /\
  count (is_close sock) (trace_of r) = 1%nat /\
  count (is_shutdown sock) (trace_of r) = 1%nat /\
  final_of r = set_clientClosed true (new_handler sock addr).
Proof.
  intros Hs Hn r. unfold no_first_segment in Hn.
  assert (H : exists t, handle g e (new_handler sock addr)
                        = (inr Returned, new_handler sock addr, t)
                        /\ count is_send t = 0%nat
                        /\ count (is_close sock) t = 0%nat
                        /\ count (is_shutdown sock) t = 0%nat).
  { rewrite handle_unfold.
    destruct (retval (fst (e_nb_client e)) =? -1); [eexists; repeat split|].
    destruct (retval (snd (e_nb_client e)) =? -1); [eexists; repeat split|].
    cbn [orb] in Hn. rewrite Hn. eexists; repeat split. }
  destruct H as (t & H & C1 & C2 & C3).
  unfold r. rewrite (serve_unconnected g e sock addr t Hs H).
  unfold value_of, trace_of, final_of. cbn [fst snd].
  rewrite !count_app, C1, C2, C3. unfold count. cbn [filter is_send is_close is_shutdown].
  rewrite Z.eqb_refl. repeat split.
Qed.

Lemma no_first_segment_no_reply_witness :
  count is_send
    (trace_of (run shipped
       {| e_nb_client := (Ok 2, Ok 0); e_recv := Eof 0;
          e_recv_split := Failed 11; e_send := Ok 0;
          e_getaddrinfo := None; e_socket := Ok 7;
          e_nb_target := (Ok 2, Ok 0); e_connect := Ok 0;
          e_epoll_create := Ok 8; e_ctl_client := Ok 0; e_ctl_target := Ok 0;
          e_waits := [] |} 5 "198.51.100.7:4242")) = 0%nat.
Proof.
  exact (proj1 (proj2 (no_first_segment_no_reply shipped
           {| e_nb_client := (Ok 2, Ok 0); e_recv := Eof 0;
              e_recv_split := Failed 11; e_send := Ok 0;
              e_getaddrinfo := None; e_socket := Ok 7;
              e_nb_target := (Ok 2, Ok 0); e_connect := Ok 0;
              e_epoll_create := Ok 8; e_ctl_client := Ok 0; e_ctl_target := Ok 0;
              e_waits := [] |} 5 "198.51.100.7:4242"
           ltac:(discriminate) eq_refl))).
Defined.

(** X8: when an allowed request's target splits into host and port and a
    call of the connector fails, the client is sent the 502 line and
    nothing else, and the connection is closed; the upstream socket, if
    one was made, has been closed by the connector and is not touched by
    the teardown. *)
Theorem connector_failure_is_answered_502
    (g : Globals) (e : env) (sock : Z) (addr : string)
    (clientBuffer found split passwd host : string) (port : Z) :
  sock <> -1 ->
  first_segment e clientBuffer ->
  findHeader clientBuffer "X-Real-Host" = inr found ->
  findHeader clientBuffer "X-Split" = inr split ->
  findHeader clientBuffer "X-Pass" = inr passwd ->
  let hostPort := if empty found then DEFAULT_HOST else found in
  authorize g passwd hostPort = true ->
  split_hostPort hostPort = inr (host, port) ->
  connector_fails e = true ->
  let r := run g e sock addr in
  value_of r = inr Returned /\
  sends_to sock (trace_of r) = [BAD_GATEWAY] /\
  clientClosed (final_of r) = true /\
  targetClosed (final_of r) = true /\
  exists pre,
    trace_of r = (pre ++ [Send sock BAD_GATEWAY 0 (e_send e);
                          Shutdown sock; Close sock])%list.
Proof.
  intros Hs Hseg Hf Hsp Hp hostPort Ha Hsplit Hfail r.
  set (h := new_handler sock addr).
  set (c := connectTarget e hostPort h).
  destruct (connectTarget_summary e hostPort host port h Hsplit)
    as ((_ & _ & Csend & Cfail & _) & F1 & F2 & F3 & _).
  fold c in Csend, Cfail, F1, F2, F3.
  destruct (Cfail Hfail) as [F4 _].
  assert (H : handle g e h =
              (inr Returned, final_of c,
               (prologue e sock ++ split_recv e sock split ++ trace_of c
                  ++ [Send sock BAD_GATEWAY 0 (e_send e)])%list)).
  { rewrite (handle_first_segment g e clientBuffer _ Hseg).
    rewrite (negotiate_decided g e clientBuffer _ _ _ _ Hf Hsp Hp). cbv zeta.
    fold hostPort. rewrite Ha.
    rewrite (tunnel_connector_fails e hostPort host port h Hsplit Hfail).
    fold c. cbn [prepend caught]. rewrite <- ?List.app_assoc. reflexivity. }
  assert (R : r = (inr Returned, set_clientClosed true (final_of c),
               ((prologue e sock ++ split_recv e sock split ++ trace_of c
                   ++ [Send sock BAD_GATEWAY 0 (e_send e)])
                  ++ [Shutdown sock; Close sock])%list)).
  { unfold r, run. fold h. rewrite (serve_returned _ _ _ _ _ H).
    rewrite destructor_unfold, close_unfold. unfold final_of at 1 2, trace_of at 1 2.
    cbn [fst snd]. rewrite F2, F1, F3, F4.
    apply Z.eqb_neq in Hs. cbn [h new_handler clientClosed clientSock targetClosed epollFd].
    rewrite Hs. reflexivity. }
  rewrite R. unfold value_of, trace_of at 1 2, final_of at 1 2. cbn [fst snd].
  destruct (split_recv_counts e sock split) as (S1 & _).
  repeat split.
  - rewrite !sends_to_app, S1, (no_send_sends_to sock _ Csend).
    cbn. now rewrite Z.eqb_refl.
  - cbn. exact F4.
  - exists (prologue e sock ++ split_recv e sock split ++ trace_of c)%list.
    rewrite <- ?List.app_assoc. reflexivity.
Qed.

Lemma connector_failure_is_answered_502_witness :
  sends_to 5 (trace_of (run shipped (refusing (request [])) 5 "198.51.100.7:4242"))
  = [BAD_GATEWAY].
Proof.
  refine (proj1 (proj2 (connector_failure_is_answered_502 shipped
            (refusing (request [])) 5 "198.51.100.7:4242" (request [])
            "" "" "" "0.0.0.0" 22 _ _ eq_refl eq_refl eq_refl eq_refl eq_refl
            eq_refl))).
  - discriminate.
  - repeat split; discriminate.
Defined.

Lemma trace_of_triple {A} (r : result A) h (t : list event) :
  trace_of (r, h, t) = t.
Proof. reflexivity. Qed.

Lemma triple_inv {A} (r r' : result A) (h h' : ConnectionHandler)
    (t t' : list event) :
  (r, h, t) = (r', h', t') -> r = r' /\ h = h' /\ t = t'.
Proof. intros H. injection H. auto. Qed.

Lemma final_of_triple {A} (r : result A) h (t : list event) :
  final_of (r, h, t) = h.
Proof. reflexivity. Qed.

(** [handle] never lets an exception out; a connection that has ended
    is one whose [handle] has returned. *)
Lemma serve_value g e h :
  value_of (serve g e h) = inr Returned ->
  exists hf t, handle g e h = (inr Returned, hf, t).
Proof.
  unfold serve. rewrite bind_run.
  destruct (handle g e h) as [[[ex|[|c]] hf] t] eqn:E.
  - exfalso. rewrite handle_unfold in E.
    destruct (retval (fst (e_nb_client e)) =? -1); [discriminate|].
    destruct (retval (snd (e_nb_client e)) =? -1); [discriminate|].
    destruct (io_len (e_recv e) <=? 0); [discriminate|].
    destruct (negotiate g e (io_data (e_recv e)) h) as [[[ex'|st] h1] t1];
      discriminate.
  - eauto.
  - rewrite value_prepend. cbn. discriminate.
Qed.

Lemma prologue_counts e sock :
  (forall fd, count (is_close fd) (prologue e sock) = 0%nat) /\
  (forall fd, count (is_shutdown fd) (prologue e sock) = 0%nat) /\
  count created (prologue e sock) = 0%nat.
Proof. repeat split. Qed.

(** The teardown of a handler whose upstream socket is not open. *)
Lemma teardown_unconnected hf sock fd :
  clientClosed hf = false -> clientSock hf = sock -> sock <> -1 ->
  targetClosed hf = true -> epollFd hf = -1 -> fd <> sock ->
  let d := destructor hf in
  count (is_close sock) (trace_of d) = 1%nat /\
  count (is_shutdown sock) (trace_of d) = 1%nat /\
  count (is_close fd) (trace_of d) = 0%nat /\
  clientClosed (final_of d) = true /\ targetClosed (final_of d) = true.
Proof.
  intros H1 H2 Hs H3 H4 Hfd d. subst d.
  rewrite destructor_unfold, close_unfold. unfold final_of, trace_of, count.
  cbn [fst snd]. rewrite H1, H2, H3, H4.
  apply Z.eqb_neq in Hs. rewrite Hs.
  cbn -[Z.eqb]. rewrite Z.eqb_refl.
  assert (E : (sock =? fd) = false) by (apply Z.eqb_neq; congruence).
  rewrite E. cbn. rewrite H3. repeat split.
Qed.

(** The teardown of a handler that has its upstream socket. *)
Lemma teardown_connected hf sock fd ep :
  clientClosed hf = false -> clientSock hf = sock -> sock <> -1 ->
  targetClosed hf = false -> targetSock hf = fd -> fd <> -1 ->
  epollFd hf = ep -> fd <> sock -> ep <> sock -> ep = -1 \/ ep <> fd ->
  let d := destructor hf in
  count (is_close sock) (trace_of d) = 1%nat /\
  count (is_shutdown sock) (trace_of d) = 1%nat /\
  count (is_close fd) (trace_of d) = 1%nat /\
  clientClosed (final_of d) = true /\ targetClosed (final_of d) = true.
Proof.
  intros H1 H2 Hs H3 H4 Hfd H5 N1 N2 N3 d. subst d.
  rewrite destructor_unfold, close_unfold. unfold final_of, trace_of, count.
  cbn [fst snd]. rewrite H1, H2, H3, H4, H5.
  apply Z.eqb_neq in Hs, Hfd. rewrite Hs, Hfd.
  assert (E1 : (sock =? fd) = false) by (apply Z.eqb_neq; congruence).
  assert (E2 : (fd =? sock) = false) by (apply Z.eqb_neq; congruence).
  assert (E3 : (ep =? sock) = false) by (apply Z.eqb_neq; congruence).
  destruct (ep =? -1) eqn:E4; cbn -[Z.eqb];
    rewrite ?Z.eqb_refl, ?E1, ?E2, ?E3; cbn -[Z.eqb].
  - repeat split.
  - assert (E5 : (ep =? fd) = false).
    { apply Z.eqb_neq. destruct N3 as [N3|N3]; [|exact N3].
      apply Z.eqb_neq in E4. contradiction. }
    rewrite ?E5. repeat split.
Qed.

(** X9: on every connection that has ended, the client socket is shut
    down once and closed once, and the upstream socket is closed as many
    times as one was created (once or never), whatever path the handler
    took: rejection, exception, connector failure, epoll failure, timeout
    of the relay.  The descriptors the kernel hands out are distinct. *)
Theorem every_socket_is_closed_once
    (g : Globals) (e : env) (sock : Z) (addr : string) :
  let fd := retval (e_socket e) in
  let ep := retval (e_epoll_create e) in
  sock <> -1 -> fd <> sock -> ep <> sock -> ep = -1 \/ ep <> fd ->
  value_of (run g e sock addr) = inr Returned ->
  let r := run g e sock addr in
  count (is_close sock) (trace_of r) = 1%nat /\
  count (is_shutdown sock) (trace_of r) = 1%nat /\
  count (is_close fd) (trace_of r) = count created (trace_of r) /\
  clientClosed (final_of r) = true /\
  targetClosed (final_of r) = true.
Proof.
  intros fd ep Hs N1 N2 N3 Hv r.
  set (h := new_handler sock addr).
  destruct (serve_value g e h Hv) as (hf & t & H).
  (* what is needed of [handle] *)
  assert (K :
    count (is_close sock) t = 0%nat -> count (is_shutdown sock) t = 0%nat ->
    (clientClosed hf = false /\ clientSock hf = sock) ->
    ((targetClosed hf = true /\ epollFd hf = -1
      /\ count (is_close fd) t = count created t)
     \/ (targetClosed hf = false /\ targetSock hf = fd /\ fd <> -1
         /\ epollFd hf = ep
         /\ count (is_close fd) t = 0%nat /\ count created t = 1%nat)) ->
    count (is_close sock) (trace_of r) = 1%nat /\
    count (is_shutdown sock) (trace_of r) = 1%nat /\
    count (is_close fd) (trace_of r) = count created (trace_of r) /\
    clientClosed (final_of r) = true /\ targetClosed (final_of r) = true).
  { intros C1 C2 [A1 A2] B.
    assert (Dc : count created (trace_of (destructor hf)) = 0%nat).
    { rewrite destructor_unfold, close_unfold. unfold trace_of, count. cbn [snd].
      destruct (negb (clientClosed hf) && negb (clientSock hf =? -1)),
        (negb (targetClosed hf) && negb (targetSock hf =? -1)),
        (negb (epollFd hf =? -1)); reflexivity. }
    unfold r, run. fold h. rewrite (serve_returned _ _ _ _ _ H).
    rewrite !trace_of_triple, !final_of_triple.
    rewrite !count_app, C1, C2, Dc.
    destruct B as [(B1 & B2 & B3)|(B1 & B2 & B3 & B4 & B5 & B6)].
    - destruct (teardown_unconnected hf sock fd A1 A2 Hs B1 B2 N1)
        as (T1 & T2 & T3 & T4 & T5).
      cbv zeta in T1, T2, T3, T4, T5. rewrite T1, T2, T3, B3.
      repeat split; auto; lia.
    - destruct (teardown_connected hf sock fd ep A1 A2 Hs B1 B2 B3 B4 N1 N2 N3)
        as (T1 & T2 & T3 & T4 & T5).
      cbv zeta in T1, T2, T3, T4, T5. rewrite T1, T2, T3, B5, B6.
      repeat split; auto. }
  (* the paths of [handle] *)
  destruct (prologue_counts e sock) as (P1 & P2 & P3).
  clear Hv. rewrite handle_unfold in H.
  destruct (retval (fst (e_nb_client e)) =? -1).
  { apply triple_inv in H; destruct H as (_ & <- & <-). apply K; [reflexivity | reflexivity | split; reflexivity |].
    left. repeat split. }
  destruct (retval (snd (e_nb_client e)) =? -1).
  { apply triple_inv in H; destruct H as (_ & <- & <-). apply K; [reflexivity | reflexivity | split; reflexivity |].
    left. repeat split. }
  destruct (io_len (e_recv e) <=? 0).
  { apply triple_inv in H; destruct H as (_ & <- & <-). apply K; [ | | split; reflexivity |].
    - rewrite count_app, P1. reflexivity.
    - rewrite count_app, P2. reflexivity.
    - left. repeat split. all: (rewrite !count_app, P1, P3; reflexivity). }
  destruct (findHeader_total (io_data (e_recv e)) "X-Real-Host") as [found Hf].
  destruct (findHeader_total (io_data (e_recv e)) "X-Split") as [split Hsp].
  destruct (findHeader_total (io_data (e_recv e)) "X-Pass") as [passwd Hp].
  rewrite (negotiate_decided g e _ h _ _ _ Hf Hsp Hp) in H. cbv zeta in H.
  change (clientSock h) with sock in H.
  destruct (split_recv_counts e sock split) as (_ & S1 & S2 & S3 & _).
  set (hostPort := if empty found then DEFAULT_HOST else found) in *.
  destruct (authorize g passwd hostPort).
  2:{ cbn [prepend caught] in H. apply triple_inv in H; destruct H as (_ & <- & <-).
      apply K; [ | | split; reflexivity |].
      - rewrite !count_app, P1, S1. reflexivity.
      - rewrite !count_app, P2, S2. reflexivity.
      - left. repeat split. all: (rewrite !count_app, P1, P3, S1, S3; reflexivity). }
  destruct (split_hostPort hostPort) as [ex|[host port]] eqn:Hsplit.
  { rewrite (tunnel_throws e hostPort h ex Hsplit) in H.
    cbn [prepend caught] in H. apply triple_inv in H; destruct H as (_ & <- & <-).
    apply K; [ | | split; reflexivity |].
    - rewrite !count_app, P1, S1. reflexivity.
    - rewrite !count_app, P2, S2. reflexivity.
    - left. repeat split. all: (rewrite !count_app, P1, P3, S1, S3; reflexivity). }
  destruct (connectTarget_summary e hostPort host port h Hsplit)
    as ((_ & _ & _ & Cfail & Cok) & F1 & F2 & F3 & _ & Ccr & Cother & Cshut).
  fold fd in Cfail, Cok, Ccr, Cother.
  set (c := connectTarget e hostPort h) in *.
  destruct (connector_fails e) eqn:Hfail.
  { rewrite (tunnel_connector_fails e hostPort host port h Hsplit Hfail) in H.
    fold c in H. destruct (Cfail eq_refl) as [F4 F5].
    cbn [prepend caught] in H. apply triple_inv in H; destruct H as (_ & <- & <-).
    apply K; [ | | split; [rewrite F2 | rewrite F1]; reflexivity |].
    - rewrite !count_app, P1, S1, (Cother sock ltac:(congruence)). reflexivity.
    - rewrite !count_app, P2, S2, Cshut. reflexivity.
    - left. split; [exact F4|]. split; [now rewrite F3|].
      rewrite !count_app, P1, P3, S1, S3, Ccr. cbn. lia. }
  destruct (Cok eq_refl) as (Ffin & Cclose & Hfd).
  pose proof (tunnel_connected e hostPort host port h Hsplit Hfail) as T.
  cbv zeta in T. fold fd ep c in T.
  set (h1 := set_epollFd ep (set_targetClosed false (set_targetSock fd h))) in *.
  set (setup := (trace_of c
                   ++ [Setsockopt (clientSock h) TCP_NODELAY 1;
                       Send (clientSock h) RESPONSE 0 (e_send e);
                       AsyncLog (logStr h ++ " - CONNECT " ++ hostPort) None;
                       EpollCreate (e_epoll_create e)])%list) in *.
  assert (Q1 : count (is_close sock) setup = 0%nat)
    by (unfold setup; rewrite count_app, (Cother sock ltac:(congruence));
        reflexivity).
  assert (Q2 : count (is_shutdown sock) setup = 0%nat)
    by (unfold setup; rewrite count_app, Cshut; reflexivity).
  assert (Q3 : count (is_close fd) setup = 0%nat)
    by (unfold setup; rewrite count_app, Cclose; reflexivity).
  assert (Q4 : count created setup = 1%nat)
    by (unfold setup; rewrite count_app, Ccr, Cclose; reflexivity).
  assert (Fin : forall t',
            count (is_close sock) t' = 0%nat ->
            count (is_shutdown sock) t' = 0%nat ->
            count (is_close fd) t' = 0%nat -> count created t' = 0%nat ->
            hf = h1 ->
            t = (prologue e sock ++ split_recv e sock split ++ setup ++ t')%list ->
            count (is_close sock) (trace_of r) = 1%nat /\
            count (is_shutdown sock) (trace_of r) = 1%nat /\
            count (is_close fd) (trace_of r) = count created (trace_of r) /\
            clientClosed (final_of r) = true /\ targetClosed (final_of r) = true).
  { intros t' T1 T2 T3 T4 -> ->.
    apply K; [ | | split; reflexivity |].
    - rewrite !count_app, P1, S1, Q1, T1. reflexivity.
    - rewrite !count_app, P2, S2, Q2, T2. reflexivity.
    - right. repeat split; auto.
      + rewrite !count_app, P1, S1, Q3, T3. reflexivity.
      + rewrite !count_app, P3, S3, Q4, T4. reflexivity. }
  rewrite T in H. clear T.
  destruct (ep =? -1).
  { cbn [prepend caught] in H. apply triple_inv in H; destruct H as (_ & <- & <-).
    eapply Fin; [| | | | reflexivity |rewrite <- ?List.app_assoc; reflexivity];
      reflexivity. }
  destruct (retval (e_ctl_client e) =? -1).
  { cbn [prepend caught] in H. apply triple_inv in H; destruct H as (_ & <- & <-).
    eapply Fin; [| | | | reflexivity |rewrite <- ?List.app_assoc; reflexivity];
      reflexivity. }
  destruct (retval (e_ctl_target e) =? -1).
  { cbn [prepend caught] in H. apply triple_inv in H; destruct H as (_ & <- & <-).
    eapply Fin; [| | | | reflexivity |rewrite <- ?List.app_assoc; reflexivity];
      reflexivity. }
  destruct (relay_state (e_waits e) 0 h1) as (st & t1 & R).
  destruct (relay_counts (e_waits e) 0 h1) as (R1 & R2 & R3).
  rewrite R in *. rewrite trace_of_triple in R1, R2, R3.
  cbn [prepend caught] in H. apply triple_inv in H; destruct H as (Hst & <- & <-).
  eapply (Fin ([EpollCtlAdd ep (clientSock h) (Z.lor EPOLLIN EPOLLET) (e_ctl_client e);
                EpollCtlAdd ep fd (Z.lor EPOLLIN EPOLLET) (e_ctl_target e)] ++ t1)%list).
  - rewrite count_app, R1. reflexivity.
  - rewrite count_app, R2. reflexivity.
  - rewrite count_app, R1. reflexivity.
  - rewrite count_app, R3. reflexivity.
  - reflexivity.
  - rewrite <- ?List.app_assoc. reflexivity.
Qed.

Lemma every_socket_is_closed_once_witness :
  count (is_close 5)
    (trace_of (run shipped (calm (request []) [WaitFailed 9]) 5
                 "198.51.100.7:4242")) = 1%nat.
Proof.
  refine (proj1 (every_socket_is_closed_once shipped
                   (calm (request []) [WaitFailed 9]) 5 "198.51.100.7:4242"
                   _ _ _ (or_intror _) _));
    vm_compute; first [discriminate | reflexivity].
Defined.

Lemma connectTarget_moves_nothing e hostPort h :
  count moves_bytes (trace_of (connectTarget e hostPort h)) = 0%nat.
Proof.
  destruct e as [nbc rcv rsp snd gai sock nbt con epc ctc ctt ws0].
  unfold trace_of, count, connectTarget, setNonBlocking, asyncLog.
  unfold bind, get, lift, emit, modify, ret.
  cbn [e_getaddrinfo e_socket e_nb_target e_connect].
  destruct (split_hostPort hostPort) as [ex|[host port]]; [reflexivity|].
  destruct gai as [errno|]; [reflexivity|].
  cbn -[Z.eqb].
  destruct (retval sock =? -1); [reflexivity|].
  cbn -[Z.eqb].
  destruct (retval (fst nbt) =? -1); [reflexivity|].
  cbn -[Z.eqb].
  destruct (retval (Datatypes.snd nbt) =? -1); [reflexivity|].
  cbn -[Z.eqb].
  destruct ((retval con =? -1) && negb (sys_errno con =? EINPROGRESS));
    reflexivity.
Qed.

(** X10: when an allowed request's connector succeeds, the 200 line is the
    first thing that moves any byte towards a peer: no [send] and no
    [splice] is made before it, on either socket. *)
Theorem accepted_request_is_answered_200_first
    (g : Globals) (e : env) (sock : Z) (addr : string)
    (clientBuffer found split passwd host : string) (port : Z) :
  first_segment e clientBuffer ->
  findHeader clientBuffer "X-Real-Host" = inr found ->
  findHeader clientBuffer "X-Split" = inr split ->
  findHeader clientBuffer "X-Pass" = inr passwd ->
  let hostPort := if empty found then DEFAULT_HOST else found in
  authorize g passwd hostPort = true ->
  split_hostPort hostPort = inr (host, port) ->
  connector_fails e = false ->
  exists pre rest,
    trace_of (run g e sock addr)
      = (pre ++ Send sock RESPONSE 0 (e_send e) :: rest)%list /\
    count moves_bytes pre = 0%nat.
Proof.
  intros Hseg Hf Hsp Hp hostPort Ha Hsplit Hok.
  set (h := new_handler sock addr).
  pose proof (tunnel_connected e hostPort host port h Hsplit Hok) as T.
  cbv zeta in T.
  match type of T with
  | _ = prepend _ ?k => destruct k as [[r2 h2] t2]
  end.
  unfold run. fold h. destruct (serve_trace g e h) as [more ->].
  rewrite (handle_first_segment g e clientBuffer _ Hseg).
  rewrite (negotiate_decided g e clientBuffer _ _ _ _ Hf Hsp Hp). cbv zeta.
  fold hostPort. rewrite Ha, T. cbn [prepend].
  change (clientSock h) with sock.
  exists (prologue e sock ++ split_recv e sock split
            ++ trace_of (connectTarget e hostPort h)
            ++ [Setsockopt sock TCP_NODELAY 1])%list.
  assert (C : count moves_bytes
                (prologue e sock ++ split_recv e sock split
                   ++ trace_of (connectTarget e hostPort h)
                   ++ [Setsockopt sock TCP_NODELAY 1]) = 0%nat).
  { rewrite !count_app, connectTarget_moves_nothing.
    unfold split_recv. destruct (negb (empty split)); reflexivity. }
  destruct r2 as [ex|st].
  - exists ([AsyncLog (logStr h ++ " - CONNECT " ++ hostPort) None;
             EpollCreate (e_epoll_create e)] ++ t2
            ++ [AsyncLog (logStr h2 ++ " - Excecao: " ++ what ex) None] ++ more)%list.
    split; [|exact C].
    cbn [caught trace_of snd].
    rewrite <- !List.app_assoc. cbn [app]. rewrite <- ?List.app_assoc.
    reflexivity.
  - exists ([AsyncLog (logStr h ++ " - CONNECT " ++ hostPort) None;
             EpollCreate (e_epoll_create e)] ++ t2 ++ more)%list.
    split; [|exact C].
    cbn [caught trace_of snd].
    rewrite <- !List.app_assoc. cbn [app]. rewrite <- ?List.app_assoc.
    reflexivity.
Qed.

Lemma accepted_request_is_answered_200_first_witness :
  exists pre rest,
    trace_of (run shipped (calm (request []) []) 5 "198.51.100.7:4242")
      = (pre ++ Send 5 RESPONSE 0 (Ok 0) :: rest)%list /\
    count moves_bytes pre = 0%nat.
Proof.
  refine (accepted_request_is_answered_200_first shipped (calm (request []) [])
            5 "198.51.100.7:4242" (request []) "" "" "" "0.0.0.0" 22
            _ eq_refl eq_refl eq_refl eq_refl eq_refl eq_refl).
  repeat split; discriminate.
Defined.

(** *** What ends the relay, and what does not *)

(** X11: no readiness event ends the relay loop: whatever the events
    report and whatever the splices, receives and sends made for them
    return (end of stream, errors, hang-up), the [break]s leave only the
    inner [for], and the loop waits again with the idle counter at 0. *)
Theorem events_never_end_the_relay (ws : list wait_ret) (c : Z)
    (h : ConnectionHandler) :
  forallb has_events ws = true ->
  ws <> [] ->
  value_of (relay ws c h) = inr (Waiting 0).
Proof.
  revert c. induction ws as [|w ws IH]; intros c F N; [congruence|].
  cbn [forallb] in F. apply andb_prop in F. destruct F as [Fw Fs].
  destruct w as [errno|[|r evs]]; try discriminate Fw.
  rewrite relay_cons, !value_prepend.
  destruct ws as [|w' ws']; [reflexivity|].
  apply IH; [exact Fs | discriminate].
Qed.

Lemma events_never_end_the_relay_witness :
  value_of (relay [client_readable "" 0; client_readable "" 0] 30 tunnelling)
  = inr (Waiting 0).
Proof.
  exact (events_never_end_the_relay
           [client_readable "" 0; client_readable "" 0] 30 tunnelling
           eq_refl ltac:(discriminate)).
Defined.

(** X12: a wait interrupted by a signal ([EINTR]) is retried and leaves the
    idle counter as it is: the loop ends up as if the interrupted waits
    had not happened. *)
Theorem interrupted_waits_do_not_count (ws : list wait_ret) (c : Z)
    (h : ConnectionHandler) :
  value_of (relay ws c h)
  = value_of (relay (filter (fun w => negb (interrupted w)) ws) c h).
Proof.
  revert c. induction ws as [|w ws IH]; intros c; [reflexivity|].
  cbn [filter]. destruct (interrupted w) eqn:I; cbn [negb].
  - destruct w as [errno|evs]; [|discriminate I]. cbn [interrupted] in I.
    rewrite relay_cons, value_prepend, I. apply IH.
  - rewrite !relay_cons, !value_prepend.
    destruct w as [errno|[|r evs]].
    + cbn [interrupted] in I. rewrite I. reflexivity.
    + destruct (c + 1 >=? TIMEOUT); [reflexivity | apply IH].
    + rewrite !value_prepend. apply IH.
Qed.

(** *** Bytes through the relay *)











End HeaderBootstrapMore.

(* ===================================================================== *)
(** ** More on the SOCKS5 session *)
(* ===================================================================== *)

Module Socks5More.
Import Socks5 Socks5Harness Socks5Observations Socks5Spec.
Open Scope Z_scope.

(** *** Failures of the negotiation *)

(** X14: a read that fails, at any point of the negotiation or of the
    forwarding, tears the session down at once and without a reply: the
    actions are those of [handle_error] and no write is started. *)
Theorem failed_read_tears_down_without_reply
    (v6 : list Z -> string) (msg : error_code -> string)
    (s : Session) (h : handler) (ec : error_code) (data : list Z) :
  client_rd s = Some h -> read_handler h = true -> failed ec = true ->
  snd (step v6 msg (ClientRead ec data) s) = teardown msg ec /\
  existsb is_write (snd (step v6 msg (ClientRead ec data) s)) = false /\
  client_open (fst (step v6 msg (ClientRead ec data) s)) = false /\
  remote_open (fst (step v6 msg (ClientRead ec data) s)) = false.
Proof.
  intros H R F.
  assert (E : resume v6 msg h ec (List.length data) [] no_endpoint
              = handle_error msg ec).
  { destruct h; try discriminate R; cbn [resume]; now rewrite F. }
  unfold step, reading. rewrite H, !seq_run, E, handle_error_run.
  cbn [fst snd upd deposit app].
  repeat split. destruct ec; try discriminate F; reflexivity.
Qed.

Lemma failed_read_tears_down_without_reply_witness :
  snd (step sample_v6 sample_message (ClientRead eof [5])
         (fst (start (accepted []))))
  = teardown sample_message eof.
Proof.
  exact (proj1 (failed_read_tears_down_without_reply sample_v6 sample_message
                  (fst (start (accepted []))) on_handshake_head eof [5]
                  eq_refl eq_refl eq_refl)).
Defined.

(** X15: a handshake whose first byte is not 5 is dropped without any
    reply: the session is torn down with [invalid_argument] and the
    method bytes are never read. *)
Theorem wrong_version_is_dropped
    (v6 : list Z -> string) (msg : error_code -> string)
    (s : Session) (ver n : Z) :
  client_rd s = Some on_handshake_head ->
  ver mod 256 <> 5 ->
  snd (step v6 msg (ClientRead success [ver; n]) s)
    = teardown msg invalid_argument /\
  client_open (fst (step v6 msg (ClientRead success [ver; n]) s)) = false /\
  client_rd (fst (step v6 msg (ClientRead success [ver; n]) s)) = None.
Proof.
  intros H V. apply Z.eqb_neq in V.
  unfold step, reading. rewrite H, !seq_run.
  cbn -[Z.modulo skipn handle_error]. unfold reading, at_.
  cbn -[Z.modulo skipn handle_error]. rewrite V. cbn [negb].
  rewrite handle_error_run. repeat split.
Qed.

Lemma wrong_version_is_dropped_witness :
  snd (step sample_v6 sample_message (ClientRead success [4; 1])
         (fst (start (accepted []))))
  = teardown sample_message invalid_argument.
Proof.
  exact (proj1 (wrong_version_is_dropped sample_v6 sample_message
                  (fst (start (accepted []))) 4 1 eq_refl
                  ltac:(discriminate))).
Defined.

(** *** The replies of the request phase *)

Lemma reply_written_refusal v6 msg s rep reply rest ec :
  client_wr s = (on_reply_written rep, Literal reply) :: rest ->
  rep <> 0 ->
  step v6 msg (ClientWritten ec) s =
  (torn_down (set_client_wr rest s),
   ((if failed ec then [] else [Transmit client_socket_ reply])
      ++ teardown msg ec)%list).
Proof.
  intros H R. apply Z.eqb_neq in R.
  unfold step, reading. rewrite H, !seq_run. cbn [resume].
  rewrite R. cbn [negb]. rewrite orb_true_r, handle_error_run.
  destruct (failed ec); reflexivity.
Qed.

(** X16: a request that is not a version-5 CONNECT is answered with reply
    code 07 (command not supported), and a CONNECT with an address type
    other than 1, 3 or 4 with reply code 08; both replies carry the
    address 0.0.0.0 and port 0, and the session is torn down when the
    reply has been written, whether the write succeeded or not. *)
Theorem unsupported_request_is_refused
    (v6 : list Z -> string) (msg : error_code -> string)
    (s : Session) (ver cmd rsv atype : Z) (ec : error_code) :
  client_rd s = Some on_request_head ->
  client_wr s = [] ->
  0 <= ver <= 255 -> 0 <= cmd <= 255 -> 0 <= atype <= 255 ->
  (ver <> 5 \/ cmd <> 1) \/ (atype <> 1 /\ atype <> 3 /\ atype <> 4) ->
  let rep := if negb (ver =? 5) || negb (cmd =? 1) then 7 else 8 in
  let r := dispatch v6 msg
             [ClientRead success [ver; cmd; rsv; atype]; ClientWritten ec] s in
  snd r =
    ([AsyncWrite client_socket_ (Literal [5; rep; 0; 1; 0; 0; 0; 0; 0; 0])]
       ++ (if failed ec then []
           else [Transmit client_socket_ [5; rep; 0; 1; 0; 0; 0; 0; 0; 0]])
       ++ teardown msg ec)%list /\
  client_open (fst r) = false /\ remote_open (fst r) = false.
Proof.
  intros H W Hv Hc Ha Bad rep r.
  set (s1 := fst (step v6 msg (ClientRead success [ver; cmd; rsv; atype]) s)).
  assert (S1 : snd (step v6 msg (ClientRead success [ver; cmd; rsv; atype]) s)
               = [AsyncWrite client_socket_
                    (Literal [5; rep; 0; 1; 0; 0; 0; 0; 0; 0])] /\
               client_wr s1
               = [(on_reply_written rep,
                   Literal [5; rep; 0; 1; 0; 0; 0; 0; 0; 0])]).
  { unfold s1, step, reading. rewrite H, !seq_run.
    cbn -[Z.modulo skipn Z.eqb store]. unfold reading, at_.
    cbn -[Z.modulo skipn Z.eqb store].
    rewrite (Z.mod_small ver 256), (Z.mod_small cmd 256),
      (Z.mod_small atype 256) by lia.
    unfold rep.
    destruct (negb (ver =? 5) || negb (cmd =? 1)) eqn:B.
    - unfold send_reply, async_write. rewrite seq_run. cbn. rewrite W.
      split; reflexivity.
    - apply orb_false_elim in B. destruct B as [B1 B2].
      apply negb_false_iff in B1, B2. apply Z.eqb_eq in B1, B2.
      destruct Bad as [[N|N]|(N1 & N2 & N3)]; try congruence.
      apply Z.eqb_neq in N1, N2, N3. rewrite N1, N2, N3.
      unfold declare, destroy, send_reply, async_write. rewrite !seq_run.
      cbn -[store]. rewrite W. split; reflexivity. }
  destruct S1 as [T1 W1].
  assert (R : rep <> 0) by (unfold rep; destruct (negb (ver =? 5) || negb (cmd =? 1)); lia).
  unfold r. cbn [dispatch]. rewrite !seq_run, T1. fold s1. cbn [fst snd skip].
  rewrite (reply_written_refusal v6 msg s1 rep _ [] ec W1 R).
  cbn [fst snd]. rewrite app_nil_r. repeat split.
Qed.

Lemma unsupported_request_is_refused_witness :
  transmitted client_socket_
    (snd (dispatch sample_v6 sample_message
            [ClientRead success [5; 2; 0; 1]; ClientWritten success]
            (set_client_rd (Some on_request_head) (accepted []))))
  = [5; 7; 0; 1; 0; 0; 0; 0; 0; 0].
Proof.
  assert (B : (5 <> 5 \/ 2 <> 1) \/ (1 <> 1 /\ 1 <> 3 /\ 1 <> 4))
    by (left; right; discriminate).
  assert (I5 : 0 <= 5 <= 255) by (split; discriminate).
  assert (I2 : 0 <= 2 <= 255) by (split; discriminate).
  assert (I1 : 0 <= 1 <= 255) by (split; discriminate).
  rewrite (proj1 (unsupported_request_is_refused sample_v6 sample_message
                    (set_client_rd (Some on_request_head) (accepted []))
                    5 2 0 1 success eq_refl eq_refl I5 I2 I1 B)).
  reflexivity.
Defined.

(** X17: when the resolution or the connect fails the client is sent reply
    code 01 (general failure) with address 0.0.0.0 and port 0, and the
    session is torn down when that reply has been written. *)
Theorem connect_failure_is_answered_01
    (v6 : list Z -> string) (msg : error_code -> string)
    (s : Session) (ec ec' : error_code) (eps : list endpoint) (local : endpoint) :
  client_wr s = [] -> failed ec = true ->
  (connector s = Some on_resolved ->
   snd (dispatch v6 msg [Resolved ec eps; ClientWritten ec'] s) =
     ([AsyncWrite client_socket_ (Literal [5; 1; 0; 1; 0; 0; 0; 0; 0; 0])]
        ++ (if failed ec' then []
            else [Transmit client_socket_ [5; 1; 0; 1; 0; 0; 0; 0; 0; 0]])
        ++ teardown msg ec')%list) /\
  (connector s = Some on_connected ->
   snd (dispatch v6 msg [Connected ec local; ClientWritten ec'] s) =
     ([AsyncWrite client_socket_ (Literal [5; 1; 0; 1; 0; 0; 0; 0; 0; 0])]
        ++ (if failed ec' then []
            else [Transmit client_socket_ [5; 1; 0; 1; 0; 0; 0; 0; 0; 0]])
        ++ teardown msg ec')%list).
Proof.
  intros W F. split; intros C.
  - assert (S1 : step v6 msg (Resolved ec eps) s =
                 (set_client_wr [(on_reply_written 1,
                                  Literal [5; 1; 0; 1; 0; 0; 0; 0; 0; 0])]
                    (set_connector None s),
                  [AsyncWrite client_socket_
                     (Literal [5; 1; 0; 1; 0; 0; 0; 0; 0; 0])])).
    { assert (F' : failed (if resolver_destroyed s then operation_aborted
                           else ec) = true)
        by (destruct (resolver_destroyed s); [reflexivity | exact F]).
      unfold step, reading. rewrite C, !seq_run. cbn [resume]. rewrite F'.
      unfold send_reply, async_write. rewrite seq_run. cbn. rewrite W. reflexivity. }
    cbn [dispatch]. rewrite !seq_run, S1. cbn [fst snd skip].
    erewrite (reply_written_refusal v6 msg _ 1 _ [] ec'); [| reflexivity | lia].
    cbn [fst snd]. now rewrite app_nil_r.
  - assert (S1 : step v6 msg (Connected ec local) s =
                 (set_client_wr [(on_reply_written 1,
                                  Literal [5; 1; 0; 1; 0; 0; 0; 0; 0; 0])]
                    (set_connector None s),
                  [AsyncWrite client_socket_
                     (Literal [5; 1; 0; 1; 0; 0; 0; 0; 0; 0])])).
    { unfold step, reading. rewrite C, !seq_run. cbn [resume]. rewrite F.
      unfold send_reply, async_write. rewrite seq_run. cbn. rewrite W. reflexivity. }
    cbn [dispatch]. rewrite !seq_run, S1. cbn [fst snd skip].
    erewrite (reply_written_refusal v6 msg _ 1 _ [] ec'); [| reflexivity | lia].
    cbn [fst snd]. now rewrite app_nil_r.
Qed.

Lemma connect_failure_is_answered_01_witness :
  transmitted client_socket_
    (snd (dispatch sample_v6 sample_message
            [Connected (failure 111) bound_at; ClientWritten success]
            (set_connector (Some on_connected) (accepted []))))
  = [5; 1; 0; 1; 0; 0; 0; 0; 0; 0].
Proof.
  rewrite (proj2 (connect_failure_is_answered_01 sample_v6 sample_message
                    (set_connector (Some on_connected) (accepted []))
                    (failure 111) success [] bound_at eq_refl eq_refl) eq_refl).
  reflexivity.
Defined.

(** X18: a successful connect is answered with reply code 00 carrying the
    local endpoint of the upstream socket (address type 1, the four
    address bytes, the port high byte first); the reply is queued after
    the negotiation timer is cancelled and before the five-minute timer
    is set and the two reads are started, and once it is written the
    session is open in both directions and forwards. *)
Theorem connected_is_answered_00_then_forwards
    (v6 : list Z -> string) (msg : error_code -> string)
    (s : Session) (local : endpoint) (a : list Z) :
  connector s = Some on_connected ->
  client_wr s = [] -> remote_wr s = [] ->
  ep_address local = v4 a -> 0 <= ep_port local < 65536 ->
  let reply := ([5; 0; 0; 1] ++ a
                  ++ [ep_port local / 256; ep_port local mod 256])%list in
  let r := dispatch v6 msg [Connected success local; ClientWritten success] s in
  snd r =
    [Cancel; AsyncWrite client_socket_ (Literal reply); ExpiresAfter 300;
     AsyncReadSome client_socket_ BUFFER_SIZE;
     AsyncReadSome remote_socket_ BUFFER_SIZE;
     Transmit client_socket_ reply] /\
  forwards (fst r) /\ timer_ (fst r) = Some 300 /\
  remote_open (fst r) = true /\ client_open (fst r) = client_open s.
Proof.
  intros C W RW A P reply r.
  assert (Hhi : Z.shiftr (ep_port local) 8 mod 256 = ep_port local / 256).
  { rewrite Z.shiftr_div_pow2 by lia. change (2 ^ 8) with 256.
    apply Z.mod_small. split; [apply Z.div_pos; lia|].
    apply Z.div_lt_upper_bound; lia. }
  assert (S1 : step v6 msg (Connected success local) s =
               (set_remote_rd (Some on_remote_data)
                  (set_client_rd (Some on_client_data)
                     (set_timer_ (Some 300)
                        (set_client_wr [(on_reply_written 0, Literal reply)]
                           (set_timer_ None
                              (set_open (client_open s) true
                                 (set_connector None s)))))),
                [Cancel; AsyncWrite client_socket_ (Literal reply);
                 ExpiresAfter 300;
                 AsyncReadSome client_socket_ BUFFER_SIZE;
                 AsyncReadSome remote_socket_ BUFFER_SIZE])).
  { unfold step, reading. rewrite C, !seq_run.
    cbn -[Z.shiftr Z.modulo Z.div]. rewrite W, A, Hhi. reflexivity. }
  unfold r. cbn [dispatch]. rewrite !seq_run, S1. cbn [fst snd skip].
  unfold step, reading. cbn -[Z.shiftr Z.modulo Z.div].
  unfold forwards. cbn. rewrite RW. cbn.
  repeat split; auto.
Qed.

Lemma connected_is_answered_00_then_forwards_witness :
  transmitted client_socket_
    (snd (dispatch sample_v6 sample_message
            [Connected success bound_at; ClientWritten success]
            (set_connector (Some on_connected) (accepted []))))
  = [5; 0; 0; 1; 127; 0; 0; 1; 156; 64].
Proof.
  refine (eq_trans
            (f_equal (transmitted client_socket_)
               (proj1 (connected_is_answered_00_then_forwards
                         sample_v6 sample_message
                         (set_connector (Some on_connected) (accepted []))
                         bound_at [127; 0; 0; 1] eq_refl eq_refl eq_refl
                         eq_refl _))) _).
  - split; [discriminate | reflexivity].
  - reflexivity.
Defined.

(** *** Forwarding *)

Lemma forallb_snoc {A} (p : A -> bool) l x :
  forallb p (l ++ [x]) = forallb p l && p x.
Proof. rewrite forallb_app. cbn. now rewrite andb_true_r. Qed.

Lemma traffic_step v6 msg e s :
  forwards s -> traffic e = true ->
  existsb touches_timer (snd (step v6 msg e s)) = false /\
  timer_ (fst (step v6 msg e s)) = timer_ s /\
  client_open (fst (step v6 msg e s)) = client_open s /\
  forwards (fst (step v6 msg e s)).
Proof.
  intros (Hc & Hr & Hcw & Hrw) T.
  destruct e as [ec d|ec|ec d|ec| | |]; try discriminate T;
    destruct ec; try discriminate T; unfold step, reading.
  - destruct Hc as [Hc|Hc]; rewrite Hc.
    + repeat split; auto.
    + rewrite !seq_run. cbn -[skipn]. repeat split; auto.
      cbn. now rewrite forallb_snoc, Hrw.
  - destruct (client_wr s) as [|[h src] rest] eqn:W.
    + cbn. repeat split; auto. now rewrite W.
    + cbn [forallb] in Hcw. apply andb_prop in Hcw. destruct Hcw as [Hh Hrest].
      unfold forwarding_write in Hh. cbn [fst] in Hh.
      destruct h; try discriminate Hh; rewrite !seq_run; cbn [resume failed orb];
        rewrite ?Hh; cbn; repeat split; auto.
  - destruct Hr as [Hr|Hr]; rewrite Hr.
    + repeat split; auto.
    + rewrite !seq_run. cbn -[skipn]. repeat split; auto.
      cbn. now rewrite forallb_snoc, Hcw.
  - destruct (remote_wr s) as [|[h src] rest] eqn:W.
    + cbn. repeat split; auto. now rewrite W.
    + cbn [forallb] in Hrw. apply andb_prop in Hrw. destruct Hrw as [Hh Hrest].
      unfold forwarding_write in Hh. cbn [fst] in Hh.
      destruct h; try discriminate Hh; rewrite !seq_run; cbn [resume failed orb];
        rewrite ?Hh; cbn; repeat split; auto.
Qed.

Lemma traffic_dispatch v6 msg es : forall s,
  forwards s -> forallb traffic es = true ->
  existsb touches_timer (snd (dispatch v6 msg es s)) = false /\
  timer_ (fst (dispatch v6 msg es s)) = timer_ s /\
  client_open (fst (dispatch v6 msg es s)) = client_open s /\
  forwards (fst (dispatch v6 msg es s)).
Proof.
  induction es as [|e es IH]; intros s F T.
  - cbn. auto.
  - cbn [forallb] in T. apply andb_prop in T. destruct T as [Te Tes].
    destruct (traffic_step v6 msg e s F Te) as (A1 & A2 & A3 & A4).
    destruct (IH _ A4 Tes) as (B1 & B2 & B3 & B4).
    cbn [dispatch]. rewrite seq_run. cbn [fst snd].
    rewrite existsb_app, A1, B1, B2, B3, A2, A3. auto.
Qed.

(** X19: the five-minute timer that [forward_data] sets is a limit on the
    whole forwarding, not on its idle time: no completed read or write
    re-arms or cancels it, so when it expires the session is torn down
    with [timed_out], however much traffic went through before. *)
Theorem forwarding_timer_is_not_rearmed_by_traffic
    (v6 : list Z -> string) (msg : error_code -> string)
    (s : Session) (es : list event) (secs : Z) :
  forwards s -> timer_ s = Some secs -> forallb traffic es = true ->
  existsb touches_timer (snd (dispatch v6 msg es s)) = false /\
  timer_ (fst (dispatch v6 msg es s)) = Some secs /\
  snd (dispatch v6 msg (es ++ [TimerExpired]) s) =
    (snd (dispatch v6 msg es s)
       ++ Log "Timeout expirado" :: teardown msg timed_out)%list /\
  client_open (fst (dispatch v6 msg (es ++ [TimerExpired]) s)) = false /\
  remote_open (fst (dispatch v6 msg (es ++ [TimerExpired]) s)) = false.
Proof.
  intros F Ht T.
  destruct (traffic_dispatch v6 msg es s F T) as (A1 & A2 & _ & _).
  rewrite Ht in A2.
  assert (E : step v6 msg TimerExpired (fst (dispatch v6 msg es s)) =
              (torn_down (set_timer_ None (fst (dispatch v6 msg es s))),
               Log "Timeout expirado" :: teardown msg timed_out)).
  { unfold step, reading. rewrite A2, seq_run. unfold on_timeout.
    rewrite seq_run, handle_error_run. reflexivity. }
  rewrite dispatch_app. cbn [dispatch fst snd]. rewrite seq_run, E.
  cbn [fst snd skip]. rewrite app_nil_r. repeat split; assumption.
Qed.

Lemma forwarding_timer_is_not_rearmed_by_traffic_witness :
  let s := forwarding_session in
  let es := [ClientRead success [1; 2; 3]; RemoteWritten success;
             RemoteRead success [4]; ClientWritten success] in
  timer_ (fst (dispatch sample_v6 sample_message es s)) = Some 300.
Proof.
  refine (proj1 (proj2 (forwarding_timer_is_not_rearmed_by_traffic
                          sample_v6 sample_message _ _ 300 _ _ _)));
    vm_compute; auto.
Defined.

Lemma map_mod_bytes (d : list Z) :
  bytes d -> map (fun b => b mod 256) d = d.
Proof.
  induction 1 as [|b d Hb _ IH]; cbn [map]; [reflexivity|].
  rewrite IH, Z.mod_small by lia. reflexivity.
Qed.

Lemma upload_step v6 msg s d :
  forwarding_idle s -> bytes d ->
  forwarding_idle (fst (dispatch v6 msg [ClientRead success d; RemoteWritten success] s)) /\
  snd (dispatch v6 msg [ClientRead success d; RemoteWritten success] s) =
    [AsyncWrite remote_socket_ (FromBuffer (List.length d));
     Transmit remote_socket_ d;
     AsyncReadSome client_socket_ BUFFER_SIZE].
Proof.
  intros [Hc Hw] B.
  assert (S1 : step v6 msg (ClientRead success d) s =
               (set_remote_wr [(on_remote_written, FromBuffer (List.length d))]
                  (set_buffer_ (d ++ skipn (List.length d) (buffer_ s))
                     (set_client_rd None s)),
                [AsyncWrite remote_socket_ (FromBuffer (List.length d))])).
  { unfold step, reading. rewrite Hc, !seq_run. cbn -[skipn].
    rewrite Hw, (map_mod_bytes d B). reflexivity. }
  cbn [dispatch]. rewrite !seq_run, S1. cbn [fst snd skip].
  unfold step, reading. cbn [remote_wr set_remote_wr]. rewrite !seq_run.
  cbn -[skipn firstn]. rewrite firstn_app, Nat.sub_diag, firstn_all.
  cbn [firstn]. rewrite !app_nil_r. split; [split|]; reflexivity.
Qed.

(** X20: while the upstream stays silent the client's bytes go through
    unchanged and in order: each chunk read from the client is written to
    the upstream whole before the next read is started, so what the
    upstream receives is the concatenation of the chunks. *)
Theorem upload_is_forwarded_in_order
    (v6 : list Z -> string) (msg : error_code -> string)
    (chunks : list (list Z)) (s : Session) :
  forwarding_idle s -> Forall bytes chunks ->
  transmitted remote_socket_ (snd (dispatch v6 msg (upload chunks) s))
    = concat chunks /\
  transmitted client_socket_ (snd (dispatch v6 msg (upload chunks) s)) = [] /\
  forwarding_idle (fst (dispatch v6 msg (upload chunks) s)).
Proof.
  revert s. induction chunks as [|d chunks IH]; intros s I B.
  - cbn. auto.
  - inversion B as [|? ? Bd Bs]; subst.
    destruct (upload_step v6 msg s d I Bd) as [I1 T1].
    destruct (IH _ I1 Bs) as (A1 & A2 & A3).
    change (upload (d :: chunks))
      with ([ClientRead success d; RemoteWritten success] ++ upload chunks)%list.
    rewrite dispatch_app. cbn [fst snd]. rewrite T1.
    cbn [app transmitted concat]. rewrite A1, A2. auto.
Qed.

Lemma upload_is_forwarded_in_order_witness :
  transmitted remote_socket_
    (snd (dispatch sample_v6 sample_message (upload [[83; 83]; [72]])
            forwarding_session))
  = [83; 83; 72].
Proof.
  refine (proj1 (upload_is_forwarded_in_order sample_v6 sample_message
                   [[83; 83]; [72]] _ _ _)).
  - vm_compute. auto.
  - repeat constructor; discriminate.
Defined.

End Socks5More.

(* ===================================================================== *)
(** ** The start-up of the SOCKS5 server *)
(* ===================================================================== *)

Module Socks5MainMore.
Import Cxx Socks5Main.
Open Scope Z_scope.

Lemma p_bind_run {A B} (m : P A) (k : A -> P B) w :
  bind m k w =
  match m w with
  | (inl u, w1, t1) => (inl u, w1, t1)
  | (inr a, w1, t1) =>
      let '(r2, w2, t2) := k a w1 in (r2, w2, (t1 ++ t2)%list)
  end.
Proof. unfold bind. destruct (m w) as [[[u|a] w1] t1]; reflexivity. Qed.

Lemma to_short_in_range (p : Z) :
  1 <= p <= 65535 ->
  to_port (to_short p) = p /\
  to_short p = if p <? 32768 then p else p - 65536.
Proof.
  intros H. unfold to_port, to_short.
  destruct (p <? 32768) eqn:E.
  - apply Z.ltb_lt in E. rewrite (Z.mod_small (p + 32768)) by lia.
    split; [rewrite Z.mod_small; lia | lia].
  - apply Z.ltb_ge in E.
    assert (M : (p + 32768) mod 65536 = p - 32768).
    { symmetry. apply (Z.mod_unique _ _ 1); lia. }
    rewrite M. split; [|lia].
    symmetry. apply (Z.mod_unique _ _ (-1)); lia.
Qed.

Lemma in_range_test (p : Z) :
  1 <= p <= 65535 -> (p <? 1) || (p >? 65535) = false.
Proof.
  intros H. apply orb_false_intro; [apply Z.ltb_ge; lia|].
  rewrite Z.gtb_ltb. apply Z.ltb_ge. lia.
Qed.

Lemma not_s (answer : string) :
  answer <> "s" -> answer <> "S" ->
  ((answer =? "s")%string || (answer =? "S")%string) = false.
Proof.
  intros H1 H2. apply orb_false_intro; now apply String.eqb_neq.
Qed.

(** X21: a port typed in 1..65535 goes through a [short] on its way to the
    acceptor.  The acceptor is opened on the port as typed, since the
    conversion back to the unsigned port undoes the cast; but what is
    printed is the [short]: for a port of 32768 and above the message
    shows the port minus 65536. *)
Theorem port_is_bound_as_typed_and_logged_as_short
    (line answer : string) (rest : list string) (p : Z)
    (fs : list Z) (r : bind_ret) (ss : list bind_ret) :
  stoi line = inr p -> 1 <= p <= 65535 ->
  answer <> "s" -> answer <> "S" ->
  let w := {| stdin := line :: answer :: rest; forks := fs; servers := r :: ss |} in
  let shown := to_string (if p <? 32768 then p else p - 65536) in
  exists t,
    snd (iteration w) =
      (Cout PROMPT_PORT :: Cout PROMPT_TUNNEL :: ServerOpen p r :: t)%list /\
    (r = Bound ->
     t = [Cout ("Servidor SOCKS5 rodando na porta " ++ shown ++ " (IPv4/IPv6)" ++ endl);
          ServerClose]) /\
    (r = AddressInUse ->
     t = [Cerr ("Porta " ++ shown ++ " j" ++ a_acute ++ " em uso! Tente outra." ++ endl)]).
Proof.
  intros H R N1 N2 w shown.
  destruct (to_short_in_range p R) as [Hp Hs].
  unfold iteration. rewrite !p_bind_run. cbn -[stoi to_short to_string].
  rewrite H, (in_range_test p R). rewrite !p_bind_run.
  cbn -[stoi to_short to_string String.eqb]. rewrite (not_s answer N1 N2).
  unfold serve. rewrite !p_bind_run. cbn -[stoi to_short to_string String.eqb].
  rewrite Hp. unfold shown. rewrite <- Hs.
  destruct r; cbn -[to_short to_string]; eexists; (split; [reflexivity|]);
    split; intros E; try discriminate E; reflexivity.
Qed.

Lemma port_is_bound_as_typed_and_logged_as_short_witness :
  exists t,
    snd (iteration (typed ["40000"; "n"])) =
    (Cout PROMPT_PORT :: Cout PROMPT_TUNNEL :: ServerOpen 40000 Bound :: t)%list /\
    t = [Cout ("Servidor SOCKS5 rodando na porta -25536 (IPv4/IPv6)" ++ endl);
         ServerClose].
Proof.
  assert (R : 1 <= 40000 <= 65535) by (split; discriminate).
  destruct (port_is_bound_as_typed_and_logged_as_short
              "40000" "n" [] 40000 [4242] Bound [] eq_refl R
              ltac:(discriminate) ltac:(discriminate)) as (t & E & B & _).
  exists t. split; [exact E | exact (B eq_refl)].
Defined.

(** *** The tunnel object *)

(** X22: [stop] signals the child at most once.  Whatever the proxy, after
    one [stop] the recorded pid is not positive any more and a second
    [stop] (the destructor after an explicit stop) does nothing; a proxy
    that never started, or whose [fork] failed, is stopped without any
    signal. *)
Theorem stop_signals_the_child_once (p : ReverseSSHProxy) (w : world) :
  exists p1 t1,
    stop p w = (inr p1, w, t1) /\
    stop p1 w = (inr p1, w, []) /\
    t1 = (if ssh_pid_ p >? 0
          then [Cout ("Parando t" ++ u_acute ++ "nel SSH reverso..." ++ endl);
                Kill (ssh_pid_ p) SIGTERM; Waitpid (ssh_pid_ p)]
          else []).
Proof.
  unfold stop. destruct (ssh_pid_ p >? 0) eqn:E.
  - exists (set_ssh_pid_ 0 p). eexists. split; [reflexivity|]. split; reflexivity.
  - exists p, []. rewrite E. repeat split.
Qed.

(** *** What is alive when the loop is left *)

Lemma getline_total w :
  exists l w1, getline w = (inr l, w1, []) /\
               List.length (stdin w1) = Nat.pred (List.length (stdin w)) /\
               (stdin w = [] -> l = "" /\ w1 = w).
Proof.
  unfold getline. destruct (stdin w) as [|l rest] eqn:E.
  - exists "", w. rewrite E. repeat split.
  - eexists _, _. split; [reflexivity|]. split; [reflexivity|discriminate].
Qed.

Lemma fork_total w :
  exists r w1, fork w = (inr r, w1, [Fork r]) /\ stdin w1 = stdin w.
Proof.
  unfold fork. destruct (forks w); eexists _, _; split; reflexivity.
Qed.

Lemma construct_total port w :
  exists r w1, construct port w = (inr r, w1, [ServerOpen (to_port port) r]) /\
               stdin w1 = stdin w.
Proof.
  unfold construct. destruct (servers w); eexists _, _; split; reflexivity.
Qed.

Lemma remove_self pid : remove pid [pid] = [].
Proof. unfold remove. cbn. now rewrite Z.eqb_refl. Qed.

Ltac calm :=
  cbn -[stoi to_string to_short to_port String.eqb getline fork construct
        Z.gtb Z.ltb Z.eqb remove].

Ltac run_main :=
  repeat first
    [ progress (rewrite p_bind_run)
    | progress calm
    | match goal with
      | |- context [getline ?w] =>
          let l := fresh "l" in let w1 := fresh "w" in
          let E := fresh "E" in let L := fresh "L" in
          destruct (getline_total w) as (l & w1 & E & L & _);
          rewrite E; clear E
      | |- context [fork ?w] =>
          let r := fresh "pid" in let w1 := fresh "w" in
          let E := fresh "E" in let L := fresh "L" in
          destruct (fork_total w) as (r & w1 & E & L);
          rewrite E; clear E
      | |- context [construct ?p ?w] =>
          let r := fresh "r" in let w1 := fresh "w" in
          let E := fresh "E" in let L := fresh "L" in
          destruct (construct_total p w) as (r & w1 & E & L);
          rewrite E; clear E; destruct r
      | |- context [match stoi ?s with _ => _ end] => destruct (stoi s) eqn:?
      | |- context [if ?b then _ else _] => destruct b eqn:?
      end ].

Lemma iteration_settles w : takes (snd (iteration w)) nothing nothing.
Proof.
  unfold iteration, serve, request_tunnel, start, release, stop, takes.
  run_main; rewrite ?remove_self; try (split; reflexivity); try discriminate;
    exfalso;
    repeat match goal with
           | H : (_ =? _) = true |- _ => apply Z.eqb_eq in H
           | H : (_ >? _) = true |- _ => rewrite Z.gtb_ltb in H; apply Z.ltb_lt in H
           end; lia.
Qed.

Lemma iteration_shrinks w :
  (List.length (stdin (snd (fst (iteration w))))
     <= Nat.pred (List.length (stdin w)))%nat.
Proof.
  unfold iteration, serve, request_tunnel, start, release, stop.
  run_main; repeat match goal with H : stdin _ = stdin _ |- _ => rewrite H; clear H end;
    lia.
Qed.

Lemma iteration_at_end_of_input w :
  stdin w = [] ->
  iteration w = (inr Continue, w, [Cout PROMPT_PORT; Cerr MSG_NOT_A_NUMBER]).
Proof.
  intros E. unfold iteration, bind, emit, getline. rewrite E. reflexivity.
Qed.

Lemma takes_app t1 t2 a b c :
  takes t1 a b -> takes t2 b c -> takes (t1 ++ t2) a c.
Proof.
  unfold takes, after. revert a. induction t1 as [|e t1 IH]; intros a [A1 A2] [B1 B2].
  - cbn in *. subst. auto.
  - cbn [app fold_left]. cbn [fold_left] in A1.
    destruct (IH (after1 a e)) as [C1 C2].
    + split; [exact A1|]. destruct e; cbn in A2 |- *; try exact A2; discriminate A2.
    + split; assumption.
    + split; [exact C1|]. destruct e; cbn in A2 |- *; try exact C2; discriminate A2.
Qed.

Lemma at_run_app t1 t2 a b :
  takes t1 a b -> at_run (t1 ++ t2) a = at_run t2 b.
Proof.
  unfold takes, after. revert a. induction t1 as [|e t1 IH]; intros a [A1 A2].
  - cbn in *. now subst.
  - cbn [fold_left] in A1. cbn [app].
    destruct e; cbn in A2 |- *; try (apply IH; split; assumption); discriminate A2.
Qed.

Lemma loop_settles fuel : forall w,
  match fst (fst (loop fuel w)) with
  | inr Serving => exists pre, snd (loop fuel w) = (pre ++ [IoRun])%list /\
                               takes pre nothing nothing
  | _ => takes (snd (loop fuel w)) nothing nothing
  end.
Proof.
  induction fuel as [|fuel IH]; intros w.
  - cbn. split; reflexivity.
  - cbn [loop]. pose proof (iteration_settles w) as I.
    destruct (stdin w) as [|l rest].
    + destruct (iteration w) as [[r w1] t1]. exact I.
    + destruct (iteration w) as [[[u|[|]] w1] t1]; cbn [fst snd] in *.
      * exact I.
      * specialize (IH w1). destruct (loop fuel w1) as [[r2 w2] t2].
        destruct r2 as [u2|[| | | |]]; cbn [fst snd] in *;
          try (eapply takes_app; eassumption).
        destruct IH as (pre & -> & T). exists (t1 ++ pre)%list.
        split; [now rewrite List.app_assoc | eapply takes_app; eassumption].
      * exists t1. split; [reflexivity | exact I].
Qed.

Lemma loop_has_fuel fuel : forall w,
  (List.length (stdin w) < fuel)%nat ->
  match fst (fst (loop fuel w)) with
  | inr o => in_source o = true
  | inl _ => True
  end.
Proof.
  induction fuel as [|fuel IH]; intros w L; [lia|].
  cbn [loop]. pose proof (iteration_shrinks w) as I.
  destruct (stdin w) as [|l rest] eqn:E.
  - destruct (iteration w) as [[r w1] t1]. reflexivity.
  - destruct (iteration w) as [[[u|[|]] w1] t1]; cbn [fst snd] in *; try exact Logic.I;
      try reflexivity.
    assert (L1 : (List.length (stdin w1) < fuel)%nat) by (cbn in L, I; lia).
    specialize (IH w1 L1). destruct (loop fuel w1) as [[r2 w2] t2]. exact IH.
Qed.

(** X23: [main] never reaches [io_ctx.run()] with anything alive.  The
    [Server] is a local of the [try] block and the tunnel belongs to a
    [unique_ptr] of the loop body, and [break] leaves both: whatever is
    typed and whatever [fork] and [bind] return, when [io_ctx.run()] is
    called every acceptor that was opened has been closed and every
    child that was forked has been signalled and waited for. *)
Theorem nothing_is_alive_when_io_run_is_reached
    (argv1 : option string) (w : world) :
  fst (main argv1 w) = Serving ->
  at_run (snd (main argv1 w)) nothing = Some nothing /\
  exists pre, snd (main argv1 w) = (pre ++ [IoRun])%list.
Proof.
  unfold main. pose proof (loop_settles (S (List.length (stdin w))) w) as H.
  destruct (loop (S (List.length (stdin w))) w) as [[r w1] t].
  cbn [fst snd] in H.
  assert (Q : takes (target_argument argv1) nothing nothing).
  { unfold target_argument. destruct argv1 as [a|]; [destruct (stoi a)|];
      split; reflexivity. }
  destruct r as [[e|]|o]; cbn [fst snd]; try discriminate.
  intros ->. destruct H as (pre & -> & T). split.
  - rewrite (at_run_app _ _ _ _ Q), (at_run_app _ _ _ _ T). reflexivity.
  - exists (target_argument argv1 ++ pre)%list. now rewrite List.app_assoc.
Qed.

Lemma nothing_is_alive_when_io_run_is_reached_witness :
  at_run (snd (main None
                 {| stdin := ["1080"; "s"; "203.0.113.7"; ""; "root"; "secret"; "9000"];
                    forks := [4242]; servers := [Bound] |})) nothing
  = Some nothing.
Proof.
  refine (proj1 (nothing_is_alive_when_io_run_is_reached None _ _)).
  vm_compute. reflexivity.
Defined.

(** X24: every run of [main] ends as the source has it: it reaches
    [io_ctx.run()], returns after an exception, exits in the forked
    child, or, the input having ended, asks for the port for ever; an
    iteration that finds no input left changes nothing and comes back to
    the head of the loop. *)
Theorem main_ends_as_the_source_has_it (argv1 : option string) (w : world) :
  in_source (fst (main argv1 w)) = true /\
  (stdin w = [] ->
   iteration w = (inr Continue, w, [Cout PROMPT_PORT; Cerr MSG_NOT_A_NUMBER]) /\
   fst (main argv1 w) = Asking).
Proof.
  split.
  - unfold main.
    pose proof (loop_has_fuel (S (List.length (stdin w))) w (Nat.lt_succ_diag_r _)) as H.
    destruct (loop (S (List.length (stdin w))) w) as [[r w1] t].
    cbn [fst] in H. destruct r as [[e|]|o]; [reflexivity|reflexivity|exact H].
  - intros E. split; [exact (iteration_at_end_of_input w E)|].
    unfold main. rewrite E. cbn [List.length loop]. rewrite E.
    rewrite (iteration_at_end_of_input w E). reflexivity.
Qed.

Lemma main_ends_as_the_source_has_it_witness :
  fst (main None {| stdin := []; forks := []; servers := [] |}) = Asking.
Proof.
  exact (proj2 (proj2 (main_ends_as_the_source_has_it None
                         {| stdin := []; forks := []; servers := [] |}) eq_refl)).
Defined.

(** *** The answers to the questions *)

Lemma yes_test (answer : string) :
  yes answer -> ((answer =? "s")%string || (answer =? "S")%string) = true.
Proof. intros [-> | ->]; reflexivity. Qed.

Lemma not_empty (s : string) : s <> "" -> empty s = false.
Proof. destruct s; [congruence | reflexivity]. Qed.

(** X25: a port line that is not a number, or a number outside 1..65535,
    costs one prompt and one message and nothing else: no child is
    forked, no acceptor is opened, and the program goes on exactly as if
    the line had not been typed. *)
Theorem refused_port_is_asked_again
    (argv1 : option string) (line : string) (rest : list string)
    (fs : list Z) (ss : list bind_ret) (msg : string) :
  ((exists ex, stoi line = inl ex) /\ msg = MSG_NOT_A_NUMBER) \/
  ((exists p, stoi line = inr p /\ (p < 1 \/ 65535 < p)) /\ msg = MSG_BAD_PORT) ->
  let w := {| stdin := line :: rest; forks := fs; servers := ss |} in
  let w' := {| stdin := rest; forks := fs; servers := ss |} in
  fst (main argv1 w) = fst (main argv1 w') /\
  snd (main argv1 w) =
    (target_argument argv1 ++ [Cout PROMPT_PORT; Cerr msg] ++ snd (main None w'))%list.
Proof.
  intros H w w'.
  assert (I : iteration w = (inr Continue, w', [Cout PROMPT_PORT; Cerr msg])).
  { unfold iteration. rewrite !p_bind_run. cbn -[stoi].
    destruct H as [[[ex E] ->] | [(p & E & R) ->]]; rewrite E; [reflexivity|].
    assert (T : (p <? 1) || (p >? 65535) = true).
    { apply orb_true_iff. rewrite Z.gtb_ltb, !Z.ltb_lt. lia. }
    rewrite T. reflexivity. }
  unfold main. change (stdin w) with (line :: rest). change (stdin w') with rest.
  cbn [List.length]. remember (S (List.length rest)) as f eqn:F.
  cbn [loop]. change (stdin w) with (line :: rest). cbv iota.
  rewrite I.
  destruct (loop f w') as [[[[e|]|o] w2] t2]; cbn [fst snd app];
    split; reflexivity.
Qed.

Lemma refused_port_is_asked_again_witness :
  fst (main None (typed ["65536"; "1080"; "n"])) = fst (main None (typed ["1080"; "n"])).
Proof.
  refine (proj1 (refused_port_is_asked_again None "65536" ["1080"; "n"]
                   [4242] [Bound] MSG_BAD_PORT (or_intror (conj _ eq_refl)))).
  exists 65536. split; [reflexivity | right; reflexivity].
Defined.

(** X26: the ports of the tunnel are read with [stoi] outside every [try]
    of the loop, so a line that is not a number there ends the program:
    the exception reaches the [catch] of [main], which prints it and
    returns 0 with no child forked and no acceptor opened.  A remote port
    left empty does so too; only the SSH port has a default. *)
Theorem unparsable_tunnel_port_ends_main
    (argv1 : option string) (line answer server ssh_port user password remote : string)
    (rest : list string) (p : Z) (ex : exception)
    (fs : list Z) (ss : list bind_ret) :
  stoi line = inr p -> 1 <= p <= 65535 -> yes answer ->
  (ssh_port <> "" ->
   stoi ssh_port = inl ex ->
   main argv1 {| stdin := line :: answer :: server :: ssh_port :: rest;
                 forks := fs; servers := ss |} =
   (Returned 0,
    (target_argument argv1
       ++ [Cout PROMPT_PORT; Cout PROMPT_TUNNEL] ++ firstn 2 questions
       ++ [caught_in_main ex])%list)) /\
  (ssh_port = "" \/ (exists q, stoi ssh_port = inr q) ->
   stoi remote = inl ex ->
   main argv1 {| stdin := line :: answer :: server :: ssh_port :: user
                            :: password :: remote :: rest;
                 forks := fs; servers := ss |} =
   (Returned 0,
    (target_argument argv1
       ++ [Cout PROMPT_PORT; Cout PROMPT_TUNNEL] ++ questions
       ++ [caught_in_main ex])%list)).
Proof.
  intros H R Y. split.
  - intros N E. unfold main. cbn [stdin List.length loop].
    unfold iteration. rewrite ?p_bind_run. cbn -[stoi to_short String.eqb].
    rewrite H, (in_range_test p R). rewrite ?p_bind_run.
    cbn -[stoi to_short String.eqb]. rewrite (yes_test answer Y).
    unfold request_tunnel. rewrite ?p_bind_run. cbn -[stoi to_short String.eqb empty].
    rewrite (not_empty _ N). rewrite ?p_bind_run. cbn -[stoi to_short String.eqb empty].
    rewrite E. reflexivity.
  - intros S E. unfold main. cbn [stdin List.length loop].
    unfold iteration. rewrite ?p_bind_run. cbn -[stoi to_short String.eqb].
    rewrite H, (in_range_test p R). rewrite ?p_bind_run.
    cbn -[stoi to_short String.eqb]. rewrite (yes_test answer Y).
    unfold request_tunnel. rewrite ?p_bind_run. cbn -[stoi to_short String.eqb empty].
    destruct S as [-> | [q Q]].
    + cbn -[stoi to_short String.eqb]. rewrite ?p_bind_run.
      cbn -[stoi to_short String.eqb]. rewrite E. reflexivity.
    + destruct (empty ssh_port); rewrite ?Q; rewrite ?p_bind_run;
        cbn -[stoi to_short String.eqb]; rewrite ?p_bind_run;
        cbn -[stoi to_short String.eqb]; rewrite E; reflexivity.
Qed.

Lemma unparsable_tunnel_port_ends_main_witness :
  main None (typed ["1080"; "s"; "203.0.113.7"; ""; "root"; "secret"; ""]) =
  (Returned 0,
   ([Cout PROMPT_PORT; Cout PROMPT_TUNNEL] ++ questions
      ++ [caught_in_main (invalid_argument "stoi")])%list).
Proof.
  assert (R : 1 <= 1080 <= 65535) by (split; discriminate).
  exact (proj2 (unparsable_tunnel_port_ends_main None "1080" "s" "203.0.113.7" ""
                  "root" "secret" "" [] 1080 (invalid_argument "stoi") [4242] [Bound]
                  eq_refl R (or_introl eq_refl))
               (or_introl eq_refl) eq_refl).
Defined.

(** *** The three ends of [fork] *)

Lemma request_tunnel_run port server ssh_port user password remote rest fs ss sp q :
  ssh_port_of ssh_port sp -> stoi remote = inr q ->
  request_tunnel port
    {| stdin := server :: ssh_port :: user :: password :: remote :: rest;
       forks := fs; servers := ss |} =
  let '(r, w, t) :=
    start {| ssh_server_ := server; ssh_port_ := sp; username_ := user;
             password_ := password; local_port_ := port;
             remote_port_ := q; ssh_pid_ := 0 |}
      {| stdin := rest; forks := fs; servers := ss |} in
  (r, w, (questions ++ t)%list).
Proof.
  intros S Q. unfold request_tunnel. rewrite !p_bind_run.
  cbn -[stoi empty start ret lift]. rewrite ?p_bind_run.
  cbn -[stoi empty start ret lift].
  assert (E : (if empty ssh_port then ret 22 else lift (stoi ssh_port))
                {| stdin := user :: password :: remote :: rest;
                   forks := fs; servers := ss |}
              = (inr sp, {| stdin := user :: password :: remote :: rest;
                            forks := fs; servers := ss |}, [])).
  { destruct S as [[-> ->] | [N V]]; [reflexivity|].
    rewrite (not_empty _ N). unfold lift. now rewrite V. }
  rewrite E. rewrite ?p_bind_run. cbn -[stoi empty start]. rewrite ?p_bind_run.
  cbn -[stoi empty start]. unfold lift. rewrite Q. 
  destruct (start _ _) as [[[u|[b x]] w1] t1]; reflexivity.
Qed.

Lemma iteration_with_tunnel line answer tl fs ss p :
  stoi line = inr p -> 1 <= p <= 65535 -> yes answer ->
  iteration {| stdin := line :: answer :: tl; forks := fs; servers := ss |} =
  let '(r, w, t) :=
    (r <- request_tunnel (to_short p) ;;
     let '(started, proxy) := r in
     if negb started
     then emit (Cerr ("Erro ao iniciar t" ++ u_acute ++ "nel SSH reverso!" ++ endl)) ;;
          release (Some proxy) ;;
          ret Continue
     else
       emit (Cout ("T" ++ u_acute ++ "nel SSH reverso criado!" ++ endl)) ;;
       emit (Cout ("Agora voc" ++ e_circ ++ " pode acessar este SOCKS5 atrav"
                     ++ e_acute ++ "s da porta " ++ to_string (remote_port_ proxy)
                     ++ " no servidor " ++ ssh_server_ proxy ++ endl)) ;;
       serve (to_short p) (Some proxy))
      {| stdin := tl; forks := fs; servers := ss |} in
  (r, w, ([Cout PROMPT_PORT; Cout PROMPT_TUNNEL] ++ t)%list).
Proof.
  intros H R Y. unfold iteration.
  rewrite p_bind_run. unfold emit at 1. cbv beta iota zeta.
  rewrite p_bind_run. unfold getline at 1. cbv beta iota zeta. cbn [stdin forks servers].
  rewrite H. cbv beta iota zeta. rewrite (in_range_test p R).
  rewrite p_bind_run. unfold emit at 1. cbv beta iota zeta.
  rewrite p_bind_run. unfold getline at 1. cbv beta iota zeta. cbn [stdin forks servers].
  rewrite (yes_test answer Y).
  match goal with |- context [bind ?m ?k ?w] => destruct (bind m k w) as [[r w1] t1] end.
  reflexivity.
Qed.

(** X27: a tunnel that was asked for is stopped as soon as the port is
    bound.  With a port in range, the tunnel's answers readable, a
    [fork] that gives the pid of the child and a [Server] that binds,
    [main] forks the child, opens the acceptor on the port typed,
    announces the server and the tunnel, and then, on its way out of the
    loop, closes the acceptor and signals and waits for the child, all
    before [io_ctx.run()].  The local port given to ssh is the [short]. *)
Theorem tunnel_is_stopped_once_the_port_is_bound
    (argv1 : option string)
    (line answer server ssh_port user password remote : string)
    (rest : list string) (p sp q pid : Z) (fs : list Z) (ss : list bind_ret) :
  stoi line = inr p -> 1 <= p <= 65535 -> yes answer ->
  ssh_port_of ssh_port sp -> stoi remote = inr q -> 0 < pid ->
  let proxy := requested server sp user password p q in
  main argv1 {| stdin := line :: answer :: server :: ssh_port :: user
                           :: password :: remote :: rest;
                forks := pid :: fs; servers := Bound :: ss |} =
  (Serving,
   (target_argument argv1
      ++ [Cout PROMPT_PORT; Cout PROMPT_TUNNEL] ++ questions ++ announced proxy
      ++ [Fork pid;
          Cout ("T" ++ u_acute ++ "nel SSH reverso iniciado (PID: "
                  ++ to_string pid ++ ")" ++ endl);
          Cout ("T" ++ u_acute ++ "nel SSH reverso criado!" ++ endl);
          Cout ("Agora voc" ++ e_circ ++ " pode acessar este SOCKS5 atrav"
                  ++ e_acute ++ "s da porta " ++ to_string q
                  ++ " no servidor " ++ server ++ endl);
          ServerOpen p Bound;
          Cout ("Servidor SOCKS5 rodando na porta " ++ to_string (to_short p)
                  ++ " (IPv4/IPv6)" ++ endl);
          Cout ("Com t" ++ u_acute ++ "nel SSH reverso ativo!" ++ endl);
          ServerClose;
          Cout ("Parando t" ++ u_acute ++ "nel SSH reverso..." ++ endl);
          Kill pid SIGTERM; Waitpid pid; IoRun])%list).
Proof.
  intros H R Y S Q Pid proxy.
  assert (G : (pid >? 0) = true) by (rewrite Z.gtb_ltb; apply Z.ltb_lt; lia).
  assert (Z0 : (pid =? 0) = false) by (apply Z.eqb_neq; lia).
  unfold main. cbn [stdin List.length loop].
  rewrite (iteration_with_tunnel _ _ _ _ _ p H R Y).
  rewrite p_bind_run, (request_tunnel_run _ _ _ _ _ _ _ _ _ sp q S Q).
  unfold start. rewrite !p_bind_run. cbn -[to_string to_short to_port ssh_command Z.gtb Z.eqb].
  rewrite Z0, G. rewrite ?p_bind_run.
  cbn -[to_string to_short to_port ssh_command Z.gtb Z.eqb].
  unfold serve, release, stop. rewrite ?p_bind_run.
  cbn -[to_string to_short to_port ssh_command Z.gtb Z.eqb].
  rewrite ?G. cbn -[to_string to_short to_port ssh_command Z.gtb Z.eqb].
  rewrite (proj1 (to_short_in_range p R)). reflexivity.
Qed.

Lemma tunnel_is_stopped_once_the_port_is_bound_witness :
  fst (main None (typed ["40000"; "s"; "203.0.113.7"; ""; "root"; "secret"; "9000"]))
  = Serving.
Proof.
  assert (R : 1 <= 40000 <= 65535) by (split; discriminate).
  exact (f_equal fst
           (tunnel_is_stopped_once_the_port_is_bound None "40000" "s" "203.0.113.7" ""
              "root" "secret" "9000" [] 40000 22 9000 4242 [] []
              eq_refl R (or_introl eq_refl) (or_introl (conj eq_refl eq_refl))
              eq_refl eq_refl)).
Defined.

(** X28: in the forked child, where [fork] gives 0, the program runs the
    ssh command through [system] and exits with code 0: the child opens
    no acceptor and never reaches [io_ctx.run()].  When [fork] fails the
    iteration ends with two messages and the next port is asked for,
    with no signal sent, the recorded pid being 0. *)
Theorem child_runs_ssh_and_failed_fork_asks_again
    (argv1 : option string)
    (line answer server ssh_port user password remote : string)
    (rest : list string) (p sp q pid : Z) (fs : list Z) (ss : list bind_ret) :
  stoi line = inr p -> 1 <= p <= 65535 -> yes answer ->
  ssh_port_of ssh_port sp -> stoi remote = inr q ->
  let proxy := requested server sp user password p q in
  let w := {| stdin := line :: answer :: server :: ssh_port :: user
                         :: password :: remote :: rest;
              forks := pid :: fs; servers := ss |} in
  (pid = 0 ->
   main argv1 w =
   (ChildExited,
    (target_argument argv1
       ++ [Cout PROMPT_PORT; Cout PROMPT_TUNNEL] ++ questions ++ announced proxy
       ++ [Fork 0; System (ssh_command proxy); Exit 0])%list)) /\
  (pid < 0 ->
   iteration w =
   (inr Continue, {| stdin := rest; forks := fs; servers := ss |},
    ([Cout PROMPT_PORT; Cout PROMPT_TUNNEL] ++ questions ++ announced proxy
       ++ [Fork pid; Cerr ("Erro ao criar processo para SSH" ++ endl);
           Cerr ("Erro ao iniciar t" ++ u_acute ++ "nel SSH reverso!" ++ endl)])%list)).
Proof.
  intros H R Y S Q proxy w. split.
  - intros ->. unfold main, w. cbn [stdin List.length loop].
    rewrite (iteration_with_tunnel _ _ _ _ _ p H R Y).
    rewrite p_bind_run, (request_tunnel_run _ _ _ _ _ _ _ _ _ sp q S Q).
    unfold start. rewrite !p_bind_run.
    cbn -[to_string to_short to_port ssh_command]. reflexivity.
  - intros Neg.
    assert (G : (pid >? 0) = false) by (rewrite Z.gtb_ltb; apply Z.ltb_ge; lia).
    assert (Z0 : (pid =? 0) = false) by (apply Z.eqb_neq; lia).
    unfold w. rewrite (iteration_with_tunnel _ _ _ _ _ p H R Y).
    rewrite p_bind_run, (request_tunnel_run _ _ _ _ _ _ _ _ _ sp q S Q).
    unfold start. rewrite !p_bind_run.
    cbn -[to_string to_short to_port ssh_command Z.gtb Z.eqb].
    rewrite Z0, G. unfold release, stop. rewrite ?p_bind_run.
    cbn -[to_string to_short to_port ssh_command Z.gtb Z.eqb]. reflexivity.
Qed.

Lemma child_runs_ssh_and_failed_fork_asks_again_witness :
  fst (main None
         {| stdin := ["40000"; "s"; "203.0.113.7"; ""; "root"; "secret"; "9000"];
            forks := [0]; servers := [Bound] |})
  = ChildExited.
Proof.
  assert (R : 1 <= 40000 <= 65535) by (split; discriminate).
  exact (f_equal fst
           (proj1 (child_runs_ssh_and_failed_fork_asks_again None "40000" "s"
                     "203.0.113.7" "" "root" "secret" "9000" [] 40000 22 9000 0 []
                     [Bound] eq_refl R (or_introl eq_refl)
                     (or_introl (conj eq_refl eq_refl)) eq_refl)
                  eq_refl)).
Defined.

End Socks5MainMore.

(* ===================================================================== *)
(** ** The threads at shutdown *)
(* ===================================================================== *)

Module ThreadsSpec.
Import HeaderBootstrap Threads.

Lemma run_app ms1 ms2 s : run (ms1 ++ ms2) s = run ms2 (run ms1 s).
Proof. apply fold_left_app. Qed.

Lemma weight_update (f : worker -> nat) i w w' l :
  nth_error l i = Some w ->
  (fold_right Nat.add 0 (map f (update i w' l)) + f w
   = fold_right Nat.add 0 (map f l) + f w')%nat.
Proof.
  revert i; induction l as [|y l IH]; intros [|i] H; try discriminate H.
  - injection H as ->. simpl. lia.
  - simpl in H. specialize (IH i H). simpl. lia.
Qed.

Lemma step_stopped s m :
  running s = false ->
  running (step s m) = false /\
  (List.length (handled (step s m)) + committed (step s m)
   <= List.length (handled s) + committed s)%nat /\
  (List.length (taskQueue s) + waiting (step s m)
   <= List.length (taskQueue (step s m)) + waiting s)%nat.
Proof.
  intros R. unfold committed, waiting, list_sum.
  destruct m as [h| |i|log|]; cbn [step].
  - unfold enqueueTask. cbn. rewrite length_app. cbn. repeat split; auto; lia.
  - unfold signalHandler. cbn. repeat split; auto; lia.
  - unfold poolWorker.
    destruct (nth_error (poolThreads s) i) as [[| |h|]|] eqn:E;
      try (repeat split; auto; lia).
    + rewrite R. pose proof (weight_update engaged i AtLoop Left _ E) as U.
      pose proof (weight_update waits i AtLoop Left _ E) as V.
      cbn in U, V |- *. repeat split; auto; lia.
    + destruct (taskQueue s) as [|h rest] eqn:Q.
      * rewrite R. pose proof (weight_update engaged i AtWait AtLoop _ E) as U.
        pose proof (weight_update waits i AtWait AtLoop _ E) as V.
        cbn in U, V |- *. rewrite Q. cbn. repeat split; auto; lia.
      * pose proof (weight_update engaged i AtWait (Handling h) _ E) as U.
        pose proof (weight_update waits i AtWait (Handling h) _ E) as V.
        cbn in U, V |- *. repeat split; auto; lia.
    + pose proof (weight_update engaged i (Handling h) AtLoop _ E) as U.
      pose proof (weight_update waits i (Handling h) AtLoop _ E) as V.
      cbn in U, V |- *. rewrite length_app. cbn. repeat split; auto; lia.
  - unfold asyncLog. cbn. repeat split; auto; lia.
  - unfold asyncLogWorker.
    destruct (logThread s); try destruct (logQueue s); try rewrite R; cbn;
      repeat split; auto; lia.
Qed.

Lemma run_stopped ms : forall s,
  running s = false ->
  running (run ms s) = false /\
  (List.length (handled (run ms s)) + committed (run ms s)
   <= List.length (handled s) + committed s)%nat /\
  (List.length (taskQueue s) + waiting (run ms s)
   <= List.length (taskQueue (run ms s)) + waiting s)%nat.
Proof.
  induction ms as [|m ms IH]; intros s R.
  - cbn. repeat split; auto; lia.
  - cbn [run fold_left]. change (fold_left step ms (step s m)) with (run ms (step s m)).
    destruct (step_stopped s m R) as (R1 & A & B).
    destruct (IH (step s m) R1) as (R2 & C & D).
    repeat split; auto; lia.
Qed.

(** X29: once the signal has cleared [running], the pool takes from the
    queue at most one more handler for each thread that was in the
    [wait], and nothing sets [running] again: in every interleaving the
    handlers that were handled and the threads in the [wait] or inside
    [handle] never grow together, and the queue loses at most as many
    handlers as threads were waiting.  The handlers queued beyond that
    are never handled nor deleted. *)
Theorem stopped_pool_leaves_the_queue (ms : list move) (s : process) :
  running s = false ->
  running (run ms s) = false /\
  (List.length (handled (run ms s)) + committed (run ms s)
   <= List.length (handled s) + committed s)%nat /\
  (List.length (taskQueue s) <= List.length (taskQueue (run ms s)) + waiting s)%nat.
Proof.
  intros R. destruct (run_stopped ms s R) as (A & B & C).
  repeat split; auto; lia.
Qed.

Lemma stopped_pool_leaves_the_queue_witness :
  let s := signalHandler
             (run [Pool 0; Accepted (new_handler 5 "a");
                   Accepted (new_handler 6 "b");
                   Accepted (new_handler 7 "c")] started) in
  let ms := [Pool 0; Pool 1; Pool 2; Pool 3; Pool 0; Pool 0; Pool 0] in
  waiting s = 1%nat /\
  (3 <= List.length (taskQueue (run ms s)) + 1)%nat.
Proof.
  intros s ms. split; [reflexivity|].
  exact (proj2 (proj2 (stopped_pool_leaves_the_queue ms s eq_refl))).
Defined.

(** *** The log thread *)

Lemma logged_cons m ms : logged (m :: ms) = (logged [m] ++ logged ms)%list.
Proof. unfold logged. cbn. now rewrite app_nil_r. Qed.

Lemma step_log_kept s m :
  logThread s <> LogLeft ->
  (printed (step s m) ++ pending (step s m)
   = printed s ++ pending s ++ logged [m])%list.
Proof.
  intros A. destruct m as [h| |i|log|]; cbn [step logged flat_map app].
  - unfold enqueueTask, pending. cbn. now rewrite !app_nil_r.
  - unfold signalHandler, pending. cbn. now rewrite !app_nil_r.
  - unfold poolWorker, pending.
    destruct (nth_error (poolThreads s) i) as [[| |h|]|];
      try destruct (taskQueue s); try destruct (running s); cbn;
      now rewrite !app_nil_r.
  - unfold asyncLog, pending. cbn. destruct (logThread s); reflexivity.
  - unfold asyncLogWorker, pending. rewrite !app_nil_r.
    destruct (logThread s) as [| |log|] eqn:L; try congruence.
    + destruct (running s || _); reflexivity.
    + destruct (logQueue s) eqn:Q; [destruct (running s)|]; cbn; rewrite ?L, ?Q; reflexivity.
    + cbn. now rewrite <- List.app_assoc.
Qed.

Lemma step_log_left s m :
  logThread s = LogLeft ->
  logThread (step s m) = LogLeft /\ printed (step s m) = printed s /\
  logQueue (step s m) = (logQueue s ++ logged [m])%list.
Proof.
  intros A. destruct m as [h| |i|log|]; cbn [step logged flat_map app];
    rewrite ?app_nil_r.
  - repeat split; auto.
  - repeat split; auto.
  - unfold poolWorker.
    destruct (nth_error (poolThreads s) i) as [[| |h|]|];
      try destruct (taskQueue s); try destruct (running s); repeat split; auto.
  - repeat split; auto.
  - unfold asyncLogWorker. rewrite A. repeat split; auto.
Qed.

Lemma run_log_left ms : forall s,
  logThread s = LogLeft ->
  logThread (run ms s) = LogLeft /\ printed (run ms s) = printed s /\
  logQueue (run ms s) = (logQueue s ++ logged ms)%list.
Proof.
  induction ms as [|m ms IH]; intros s A.
  - cbn. rewrite app_nil_r. auto.
  - cbn [run fold_left]. change (fold_left step ms (step s m)) with (run ms (step s m)).
    destruct (step_log_left s m A) as (A1 & P1 & Q1).
    destruct (IH _ A1) as (A2 & P2 & Q2).
    rewrite P2, P1, Q2, Q1, (logged_cons m ms). repeat split; auto.
    rewrite <- List.app_assoc. reflexivity.
Qed.

Lemma step_leaves s m :
  logThread s <> LogLeft -> logThread (step s m) = LogLeft ->
  pending s = [] /\ logged [m] = [] /\ running s = false /\
  printed (step s m) = printed s.
Proof.
  intros A B. destruct m as [h| |i|log|]; cbn [step] in B.
  - contradiction.
  - contradiction.
  - unfold poolWorker in B.
    destruct (nth_error (poolThreads s) i) as [[| |h|]|];
      try destruct (taskQueue s); try destruct (running s); contradiction.
  - contradiction.
  - cbn [step]. unfold asyncLogWorker in B |- *. unfold pending.
    destruct (logThread s) as [| |log|] eqn:L; try congruence.
    + destruct (running s); [discriminate B|].
      destruct (logQueue s); [auto | discriminate B].
    + destruct (logQueue s); [destruct (running s)|]; cbn in B; congruence.
    + discriminate B.
Qed.

(** X30: the log thread prints every line in the order it was queued and
    ends only when [running] is cleared and nothing is left to print;
    after it has ended nothing is printed any more, and what is logged
    then stays in the queue.  In every interleaving: while the thread has
    not ended the lines printed followed by those still to print are the
    lines there were followed by the lines logged since; if the thread
    ends during the moves, it has printed every line queued or logged
    before its last step. *)
Theorem log_thread_prints_in_order_until_it_ends (ms : list move) (s : process) :
  logThread s <> LogLeft ->
  (logThread (run ms s) <> LogLeft ->
   (printed (run ms s) ++ pending (run ms s)
    = printed s ++ pending s ++ logged ms)%list) /\
  (logThread (run ms s) = LogLeft ->
   exists before later,
     ms = (before ++ later)%list /\
     printed (run ms s) = (printed s ++ pending s ++ logged before)%list /\
     logQueue (run ms s) = logged later /\
     running (run ms s) = false).
Proof.
  revert s. induction ms as [|m ms IH]; intros s A.
  - cbn. split; [intros _; now rewrite app_nil_r | intros B; contradiction].
  - cbn [run fold_left]. change (fold_left step ms (step s m)) with (run ms (step s m)).
    pose proof (step_log_kept s m A) as K.
    destruct (logThread (step s m)) as [| |log|] eqn:L.
    1-3: (destruct (IH (step s m)) as [I1 I2]; [congruence|]; split;
          [ intros B; rewrite (I1 B), (logged_cons m ms),
              (List.app_assoc (printed (step s m))), K, <- ?List.app_assoc;
            reflexivity
          | intros B; destruct (I2 B) as (before & later & -> & P & Q & R);
            exists (m :: before), later; split; [reflexivity|];
            split; [|split; assumption];
            rewrite P, (logged_cons m before),
              (List.app_assoc (printed (step s m))), K, <- ?List.app_assoc;
            reflexivity ]).
    destruct (step_leaves s m A L) as (P0 & M0 & R0 & E0).
    destruct (run_log_left ms _ L) as (A2 & P2 & Q2).
    split; [intros B; contradiction|]. intros _.
    exists [m], ms. split; [reflexivity|]. rewrite P2, E0, P0, M0, Q2.
    assert (Q0 : logQueue (step s m) = []).
    { rewrite E0, P0, M0 in K. apply app_inv_head in K.
      unfold pending in K. rewrite L in K. exact K. }
    rewrite Q0. cbn. rewrite app_nil_r. repeat split; auto.
    destruct (step_stopped s m R0) as (R1 & _).
    exact (proj1 (run_stopped ms _ R1)).
Qed.

Lemma log_thread_prints_in_order_until_it_ends_witness :
  let ms := [Logger; Logs "a"; Logs "b"; Interrupt; Logger; Logger; Logger;
             Logger; Logger; Logger; Logger; Logs "late"; Logger] in
  printed (run ms started) = ["a"; "b"] /\
  exists before later,
    ms = (before ++ later)%list /\
    printed (run ms started)
      = (printed started ++ pending started ++ logged before)%list /\
    logQueue (run ms started) = logged later /\
    running (run ms started) = false.
Proof.
  intros ms. split; [reflexivity|].
  refine (proj2 (log_thread_prints_in_order_until_it_ends ms started _) eq_refl).
  discriminate.
Defined.

End ThreadsSpec.
